(** * add_wikidata_qids: candidate scoring, ranking and row resolution

    A shallow embedding of [add_wikidata_qids.py] (the script that resolves
    taxonomy labels to Wikidata QIDs) together with the properties stated
    for it.  The embedding follows the source function by function:

    - Python floats are IEEE 754 binary64 values ([spec_float] with
      precision 53 and maximal exponent 1024), so every [+=] and every
      comparison below is the rounded machine operation;
    - a Python [str] is the string of its UTF-8 bytes; [lower] and [split]
      work on the code points, with the character data of CPython 3.11
      (Unicode 14.0.0);
    - JSON documents and CSV cells are values of [value]; a [dict] is a
      [gmap string value];
    - the rows read from the CSV file are objects in a heap, so that
      [results.append(r)] (same object) and [dict(r)] (fresh copy) differ;
    - HTTP traffic is an oracle [requests_get] that answers a request given
      the log of the requests made so far; every request is logged;
    - exceptions are explicit results ([Raise]);
    - reading the CSV file, writing the two output files, [print] and
      [time.sleep] are left out: [main] below is the loop over the rows. *)

From Stdlib Require Import ZArith Bool List Lia SpecFloat Ascii String.
From Stdlib Require Import Permutation Sorted.
From stdpp Require Import gmap strings list.

#[local] Set Warnings "-register-all".
#[local] Open Scope Z_scope.

(* ===================================================================== *)
(** ** Binary64 arithmetic *)
(* ===================================================================== *)

Module F64.

Definition prec : Z := 53.
Definition emax : Z := 1024.

Definition float : Type := spec_float.

(** An integer as a float (exact for the small integers used here). *)
Definition of_Z (n : Z) : float := binary_normalize prec emax n 0 false.

(** The decimal literal [n/d] of the source: the binary64 value nearest to
    the quotient, which is what correctly rounded division of the two
    (exactly representable) integers returns. *)
Definition lit (n d : Z) : float := SFdiv prec emax (of_Z n) (of_Z d).

Definition add : float -> float -> float := SFadd prec emax.
Definition ltb : float -> float -> bool := SFltb.
Definition leb : float -> float -> bool := SFleb.
Definition eqb : float -> float -> bool := SFeqb.

(** [x > y] and [x >= y] as Python writes them. *)
Definition gtb (x y : float) : bool := ltb y x.
Definition geb (x y : float) : bool := leb y x.

Definition zero : float := Eval vm_compute in of_Z 0.        (* 0.0  *)
Definition one : float := Eval vm_compute in lit 1 1.        (* 1.0  *)
Definition c045 : float := Eval vm_compute in lit 45 100.    (* 0.45 *)
Definition c030 : float := Eval vm_compute in lit 30 100.    (* 0.30 *)
Definition c015 : float := Eval vm_compute in lit 15 100.    (* 0.15 *)
Definition c005 : float := Eval vm_compute in lit 5 100.     (* 0.05 *)
Definition c020 : float := Eval vm_compute in lit 20 100.    (* 0.20 *)
Definition c075 : float := Eval vm_compute in lit 75 100.    (* 0.75 *)
Definition c080 : float := Eval vm_compute in lit 8 10.      (* 0.8  *)

Definition is_nan (x : float) : bool :=
  match x with S754_nan => true | _ => false end.

(** Not NaN and not below zero (a zero of either sign counts). *)
Definition nonneg (x : float) : bool :=
  match x with
  | S754_zero _ => true
  | S754_infinity s => negb s
  | S754_nan => false
  | S754_finite s _ _ => negb s
  end.

(** A key that orders the non-NaN floats as [SFcompare] does:
    lexicographically by sign class, exponent and mantissa. *)
Definition key (x : float) : Z * Z * Z :=
  match x with
  | S754_zero _ => (0, 0, 0)
  | S754_infinity false => (2, 0, 0)
  | S754_infinity true => (-2, 0, 0)
  | S754_nan => (0, 0, 0)
  | S754_finite false m e => (1, e, Zpos m)
  | S754_finite true m e => (-1, - e, Zneg m)
  end.

Definition key_lt (a b : Z * Z * Z) : Prop :=
  let '(a1, a2, a3) := a in
  let '(b1, b2, b3) := b in
  a1 < b1 \/ (a1 = b1 /\ (a2 < b2 \/ (a2 = b2 /\ a3 < b3))).

(** A normal float strictly above 1.0, or plus infinity. *)
Definition above_one (x : float) : Prop :=
  match x with
  | S754_infinity false => True
  | S754_finite false m e =>
      2 ^ 52 <= Zpos m < 2 ^ 53 /\ -52 <= e <= 971
      /\ (e = -52 -> 2 ^ 52 < Zpos m)
  | _ => False
  end.

(** A positive float below 1.0 whose mantissa has at most 53 digits. *)
Definition small_addend (c : float) : Prop :=
  match c with
  | S754_finite false m e => Zpos m < 2 ^ 53 /\ e <= -53
  | _ => False
  end.

End F64.

Abbreviation float := F64.float.

(* ===================================================================== *)
(** ** Unicode data *)
(* ===================================================================== *)

(** The character data that [str.lower] and [str.split] consult, as
    CPython 3.11 has them (Unicode 14.0.0): the white space characters, the
    properties Cased and Case_Ignorable, and the lowercase mappings.  A code
    point is a number; tables are lists of ranges. *)
Module Unicode.

#[local] Open Scope N_scope.

Definition in_ranges (table : list (N * N)) (c : N) : bool :=
  existsb (fun '(lo, hi) => (lo <=? c) && (c <=? hi)) table.

(** [Py_UNICODE_ISSPACE]: bidirectional type WS, B or S, or category Zs. *)
Definition whitespace : list (N * N) :=
  [(0x9, 0xD); (0x1C, 0x20); (0x85, 0x85); (0xA0, 0xA0); (0x1680, 0x1680);
   (0x2000, 0x200A); (0x2028, 0x2029); (0x202F, 0x202F); (0x205F, 0x205F);
   (0x3000, 0x3000)].

Definition is_space (c : N) : bool := in_ranges whitespace c.

(** The property Cased ([_PyUnicode_IsCased]). *)
Definition cased : list (N * N) :=
  [
   (0x41, 0x5A); (0x61, 0x7A); (0xAA, 0xAA); (0xB5, 0xB5);
   (0xBA, 0xBA); (0xC0, 0xD6); (0xD8, 0xF6); (0xF8, 0x1BA);
   (0x1BC, 0x1BF); (0x1C4, 0x293); (0x295, 0x2B8); (0x2C0, 0x2C1);
   (0x2E0, 0x2E4); (0x345, 0x345); (0x370, 0x373); (0x376, 0x377);
   (0x37A, 0x37D); (0x37F, 0x37F); (0x386, 0x386); (0x388, 0x38A);
   (0x38C, 0x38C); (0x38E, 0x3A1); (0x3A3, 0x3F5); (0x3F7, 0x481);
   (0x48A, 0x52F); (0x531, 0x556); (0x560, 0x588); (0x10A0, 0x10C5);
   (0x10C7, 0x10C7); (0x10CD, 0x10CD); (0x10D0, 0x10FA); (0x10FD, 0x10FF);
   (0x13A0, 0x13F5); (0x13F8, 0x13FD); (0x1C80, 0x1C88); (0x1C90, 0x1CBA);
   (0x1CBD, 0x1CBF); (0x1D00, 0x1DBF); (0x1E00, 0x1F15); (0x1F18, 0x1F1D);
   (0x1F20, 0x1F45); (0x1F48, 0x1F4D); (0x1F50, 0x1F57); (0x1F59, 0x1F59);
   (0x1F5B, 0x1F5B); (0x1F5D, 0x1F5D); (0x1F5F, 0x1F7D); (0x1F80, 0x1FB4);
   (0x1FB6, 0x1FBC); (0x1FBE, 0x1FBE); (0x1FC2, 0x1FC4); (0x1FC6, 0x1FCC);
   (0x1FD0, 0x1FD3); (0x1FD6, 0x1FDB); (0x1FE0, 0x1FEC); (0x1FF2, 0x1FF4);
   (0x1FF6, 0x1FFC); (0x2071, 0x2071); (0x207F, 0x207F); (0x2090, 0x209C);
   (0x2102, 0x2102); (0x2107, 0x2107); (0x210A, 0x2113); (0x2115, 0x2115);
   (0x2119, 0x211D); (0x2124, 0x2124); (0x2126, 0x2126); (0x2128, 0x2128);
   (0x212A, 0x212D); (0x212F, 0x2134); (0x2139, 0x2139); (0x213C, 0x213F);
   (0x2145, 0x2149); (0x214E, 0x214E); (0x2160, 0x217F); (0x2183, 0x2184);
   (0x24B6, 0x24E9); (0x2C00, 0x2CE4); (0x2CEB, 0x2CEE); (0x2CF2, 0x2CF3);
   (0x2D00, 0x2D25); (0x2D27, 0x2D27); (0x2D2D, 0x2D2D); (0xA640, 0xA66D);
   (0xA680, 0xA69D); (0xA722, 0xA787); (0xA78B, 0xA78E); (0xA790, 0xA7CA);
   (0xA7D0, 0xA7D1); (0xA7D3, 0xA7D3); (0xA7D5, 0xA7D9); (0xA7F5, 0xA7F6);
   (0xA7F8, 0xA7FA); (0xAB30, 0xAB5A); (0xAB5C, 0xAB68); (0xAB70, 0xABBF);
   (0xFB00, 0xFB06); (0xFB13, 0xFB17); (0xFF21, 0xFF3A); (0xFF41, 0xFF5A);
   (0x10400, 0x1044F); (0x104B0, 0x104D3); (0x104D8, 0x104FB); (0x10570, 0x1057A);
   (0x1057C, 0x1058A); (0x1058C, 0x10592); (0x10594, 0x10595); (0x10597, 0x105A1);
   (0x105A3, 0x105B1); (0x105B3, 0x105B9); (0x105BB, 0x105BC); (0x10780, 0x10780);
   (0x10783, 0x10785); (0x10787, 0x107B0); (0x107B2, 0x107BA); (0x10C80, 0x10CB2);
   (0x10CC0, 0x10CF2); (0x118A0, 0x118DF); (0x16E40, 0x16E7F); (0x1D400, 0x1D454);
   (0x1D456, 0x1D49C); (0x1D49E, 0x1D49F); (0x1D4A2, 0x1D4A2); (0x1D4A5, 0x1D4A6);
   (0x1D4A9, 0x1D4AC); (0x1D4AE, 0x1D4B9); (0x1D4BB, 0x1D4BB); (0x1D4BD, 0x1D4C3);
   (0x1D4C5, 0x1D505); (0x1D507, 0x1D50A); (0x1D50D, 0x1D514); (0x1D516, 0x1D51C);
   (0x1D51E, 0x1D539); (0x1D53B, 0x1D53E); (0x1D540, 0x1D544); (0x1D546, 0x1D546);
   (0x1D54A, 0x1D550); (0x1D552, 0x1D6A5); (0x1D6A8, 0x1D6C0); (0x1D6C2, 0x1D6DA);
   (0x1D6DC, 0x1D6FA); (0x1D6FC, 0x1D714); (0x1D716, 0x1D734); (0x1D736, 0x1D74E);
   (0x1D750, 0x1D76E); (0x1D770, 0x1D788); (0x1D78A, 0x1D7A8); (0x1D7AA, 0x1D7C2);
   (0x1D7C4, 0x1D7CB); (0x1DF00, 0x1DF09); (0x1DF0B, 0x1DF1E); (0x1E900, 0x1E943);
   (0x1F130, 0x1F149); (0x1F150, 0x1F169); (0x1F170, 0x1F189)
  ].

Definition is_cased (c : N) : bool := in_ranges cased c.

(** The property Case_Ignorable ([_PyUnicode_IsCaseIgnorable]). *)
Definition case_ignorable : list (N * N) :=
  [
   (0x27, 0x27); (0x2E, 0x2E); (0x3A, 0x3A); (0x5E, 0x5E);
   (0x60, 0x60); (0xA8, 0xA8); (0xAD, 0xAD); (0xAF, 0xAF);
   (0xB4, 0xB4); (0xB7, 0xB8); (0x2B0, 0x36F); (0x374, 0x375);
   (0x37A, 0x37A); (0x384, 0x385); (0x387, 0x387); (0x483, 0x489);
   (0x559, 0x559); (0x55F, 0x55F); (0x591, 0x5BD); (0x5BF, 0x5BF);
   (0x5C1, 0x5C2); (0x5C4, 0x5C5); (0x5C7, 0x5C7); (0x5F4, 0x5F4);
   (0x600, 0x605); (0x610, 0x61A); (0x61C, 0x61C); (0x640, 0x640);
   (0x64B, 0x65F); (0x670, 0x670); (0x6D6, 0x6DD); (0x6DF, 0x6E8);
   (0x6EA, 0x6ED); (0x70F, 0x70F); (0x711, 0x711); (0x730, 0x74A);
   (0x7A6, 0x7B0); (0x7EB, 0x7F5); (0x7FA, 0x7FA); (0x7FD, 0x7FD);
   (0x816, 0x82D); (0x859, 0x85B); (0x888, 0x888); (0x890, 0x891);
   (0x898, 0x89F); (0x8C9, 0x902); (0x93A, 0x93A); (0x93C, 0x93C);
   (0x941, 0x948); (0x94D, 0x94D); (0x951, 0x957); (0x962, 0x963);
   (0x971, 0x971); (0x981, 0x981); (0x9BC, 0x9BC); (0x9C1, 0x9C4);
   (0x9CD, 0x9CD); (0x9E2, 0x9E3); (0x9FE, 0x9FE); (0xA01, 0xA02);
   (0xA3C, 0xA3C); (0xA41, 0xA42); (0xA47, 0xA48); (0xA4B, 0xA4D);
   (0xA51, 0xA51); (0xA70, 0xA71); (0xA75, 0xA75); (0xA81, 0xA82);
   (0xABC, 0xABC); (0xAC1, 0xAC5); (0xAC7, 0xAC8); (0xACD, 0xACD);
   (0xAE2, 0xAE3); (0xAFA, 0xAFF); (0xB01, 0xB01); (0xB3C, 0xB3C);
   (0xB3F, 0xB3F); (0xB41, 0xB44); (0xB4D, 0xB4D); (0xB55, 0xB56);
   (0xB62, 0xB63); (0xB82, 0xB82); (0xBC0, 0xBC0); (0xBCD, 0xBCD);
   (0xC00, 0xC00); (0xC04, 0xC04); (0xC3C, 0xC3C); (0xC3E, 0xC40);
   (0xC46, 0xC48); (0xC4A, 0xC4D); (0xC55, 0xC56); (0xC62, 0xC63);
   (0xC81, 0xC81); (0xCBC, 0xCBC); (0xCBF, 0xCBF); (0xCC6, 0xCC6);
   (0xCCC, 0xCCD); (0xCE2, 0xCE3); (0xD00, 0xD01); (0xD3B, 0xD3C);
   (0xD41, 0xD44); (0xD4D, 0xD4D); (0xD62, 0xD63); (0xD81, 0xD81);
   (0xDCA, 0xDCA); (0xDD2, 0xDD4); (0xDD6, 0xDD6); (0xE31, 0xE31);
   (0xE34, 0xE3A); (0xE46, 0xE4E); (0xEB1, 0xEB1); (0xEB4, 0xEBC);
   (0xEC6, 0xEC6); (0xEC8, 0xECD); (0xF18, 0xF19); (0xF35, 0xF35);
   (0xF37, 0xF37); (0xF39, 0xF39); (0xF71, 0xF7E); (0xF80, 0xF84);
   (0xF86, 0xF87); (0xF8D, 0xF97); (0xF99, 0xFBC); (0xFC6, 0xFC6);
   (0x102D, 0x1030); (0x1032, 0x1037); (0x1039, 0x103A); (0x103D, 0x103E);
   (0x1058, 0x1059); (0x105E, 0x1060); (0x1071, 0x1074); (0x1082, 0x1082);
   (0x1085, 0x1086); (0x108D, 0x108D); (0x109D, 0x109D); (0x10FC, 0x10FC);
   (0x135D, 0x135F); (0x1712, 0x1714); (0x1732, 0x1733); (0x1752, 0x1753);
   (0x1772, 0x1773); (0x17B4, 0x17B5); (0x17B7, 0x17BD); (0x17C6, 0x17C6);
   (0x17C9, 0x17D3); (0x17D7, 0x17D7); (0x17DD, 0x17DD); (0x180B, 0x180F);
   (0x1843, 0x1843); (0x1885, 0x1886); (0x18A9, 0x18A9); (0x1920, 0x1922);
   (0x1927, 0x1928); (0x1932, 0x1932); (0x1939, 0x193B); (0x1A17, 0x1A18);
   (0x1A1B, 0x1A1B); (0x1A56, 0x1A56); (0x1A58, 0x1A5E); (0x1A60, 0x1A60);
   (0x1A62, 0x1A62); (0x1A65, 0x1A6C); (0x1A73, 0x1A7C); (0x1A7F, 0x1A7F);
   (0x1AA7, 0x1AA7); (0x1AB0, 0x1ACE); (0x1B00, 0x1B03); (0x1B34, 0x1B34);
   (0x1B36, 0x1B3A); (0x1B3C, 0x1B3C); (0x1B42, 0x1B42); (0x1B6B, 0x1B73);
   (0x1B80, 0x1B81); (0x1BA2, 0x1BA5); (0x1BA8, 0x1BA9); (0x1BAB, 0x1BAD);
   (0x1BE6, 0x1BE6); (0x1BE8, 0x1BE9); (0x1BED, 0x1BED); (0x1BEF, 0x1BF1);
   (0x1C2C, 0x1C33); (0x1C36, 0x1C37); (0x1C78, 0x1C7D); (0x1CD0, 0x1CD2);
   (0x1CD4, 0x1CE0); (0x1CE2, 0x1CE8); (0x1CED, 0x1CED); (0x1CF4, 0x1CF4);
   (0x1CF8, 0x1CF9); (0x1D2C, 0x1D6A); (0x1D78, 0x1D78); (0x1D9B, 0x1DFF);
   (0x1FBD, 0x1FBD); (0x1FBF, 0x1FC1); (0x1FCD, 0x1FCF); (0x1FDD, 0x1FDF);
   (0x1FED, 0x1FEF); (0x1FFD, 0x1FFE); (0x200B, 0x200F); (0x2018, 0x2019);
   (0x2024, 0x2024); (0x2027, 0x2027); (0x202A, 0x202E); (0x2060, 0x2064);
   (0x2066, 0x206F); (0x2071, 0x2071); (0x207F, 0x207F); (0x2090, 0x209C);
   (0x20D0, 0x20F0); (0x2C7C, 0x2C7D); (0x2CEF, 0x2CF1); (0x2D6F, 0x2D6F);
   (0x2D7F, 0x2D7F); (0x2DE0, 0x2DFF); (0x2E2F, 0x2E2F); (0x3005, 0x3005);
   (0x302A, 0x302D); (0x3031, 0x3035); (0x303B, 0x303B); (0x3099, 0x309E);
   (0x30FC, 0x30FE); (0xA015, 0xA015); (0xA4F8, 0xA4FD); (0xA60C, 0xA60C);
   (0xA66F, 0xA672); (0xA674, 0xA67D); (0xA67F, 0xA67F); (0xA69C, 0xA69F);
   (0xA6F0, 0xA6F1); (0xA700, 0xA721); (0xA770, 0xA770); (0xA788, 0xA78A);
   (0xA7F2, 0xA7F4); (0xA7F8, 0xA7F9); (0xA802, 0xA802); (0xA806, 0xA806);
   (0xA80B, 0xA80B); (0xA825, 0xA826); (0xA82C, 0xA82C); (0xA8C4, 0xA8C5);
   (0xA8E0, 0xA8F1); (0xA8FF, 0xA8FF); (0xA926, 0xA92D); (0xA947, 0xA951);
   (0xA980, 0xA982); (0xA9B3, 0xA9B3); (0xA9B6, 0xA9B9); (0xA9BC, 0xA9BD);
   (0xA9CF, 0xA9CF); (0xA9E5, 0xA9E6); (0xAA29, 0xAA2E); (0xAA31, 0xAA32);
   (0xAA35, 0xAA36); (0xAA43, 0xAA43); (0xAA4C, 0xAA4C); (0xAA70, 0xAA70);
   (0xAA7C, 0xAA7C); (0xAAB0, 0xAAB0); (0xAAB2, 0xAAB4); (0xAAB7, 0xAAB8);
   (0xAABE, 0xAABF); (0xAAC1, 0xAAC1); (0xAADD, 0xAADD); (0xAAEC, 0xAAED);
   (0xAAF3, 0xAAF4); (0xAAF6, 0xAAF6); (0xAB5B, 0xAB5F); (0xAB69, 0xAB6B);
   (0xABE5, 0xABE5); (0xABE8, 0xABE8); (0xABED, 0xABED); (0xFB1E, 0xFB1E);
   (0xFBB2, 0xFBC2); (0xFE00, 0xFE0F); (0xFE13, 0xFE13); (0xFE20, 0xFE2F);
   (0xFE52, 0xFE52); (0xFE55, 0xFE55); (0xFEFF, 0xFEFF); (0xFF07, 0xFF07);
   (0xFF0E, 0xFF0E); (0xFF1A, 0xFF1A); (0xFF3E, 0xFF3E); (0xFF40, 0xFF40);
   (0xFF70, 0xFF70); (0xFF9E, 0xFF9F); (0xFFE3, 0xFFE3); (0xFFF9, 0xFFFB);
   (0x101FD, 0x101FD); (0x102E0, 0x102E0); (0x10376, 0x1037A); (0x10780, 0x10785);
   (0x10787, 0x107B0); (0x107B2, 0x107BA); (0x10A01, 0x10A03); (0x10A05, 0x10A06);
   (0x10A0C, 0x10A0F); (0x10A38, 0x10A3A); (0x10A3F, 0x10A3F); (0x10AE5, 0x10AE6);
   (0x10D24, 0x10D27); (0x10EAB, 0x10EAC); (0x10F46, 0x10F50); (0x10F82, 0x10F85);
   (0x11001, 0x11001); (0x11038, 0x11046); (0x11070, 0x11070); (0x11073, 0x11074);
   (0x1107F, 0x11081); (0x110B3, 0x110B6); (0x110B9, 0x110BA); (0x110BD, 0x110BD);
   (0x110C2, 0x110C2); (0x110CD, 0x110CD); (0x11100, 0x11102); (0x11127, 0x1112B);
   (0x1112D, 0x11134); (0x11173, 0x11173); (0x11180, 0x11181); (0x111B6, 0x111BE);
   (0x111C9, 0x111CC); (0x111CF, 0x111CF); (0x1122F, 0x11231); (0x11234, 0x11234);
   (0x11236, 0x11237); (0x1123E, 0x1123E); (0x112DF, 0x112DF); (0x112E3, 0x112EA);
   (0x11300, 0x11301); (0x1133B, 0x1133C); (0x11340, 0x11340); (0x11366, 0x1136C);
   (0x11370, 0x11374); (0x11438, 0x1143F); (0x11442, 0x11444); (0x11446, 0x11446);
   (0x1145E, 0x1145E); (0x114B3, 0x114B8); (0x114BA, 0x114BA); (0x114BF, 0x114C0);
   (0x114C2, 0x114C3); (0x115B2, 0x115B5); (0x115BC, 0x115BD); (0x115BF, 0x115C0);
   (0x115DC, 0x115DD); (0x11633, 0x1163A); (0x1163D, 0x1163D); (0x1163F, 0x11640);
   (0x116AB, 0x116AB); (0x116AD, 0x116AD); (0x116B0, 0x116B5); (0x116B7, 0x116B7);
   (0x1171D, 0x1171F); (0x11722, 0x11725); (0x11727, 0x1172B); (0x1182F, 0x11837);
   (0x11839, 0x1183A); (0x1193B, 0x1193C); (0x1193E, 0x1193E); (0x11943, 0x11943);
   (0x119D4, 0x119D7); (0x119DA, 0x119DB); (0x119E0, 0x119E0); (0x11A01, 0x11A0A);
   (0x11A33, 0x11A38); (0x11A3B, 0x11A3E); (0x11A47, 0x11A47); (0x11A51, 0x11A56);
   (0x11A59, 0x11A5B); (0x11A8A, 0x11A96); (0x11A98, 0x11A99); (0x11C30, 0x11C36);
   (0x11C38, 0x11C3D); (0x11C3F, 0x11C3F); (0x11C92, 0x11CA7); (0x11CAA, 0x11CB0);
   (0x11CB2, 0x11CB3); (0x11CB5, 0x11CB6); (0x11D31, 0x11D36); (0x11D3A, 0x11D3A);
   (0x11D3C, 0x11D3D); (0x11D3F, 0x11D45); (0x11D47, 0x11D47); (0x11D90, 0x11D91);
   (0x11D95, 0x11D95); (0x11D97, 0x11D97); (0x11EF3, 0x11EF4); (0x13430, 0x13438);
   (0x16AF0, 0x16AF4); (0x16B30, 0x16B36); (0x16B40, 0x16B43); (0x16F4F, 0x16F4F);
   (0x16F8F, 0x16F9F); (0x16FE0, 0x16FE1); (0x16FE3, 0x16FE4); (0x1AFF0, 0x1AFF3);
   (0x1AFF5, 0x1AFFB); (0x1AFFD, 0x1AFFE); (0x1BC9D, 0x1BC9E); (0x1BCA0, 0x1BCA3);
   (0x1CF00, 0x1CF2D); (0x1CF30, 0x1CF46); (0x1D167, 0x1D169); (0x1D173, 0x1D182);
   (0x1D185, 0x1D18B); (0x1D1AA, 0x1D1AD); (0x1D242, 0x1D244); (0x1DA00, 0x1DA36);
   (0x1DA3B, 0x1DA6C); (0x1DA75, 0x1DA75); (0x1DA84, 0x1DA84); (0x1DA9B, 0x1DA9F);
   (0x1DAA1, 0x1DAAF); (0x1E000, 0x1E006); (0x1E008, 0x1E018); (0x1E01B, 0x1E021);
   (0x1E023, 0x1E024); (0x1E026, 0x1E02A); (0x1E130, 0x1E13D); (0x1E2AE, 0x1E2AE);
   (0x1E2EC, 0x1E2EF); (0x1E8D0, 0x1E8D6); (0x1E944, 0x1E94B); (0x1F3FB, 0x1F3FF);
   (0xE0001, 0xE0001); (0xE0020, 0xE007F); (0xE0100, 0xE01EF)
  ].

Definition is_case_ignorable (c : N) : bool := in_ranges case_ignorable c.

(** The lowercase mappings to one code point: [(lo, hi, step, lo')] maps
    every [step]-th code point [c] from [lo] to [hi] to [lo' + (c - lo)]. *)
Definition lowercase : list (N * N * N * N) :=
  [
   (0x41, 0x5A, 1, 0x61); (0xC0, 0xD6, 1, 0xE0); (0xD8, 0xDE, 1, 0xF8);
   (0x100, 0x12E, 2, 0x101); (0x132, 0x136, 2, 0x133); (0x139, 0x147, 2, 0x13A);
   (0x14A, 0x176, 2, 0x14B); (0x178, 0x178, 1, 0xFF); (0x179, 0x17D, 2, 0x17A);
   (0x181, 0x181, 1, 0x253); (0x182, 0x184, 2, 0x183); (0x186, 0x186, 1, 0x254);
   (0x187, 0x187, 1, 0x188); (0x189, 0x18A, 1, 0x256); (0x18B, 0x18B, 1, 0x18C);
   (0x18E, 0x18E, 1, 0x1DD); (0x18F, 0x18F, 1, 0x259); (0x190, 0x190, 1, 0x25B);
   (0x191, 0x191, 1, 0x192); (0x193, 0x193, 1, 0x260); (0x194, 0x194, 1, 0x263);
   (0x196, 0x196, 1, 0x269); (0x197, 0x197, 1, 0x268); (0x198, 0x198, 1, 0x199);
   (0x19C, 0x19C, 1, 0x26F); (0x19D, 0x19D, 1, 0x272); (0x19F, 0x19F, 1, 0x275);
   (0x1A0, 0x1A4, 2, 0x1A1); (0x1A6, 0x1A6, 1, 0x280); (0x1A7, 0x1A7, 1, 0x1A8);
   (0x1A9, 0x1A9, 1, 0x283); (0x1AC, 0x1AC, 1, 0x1AD); (0x1AE, 0x1AE, 1, 0x288);
   (0x1AF, 0x1AF, 1, 0x1B0); (0x1B1, 0x1B2, 1, 0x28A); (0x1B3, 0x1B5, 2, 0x1B4);
   (0x1B7, 0x1B7, 1, 0x292); (0x1B8, 0x1B8, 1, 0x1B9); (0x1BC, 0x1BC, 1, 0x1BD);
   (0x1C4, 0x1C4, 1, 0x1C6); (0x1C5, 0x1C5, 1, 0x1C6); (0x1C7, 0x1C7, 1, 0x1C9);
   (0x1C8, 0x1C8, 1, 0x1C9); (0x1CA, 0x1CA, 1, 0x1CC); (0x1CB, 0x1DB, 2, 0x1CC);
   (0x1DE, 0x1EE, 2, 0x1DF); (0x1F1, 0x1F1, 1, 0x1F3); (0x1F2, 0x1F4, 2, 0x1F3);
   (0x1F6, 0x1F6, 1, 0x195); (0x1F7, 0x1F7, 1, 0x1BF); (0x1F8, 0x21E, 2, 0x1F9);
   (0x220, 0x220, 1, 0x19E); (0x222, 0x232, 2, 0x223); (0x23A, 0x23A, 1, 0x2C65);
   (0x23B, 0x23B, 1, 0x23C); (0x23D, 0x23D, 1, 0x19A); (0x23E, 0x23E, 1, 0x2C66);
   (0x241, 0x241, 1, 0x242); (0x243, 0x243, 1, 0x180); (0x244, 0x244, 1, 0x289);
   (0x245, 0x245, 1, 0x28C); (0x246, 0x24E, 2, 0x247); (0x370, 0x372, 2, 0x371);
   (0x376, 0x376, 1, 0x377); (0x37F, 0x37F, 1, 0x3F3); (0x386, 0x386, 1, 0x3AC);
   (0x388, 0x38A, 1, 0x3AD); (0x38C, 0x38C, 1, 0x3CC); (0x38E, 0x38F, 1, 0x3CD);
   (0x391, 0x3A1, 1, 0x3B1); (0x3A3, 0x3AB, 1, 0x3C3); (0x3CF, 0x3CF, 1, 0x3D7);
   (0x3D8, 0x3EE, 2, 0x3D9); (0x3F4, 0x3F4, 1, 0x3B8); (0x3F7, 0x3F7, 1, 0x3F8);
   (0x3F9, 0x3F9, 1, 0x3F2); (0x3FA, 0x3FA, 1, 0x3FB); (0x3FD, 0x3FF, 1, 0x37B);
   (0x400, 0x40F, 1, 0x450); (0x410, 0x42F, 1, 0x430); (0x460, 0x480, 2, 0x461);
   (0x48A, 0x4BE, 2, 0x48B); (0x4C0, 0x4C0, 1, 0x4CF); (0x4C1, 0x4CD, 2, 0x4C2);
   (0x4D0, 0x52E, 2, 0x4D1); (0x531, 0x556, 1, 0x561); (0x10A0, 0x10C5, 1, 0x2D00);
   (0x10C7, 0x10C7, 1, 0x2D27); (0x10CD, 0x10CD, 1, 0x2D2D); (0x13A0, 0x13EF, 1, 0xAB70);
   (0x13F0, 0x13F5, 1, 0x13F8); (0x1C90, 0x1CBA, 1, 0x10D0); (0x1CBD, 0x1CBF, 1, 0x10FD);
   (0x1E00, 0x1E94, 2, 0x1E01); (0x1E9E, 0x1E9E, 1, 0xDF); (0x1EA0, 0x1EFE, 2, 0x1EA1);
   (0x1F08, 0x1F0F, 1, 0x1F00); (0x1F18, 0x1F1D, 1, 0x1F10); (0x1F28, 0x1F2F, 1, 0x1F20);
   (0x1F38, 0x1F3F, 1, 0x1F30); (0x1F48, 0x1F4D, 1, 0x1F40); (0x1F59, 0x1F5F, 2, 0x1F51);
   (0x1F68, 0x1F6F, 1, 0x1F60); (0x1F88, 0x1F8F, 1, 0x1F80); (0x1F98, 0x1F9F, 1, 0x1F90);
   (0x1FA8, 0x1FAF, 1, 0x1FA0); (0x1FB8, 0x1FB9, 1, 0x1FB0); (0x1FBA, 0x1FBB, 1, 0x1F70);
   (0x1FBC, 0x1FBC, 1, 0x1FB3); (0x1FC8, 0x1FCB, 1, 0x1F72); (0x1FCC, 0x1FCC, 1, 0x1FC3);
   (0x1FD8, 0x1FD9, 1, 0x1FD0); (0x1FDA, 0x1FDB, 1, 0x1F76); (0x1FE8, 0x1FE9, 1, 0x1FE0);
   (0x1FEA, 0x1FEB, 1, 0x1F7A); (0x1FEC, 0x1FEC, 1, 0x1FE5); (0x1FF8, 0x1FF9, 1, 0x1F78);
   (0x1FFA, 0x1FFB, 1, 0x1F7C); (0x1FFC, 0x1FFC, 1, 0x1FF3); (0x2126, 0x2126, 1, 0x3C9);
   (0x212A, 0x212A, 1, 0x6B); (0x212B, 0x212B, 1, 0xE5); (0x2132, 0x2132, 1, 0x214E);
   (0x2160, 0x216F, 1, 0x2170); (0x2183, 0x2183, 1, 0x2184); (0x24B6, 0x24CF, 1, 0x24D0);
   (0x2C00, 0x2C2F, 1, 0x2C30); (0x2C60, 0x2C60, 1, 0x2C61); (0x2C62, 0x2C62, 1, 0x26B);
   (0x2C63, 0x2C63, 1, 0x1D7D); (0x2C64, 0x2C64, 1, 0x27D); (0x2C67, 0x2C6B, 2, 0x2C68);
   (0x2C6D, 0x2C6D, 1, 0x251); (0x2C6E, 0x2C6E, 1, 0x271); (0x2C6F, 0x2C6F, 1, 0x250);
   (0x2C70, 0x2C70, 1, 0x252); (0x2C72, 0x2C72, 1, 0x2C73); (0x2C75, 0x2C75, 1, 0x2C76);
   (0x2C7E, 0x2C7F, 1, 0x23F); (0x2C80, 0x2CE2, 2, 0x2C81); (0x2CEB, 0x2CED, 2, 0x2CEC);
   (0x2CF2, 0x2CF2, 1, 0x2CF3); (0xA640, 0xA66C, 2, 0xA641); (0xA680, 0xA69A, 2, 0xA681);
   (0xA722, 0xA72E, 2, 0xA723); (0xA732, 0xA76E, 2, 0xA733); (0xA779, 0xA77B, 2, 0xA77A);
   (0xA77D, 0xA77D, 1, 0x1D79); (0xA77E, 0xA786, 2, 0xA77F); (0xA78B, 0xA78B, 1, 0xA78C);
   (0xA78D, 0xA78D, 1, 0x265); (0xA790, 0xA792, 2, 0xA791); (0xA796, 0xA7A8, 2, 0xA797);
   (0xA7AA, 0xA7AA, 1, 0x266); (0xA7AB, 0xA7AB, 1, 0x25C); (0xA7AC, 0xA7AC, 1, 0x261);
   (0xA7AD, 0xA7AD, 1, 0x26C); (0xA7AE, 0xA7AE, 1, 0x26A); (0xA7B0, 0xA7B0, 1, 0x29E);
   (0xA7B1, 0xA7B1, 1, 0x287); (0xA7B2, 0xA7B2, 1, 0x29D); (0xA7B3, 0xA7B3, 1, 0xAB53);
   (0xA7B4, 0xA7C2, 2, 0xA7B5); (0xA7C4, 0xA7C4, 1, 0xA794); (0xA7C5, 0xA7C5, 1, 0x282);
   (0xA7C6, 0xA7C6, 1, 0x1D8E); (0xA7C7, 0xA7C9, 2, 0xA7C8); (0xA7D0, 0xA7D0, 1, 0xA7D1);
   (0xA7D6, 0xA7D8, 2, 0xA7D7); (0xA7F5, 0xA7F5, 1, 0xA7F6); (0xFF21, 0xFF3A, 1, 0xFF41);
   (0x10400, 0x10427, 1, 0x10428); (0x104B0, 0x104D3, 1, 0x104D8); (0x10570, 0x10594, 2, 0x10597);
   (0x10571, 0x1057A, 1, 0x10598); (0x1057C, 0x1058A, 1, 0x105A3); (0x1058C, 0x10592, 1, 0x105B3);
   (0x10594, 0x10595, 1, 0x105BB); (0x10C80, 0x10CB2, 1, 0x10CC0); (0x118A0, 0x118BF, 1, 0x118C0);
   (0x16E40, 0x16E5F, 1, 0x16E60); (0x1E900, 0x1E921, 1, 0x1E922)
  ].

Definition to_lower (c : N) : N :=
  match List.find (fun '(lo, hi, step, _) =>
                     (lo <=? c) && (c <=? hi) && ((c - lo) mod step =? 0))
          lowercase with
  | Some (lo, _, _, lo') => lo' + (c - lo)
  | None => c
  end.

(** [_PyUnicode_ToLowerFull]: the one lowercase mapping to more than one
    code point is that of U+0130 (capital I with dot above). *)
Definition to_lower_full (c : N) : list N :=
  if c =? 0x130 then [0x69; 0x307] else [to_lower c].

End Unicode.

(* ===================================================================== *)
(** ** Python strings *)
(* ===================================================================== *)

(** A Python [str] is a sequence of code points; here it is the string of
    its UTF-8 bytes (a lone surrogate, which a [str] may hold, in the
    three-byte form).  Equality, concatenation, emptiness and the substring
    test of two encoded strings are those of the code point sequences;
    [lower] and [split] decode first. *)
Module Utf8.

#[local] Open Scope N_scope.

Definition is_cont (b : N) : bool := (0x80 <=? b) && (b <=? 0xBF).

(** A byte that is not part of a well-formed sequence stands for itself,
    as a number above the code points. *)
Definition stray (b : N) : N := 0x110000 + b.

Fixpoint decode (s : string) : list N :=
  match s with
  | EmptyString => []
  | String a0 s1 =>
      let b0 := N_of_ascii a0 in
      if b0 <? 0x80 then b0 :: decode s1
      else
        match s1 with
        | EmptyString => [stray b0]
        | String a1 s2 =>
            let b1 := N_of_ascii a1 in
            let c2 := (b0 - 0xC0) * 0x40 + (b1 - 0x80) in
            if (0xC0 <=? b0) && (b0 <? 0xE0) && is_cont b1 && (0x80 <=? c2)
            then c2 :: decode s2
            else
              match s2 with
              | EmptyString => stray b0 :: decode s1
              | String a2 s3 =>
                  let b2 := N_of_ascii a2 in
                  let c3 := ((b0 - 0xE0) * 0x40 + (b1 - 0x80)) * 0x40
                            + (b2 - 0x80) in
                  if (0xE0 <=? b0) && (b0 <? 0xF0) && is_cont b1 && is_cont b2
                     && (0x800 <=? c3)
                  then c3 :: decode s3
                  else
                    match s3 with
                    | EmptyString => stray b0 :: decode s1
                    | String a3 s4 =>
                        let b3 := N_of_ascii a3 in
                        let c4 := (((b0 - 0xF0) * 0x40 + (b1 - 0x80)) * 0x40
                                   + (b2 - 0x80)) * 0x40 + (b3 - 0x80) in
                        if (0xF0 <=? b0) && (b0 <? 0xF8) && is_cont b1
                           && is_cont b2 && is_cont b3
                           && (0x10000 <=? c4) && (c4 <? 0x110000)
                        then c4 :: decode s4
                        else stray b0 :: decode s1
                    end
              end
        end
  end.

Definition encode (c : N) : string :=
  if c <? 0x80 then String (ascii_of_N c) EmptyString
  else if c <? 0x800 then
    String (ascii_of_N (0xC0 + c / 0x40))
      (String (ascii_of_N (0x80 + c mod 0x40)) EmptyString)
  else if c <? 0x10000 then
    String (ascii_of_N (0xE0 + c / 0x1000))
      (String (ascii_of_N (0x80 + (c / 0x40) mod 0x40))
         (String (ascii_of_N (0x80 + c mod 0x40)) EmptyString))
  else if c <? 0x110000 then
    String (ascii_of_N (0xF0 + c / 0x40000))
      (String (ascii_of_N (0x80 + (c / 0x1000) mod 0x40))
         (String (ascii_of_N (0x80 + (c / 0x40) mod 0x40))
            (String (ascii_of_N (0x80 + c mod 0x40)) EmptyString)))
  else String (ascii_of_N (c - 0x110000)) EmptyString.

Fixpoint encode_all (l : list N) : string :=
  match l with
  | [] => EmptyString
  | c :: l' => encode c +:+ encode_all l'
  end.

End Utf8.

Module Str.

#[local] Open Scope N_scope.

Fixpoint skip_ignorable (l : list N) : list N :=
  match l with
  | [] => []
  | c :: l' => if Unicode.is_case_ignorable c then skip_ignorable l' else l
  end.

(** [handle_capital_sigma]: a capital sigma is final when a cased character
    comes before it and none after it, case-ignorable characters skipped;
    [before] is what precedes it, nearest first. *)
Definition final_sigma (before after : list N) : bool :=
  match skip_ignorable before with
  | [] => false
  | c :: _ => Unicode.is_cased c
  end
  && match skip_ignorable after with
     | [] => true
     | c :: _ => negb (Unicode.is_cased c)
     end.

Fixpoint lower_from (before l : list N) : list N :=
  match l with
  | [] => []
  | c :: l' =>
      (if c =? 0x3A3
       then [if final_sigma before l' then 0x3C2 else 0x3C3]
       else Unicode.to_lower_full c)
      ++ lower_from (c :: before) l'
  end.

(** [s.lower()]. *)
Definition lower (s : string) : string :=
  Utf8.encode_all (lower_from [] (Utf8.decode s)).

(** [s.split()] with no argument: the maximal runs of characters that are
    not white space, in order.  [tok] is the run being read. *)
Fixpoint split_from (tok l : list N) : list (list N) :=
  match l with
  | [] => match tok with [] => [] | _ => [tok] end
  | c :: l' =>
      if Unicode.is_space c then
        match tok with
        | [] => split_from [] l'
        | _ => tok :: split_from [] l'
        end
      else split_from (tok ++ [c]) l'
  end.

Definition split (s : string) : list string :=
  Utf8.encode_all <$> split_from [] (Utf8.decode s).

(** [sub in s]: [sub] occurs in [s] as a contiguous substring. *)
Fixpoint contains (sub s : string) : bool :=
  String.prefix sub s ||
  match s with
  | EmptyString => false
  | String _ s' => contains sub s'
  end.

Definition nonempty (s : string) : bool :=
  match s with EmptyString => false | _ => true end.

(** The characters of [s], as [for c in s] visits them. *)
Definition chars (s : string) : list string :=
  Utf8.encode <$> Utf8.decode s.

End Str.

#[global] Arguments Str.lower : simpl never.
#[global] Arguments Str.split : simpl never.


(* ===================================================================== *)
(** ** Python values, exceptions and the operations the script uses *)
(* ===================================================================== *)

(** What [json.loads] and [csv.DictReader] can hand to the script. *)
Inductive value : Type :=
| VNone
| VBool (b : bool)
| VInt (z : Z)
| VFloat (f : float)
| VStr (s : string)
| VList (l : list value)
| VDict (d : gmap string value).

Inductive exn : Type := KeyError | AttributeError | TypeError | ValueError.

Inductive result (A : Type) : Type :=
| Ok (a : A)
| Raise (e : exn).
Arguments Ok {A} a.
Arguments Raise {A} e.

#[global] Instance result_ret : MRet result := fun A a => Ok a.

#[global] Instance result_bind : MBind result := fun A B f r =>
  match r with
  | Ok a => f a
  | Raise e => Raise e
  end.

Module Py.

(** [bool(v)]. *)
Definition truthy (v : value) : bool :=
  match v with
  | VNone => false
  | VBool b => b
  | VInt z => negb (z =? 0)
  | VFloat f => match f with S754_zero _ => false | _ => true end
  | VStr s => Str.nonempty s
  | VList l => match l with [] => false | _ => true end
  | VDict d => negb (bool_decide (d = ∅))
  end.

(** [a or b]. *)
Definition or (a b : value) : value := if truthy a then a else b.

(** [v is None]. *)
Definition is_none (v : value) : bool :=
  match v with VNone => true | _ => false end.

(** [v == s] for a string literal [s]. *)
Definition eq_str (v : value) (s : string) : bool :=
  match v with VStr s' => bool_decide (s' = s) | _ => false end.

(** [d.get(k, dflt)] on a dict. *)
Definition dict_get (d : gmap string value) (k : string) (dflt : value) : value :=
  default dflt (d !! k).

(** [d[k]] on a dict. *)
Definition dict_item (d : gmap string value) (k : string) : result value :=
  match d !! k with Some v => Ok v | None => Raise KeyError end.

(** [v.get(k, dflt)]: only a dict has the method. *)
Definition get (v : value) (k : string) (dflt : value) : result value :=
  match v with
  | VDict d => Ok (dict_get d k dflt)
  | _ => Raise AttributeError
  end.

(** [v.get(key, dflt)] where the key is itself a value: a list or a dict
    is unhashable; a key that is not a string matches no JSON member. *)
Definition get_by (v : value) (key : value) (dflt : value) : result value :=
  match v with
  | VDict d =>
      match key with
      | VStr k => Ok (dict_get d k dflt)
      | VList _ | VDict _ => Raise TypeError
      | _ => Ok dflt
      end
  | _ => Raise AttributeError
  end.

(** [v[k]] for a string literal [k]. *)
Definition item (v : value) (k : string) : result value :=
  match v with
  | VDict d => dict_item d k
  | _ => Raise TypeError
  end.

(** [v.lower()]: only a str has the method. *)
Definition lower (v : value) : result string :=
  match v with
  | VStr s => Ok (Str.lower s)
  | _ => Raise AttributeError
  end.

(** [a + b] where one operand is known to be a str. *)
Definition concat (a b : value) : result value :=
  match a, b with
  | VStr x, VStr y => Ok (VStr (x +:+ y))
  | _, _ => Raise TypeError
  end.

(** [s in v] for a string literal [s]. *)
Definition contains (s : string) (v : value) : result bool :=
  match v with
  | VDict d => Ok (bool_decide (is_Some (d !! s)))
  | VList l => Ok (existsb (fun x => eq_str x s) l)
  | VStr t => Ok (Str.contains s t)
  | _ => Raise TypeError
  end.

Definition chars (s : string) : list value := VStr <$> Str.chars s.

(** The items a [for] loop over [v] visits.  (A dict yields its keys; the
    order of a [gmap] is not Python's, which is immaterial here: the loop
    below fails on the first key whatever it is.) *)
Definition iterate (v : value) : result (list value) :=
  match v with
  | VList l => Ok l
  | VStr s => Ok (chars s)
  | VDict d => Ok (VStr <$> (map_to_list d).*1)
  | _ => Raise TypeError
  end.

End Py.

(* ===================================================================== *)
(** ** Program state: the heap of row objects and the request log *)
(* ===================================================================== *)

(** What is asked of the network: the endpoint and the argument put into
    its URL template ([WIKIDATA_SEARCH], [WIKIDATA_ENTITY]). *)
Inductive request : Type :=
| SearchEntities (q : string)
| EntityData (qid : value).

(** What [requests.get] does: it raises, or returns a response with a status
    code and a body that [r.json()] decodes ([None] when decoding raises). *)
Inductive response : Type :=
| NoResponse
| Response (status_code : Z) (json : option value).

(** The value [safe_get] returns from one attempt: the decoded body of a
    response with status 200; nothing for any other outcome. *)
Definition json_if_ok (r : response) : option value :=
  match r with
  | Response status_code (Some v) => if status_code =? 200 then Some v else None
  | _ => None
  end.

Record state : Type := State {
  heap : gmap nat (gmap string value);
  log : list request
}.

Definition M (A : Type) : Type := state -> result A * state.

#[global] Instance M_ret : MRet M := fun A a σ => (Ok a, σ).

#[global] Instance M_bind : MBind M := fun A B f m σ =>
  match m σ with
  | (Ok a, σ') => f a σ'
  | (Raise e, σ') => (Raise e, σ')
  end.

Definition lift {A : Type} (r : result A) : M A := fun σ => (r, σ).

(** The dict stored at address [r]. *)
Definition load (r : nat) : M (gmap string value) := fun σ =>
  (Ok (default ∅ (heap σ !! r)), σ).

(** [dict(r)]: a new object with the same items. *)
Definition copy_dict (r : nat) : M nat := fun σ =>
  let r_out := fresh (dom (heap σ)) in
  (Ok r_out, State (<[r_out := default ∅ (heap σ !! r)]> (heap σ)) (log σ)).

(** [r[k] = v]. *)
Definition store (r : nat) (k : string) (v : value) : M unit := fun σ =>
  (Ok tt, State (<[r := <[k := v]> (default ∅ (heap σ !! r))]> (heap σ)) (log σ)).

(* ===================================================================== *)
(** ** The script *)
(* ===================================================================== *)

(** One entry of [scored]: [(c['id'], c.get('label'), c.get('description'), conf)]. *)
Definition scored_t : Type := value * value * value * float.

Definition conf_of (x : scored_t) : float := snd x.

(** What [find_candidates_for_row] returns: the bare [[]] of its two early
    exits, or the pair [candidates, scored] of its last line. *)
Inductive fc_return : Type :=
| RetEmptyList
| RetPair (candidates : list (gmap string value)) (scored : list scored_t).

(** [candidates, scored = ret]: a list of length 0 cannot be unpacked into two
    names. *)
Definition unpack2 (ret : fc_return)
  : result (list (gmap string value) * list scored_t) :=
  match ret with
  | RetEmptyList => Raise ValueError
  | RetPair candidates scored => Ok (candidates, scored)
  end.

(** [scored.sort(key=lambda x: x[3], reverse=True)]: [list.sort] is stable
    also under [reverse=True]; an entry moves in front of the entries that
    follow it only where its key is strictly greater. *)
Fixpoint insert_desc (x : scored_t) (l : list scored_t) : list scored_t :=
  match l with
  | [] => [x]
  | y :: l' =>
      if F64.ltb (conf_of x) (conf_of y) then y :: insert_desc x l' else x :: l
  end.

Definition sort_desc (l : list scored_t) : list scored_t :=
  foldr insert_desc [] l.

(** The dict of the comprehension on the last line but one of
    [find_candidates_for_row]. *)
Definition candidate_dict (x : scored_t) : gmap string value :=
  let '(qid, lbl, desc, conf) := x in
  <["qid" := qid]> (<["label" := lbl]> (<["description" := desc]>
    (<["confidence" := VFloat conf]> ∅))).

(** The dict of the comprehension in the fallback branch of [main]. *)
Definition fallback_dict (x : scored_t) : gmap string value :=
  let '(qid, lbl, desc, conf) := x in
  <["qid" := qid]> (<["label" := lbl]> (<["desc" := desc]>
    (<["raw_conf" := VFloat conf]> ∅))).

Section Script.

(** [requests.get], given the requests made before (latest first). *)
Variable requests_get : list request -> request -> response.

(** [json.dumps(v, ensure_ascii=False)]. *)
Variable json_dumps : value -> string.

Definition http_get (rq : request) : M response := fun σ =>
  (Ok (requests_get (log σ) rq), State (heap σ) (rq :: log σ)).

(** The loop of [safe_get] with [attempts] rounds left: a response with
    status 200 whose body decodes is returned; any other outcome (another
    status, an exception of [requests.get] or of [r.json()]) goes to the next
    round; [None] when the rounds are used up. *)
Fixpoint safe_get_from (attempts : nat) (rq : request) : M value :=
  match attempts with
  | O => mret VNone
  | S n =>
      r ← http_get rq;
      match json_if_ok r with
      | Some v => mret v
      | None => safe_get_from n rq
      end
  end.

Definition safe_get (rq : request) : M value := safe_get_from 3 rq.

(** [urllib.parse.quote] accepts a str only. *)
Definition search_wikidata (label : value) : M value :=
  match label with
  | VStr s => safe_get (SearchEntities s)
  | _ => lift (Raise TypeError)
  end.

Definition get_entity_data (qid : value) : M value :=
  safe_get (EntityData qid).

(** The label looked for: [row.get('wiki_label') or row.get('word') or ""]. *)
Definition query_term (row : gmap string value) : value :=
  Py.or (Py.dict_get row "wiki_label" VNone)
        (Py.or (Py.dict_get row "word" VNone) (VStr "")).

(** [row.get('geo_path','') + " " + row.get('time_path','') + " " +
    row.get('category','')]. *)
Definition context_string (row : gmap string value) : result value :=
  a ← Py.concat (Py.dict_get row "geo_path" (VStr "")) (VStr " ");
  b ← Py.concat a (Py.dict_get row "time_path" (VStr ""));
  c ← Py.concat b (VStr " ");
  Py.concat c (Py.dict_get row "category" (VStr "")).

(** The label tier: [if label == term ... elif ... else ...]. *)
Definition add_label_score (score : float) (label term : string) : float :=
  if bool_decide (label = term) then F64.add score F64.c045
  else if Str.contains term label || Str.contains label term
  then F64.add score F64.c030
  else
    (* fuzzy: partial tokens *)
    let term_tokens : gset string := list_to_set (Str.split term) in
    let label_tokens : gset string := list_to_set (Str.split label) in
    if bool_decide (0 < size (term_tokens ∩ label_tokens))%nat
    then F64.add score F64.c015
    else score.

(** [if token and token in desc]. *)
Definition token_matches (desc : string) (token : string) : bool :=
  Str.nonempty token && Str.contains token desc.

(** The body of the [for token in ...] loop. *)
Definition add_token_score (desc : string) (score : float) (token : string) : float :=
  if token_matches desc token then F64.add score F64.c005 else score.

(** The description match: [if desc: for token in (...).lower().split(): ...]. *)
Definition add_description_score (score : float) (desc : string)
    (row : gmap string value) : result float :=
  if Str.nonempty desc then
    ctx ← context_string row;
    ctx ← Py.lower ctx;
    mret (fold_left (add_token_score desc) (Str.split ctx) score)
  else mret score.

(** The sitelink test on the entity document: [if ent: ... 'enwiki' in
    sitelinks]; [false] when [ent] is [None] (or otherwise falsy). *)
Definition has_enwiki (ent qid : value) : result bool :=
  if Py.truthy ent then
    entities ← Py.get ent "entities" (VDict ∅);
    e ← Py.get_by entities qid (VDict ∅);
    sitelinks ← Py.get e "sitelinks" (VDict ∅);
    Py.contains "enwiki" sitelinks
  else mret false.

(** [if score > 1.0: score = 1.0]. *)
Definition normalize (score : float) : float :=
  if F64.gtb score F64.one then F64.one else score.

Definition score_candidate (candidate : value) (row : gmap string value) : M float :=
  let score := F64.zero in
  (* label exactness *)
  lbl ← lift (Py.get candidate "label" VNone);
  label ← lift (Py.lower (Py.or lbl (VStr "")));
  term ← lift (Py.lower (query_term row));
  let score := add_label_score score label term in
  (* description match *)
  d ← lift (Py.get candidate "description" VNone);
  desc ← lift (Py.lower (Py.or d (VStr "")));
  score ← lift (add_description_score score desc row);
  (* presence of English Wikipedia sitelink *)
  qid ← lift (Py.item candidate "id");
  ent ← get_entity_data qid;
  has ← lift (has_enwiki ent qid);
  let score := if has : bool then F64.add score F64.c020 else score in
  (* normalize *)
  mret (normalize score).

(** The [for c in search_hits] loop of [find_candidates_for_row]. *)
Fixpoint score_hits (hits : list value) (row : gmap string value)
    (scored : list scored_t) : M (list scored_t) :=
  match hits with
  | [] => mret scored
  | c :: hits' =>
      conf ← score_candidate c row;
      qid ← lift (Py.item c "id");
      lbl ← lift (Py.get c "label" VNone);
      desc ← lift (Py.get c "description" VNone);
      score_hits hits' row (scored ++ [(qid, lbl, desc, conf)])
  end.

(** [[... for (qid,lbl,desc,conf) in scored if conf >= threshold]]. *)
Definition accepted (threshold : float) (scored : list scored_t)
  : list (gmap string value) :=
  candidate_dict <$>
    List.filter (fun x => F64.geb (conf_of x) threshold) scored.

Definition find_candidates_for_row (row : gmap string value) (threshold : float)
  : M fc_return :=
  let label := Py.or (Py.dict_get row "wiki_label" VNone)
                     (Py.dict_get row "word" VNone) in
  if negb (Py.truthy label) then mret RetEmptyList
  else
    res ← search_wikidata label;
    if negb (Py.truthy res) then mret RetEmptyList
    else
      search_hits ← lift (Py.get res "search" (VList []));
      hits ← lift (Py.iterate search_hits);
      scored ← score_hits hits row [];
      (* sort by confidence desc *)
      let scored := sort_desc scored in
      let candidates := accepted threshold scored in
      mret (RetPair candidates scored).

(** The guard of [main]: already filled, or nothing to search. *)
Definition skip_row (r : gmap string value) : bool :=
  (Py.truthy (Py.dict_get r "wiki_qid" VNone)
     && negb (Py.eq_str (Py.dict_get r "wiki_qid" VNone) "TBD"))
  || (Py.is_none (Py.dict_get r "wiki_label" VNone)
        && Py.eq_str (Py.dict_get r "word" VNone) "").

(** One round of the [for idx, r in enumerate(rows)] loop of [main]; [r] is
    the address of the row object and [results] the list built so far. *)
Definition main_step (threshold : float) (r : nat) (results : list nat)
  : M (list nat) :=
  row ← load r;
  if skip_row row then
    (* skip if already filled or nothing to search *)
    mret (results ++ [r])
  else
    ret ← find_candidates_for_row row threshold;
    '(candidates, scored) ← lift (unpack2 ret);
    (* attach results *)
    r_out ← copy_dict r;
    _ ← (match candidates with
         | best :: _ =>
             _ ← store r_out "wiki_qid_candidates"
                   (VStr (json_dumps (VList (VDict <$> candidates))));
             qid ← lift (Py.dict_item best "qid");
             _ ← store r_out "wiki_qid" qid;
             conf ← lift (Py.dict_item best "confidence");
             store r_out "wiki_qid_confidence" conf
         | [] =>
             (* fallback: record top three scored candidates *)
             let top := take 3 scored in
             _ ← store r_out "wiki_qid_candidates"
                   (VStr (json_dumps (VList (VDict <$> (fallback_dict <$> top)))));
             _ ← store r_out "wiki_qid" (VStr "");
             store r_out "wiki_qid_confidence" (VStr "")
         end : M unit);
    mret (results ++ [r_out]).

(** The loop of [main] over the rows read from the input file. *)
Fixpoint main_loop (threshold : float) (rows : list nat) (results : list nat)
  : M (list nat) :=
  match rows with
  | [] => mret results
  | r :: rows' =>
      results ← main_step threshold r results;
      main_loop threshold rows' results
  end.

Definition main (threshold : float) (rows : list nat) : M (list nat) :=
  main_loop threshold rows [].

End Script.

(* ===================================================================== *)
(** ** Vocabulary of the statements *)
(* ===================================================================== *)

(** A computation that never writes to the heap, whatever its outcome. *)
Definition heap_stable {A : Type} (m : M A) : Prop :=
  forall σ, heap (snd (m σ)) = heap σ.

(** How many of the context tokens occur in the description (each
    occurrence in the token list counts, as the loop visits it). *)
Definition match_count (desc : string) (tokens : list string) : nat :=
  length (List.filter (token_matches desc) tokens).

(** The context tokens of a record whose three hint fields are text. *)
Definition context_tokens (row : gmap string value) : result (list string) :=
  ctx ← context_string row;
  ctx ← Py.lower ctx;
  mret (Str.split ctx).

(** The score as a function of its three signals: the contribution of the
    label tier, the number of matching context tokens and the sitelink
    bonus. *)
Definition score_of (tier : float) (k : nat) (bonus : bool) : float :=
  let s := Nat.iter k (fun x => F64.add x F64.c005) tier in
  normalize (if bonus then F64.add s F64.c020 else s).


(** A field that is a string, [None] or missing. *)
Definition text_or_none (o : option value) : bool :=
  match o with
  | None | Some VNone | Some (VStr _) => true
  | _ => false
  end.

(** A field that is a string or missing. *)
Definition text_or_missing (o : option value) : bool :=
  match o with
  | None | Some (VStr _) => true
  | _ => false
  end.

(** A search hit as [wbsearchentities] documents it: an object with the
    identifier, and a label and a description that may be missing. *)
Definition hit_ok (c : value) : bool :=
  match c with
  | VDict d =>
      match d !! "id" with Some (VStr _) => true | _ => false end
      && text_or_none (d !! "label") && text_or_none (d !! "description")
  | _ => false
  end.

(** A record whose label fields and hint fields are text. *)
Definition row_ok (row : gmap string value) : bool :=
  text_or_none (row !! "wiki_label") && text_or_none (row !! "word")
  && text_or_missing (row !! "geo_path") && text_or_missing (row !! "time_path")
  && text_or_missing (row !! "category").

(** An entity document as [Special:EntityData] documents it, as far as the
    script reads it: objects at [entities], [entities[qid]] and [sitelinks],
    each of which may be missing; or a falsy document (no data). *)
Definition entity_doc_ok (qid : string) (ent : value) : bool :=
  negb (Py.truthy ent) ||
  match ent with
  | VDict d =>
      match d !! "entities" with
      | None => true
      | Some (VDict es) =>
          match es !! qid with
          | None => true
          | Some (VDict e) =>
              match e !! "sitelinks" with
              | None | Some (VDict _) => true
              | _ => false
              end
          | _ => false
          end
      | _ => false
      end
  | _ => false
  end.

(** A search document: an object whose [search] member, when present, is a
    list of well-shaped hits; or a falsy document (no data). *)
Definition search_doc_ok (res : value) : bool :=
  negb (Py.truthy res) ||
  match res with
  | VDict d =>
      match d !! "search" with
      | None => true
      | Some (VList hits) => forallb hit_ok hits
      | _ => false
      end
  | _ => false
  end.

(** The network answers in the documented shapes whenever it answers with
    status 200 and a body that decodes; it may fail in any way it likes. *)
Definition net_ok (requests_get : list request -> request -> response) : Prop :=
  forall history rq v,
    json_if_ok (requests_get history rq) = Some v ->
    match rq with
    | SearchEntities _ => search_doc_ok v = true
    | EntityData (VStr qid) => entity_doc_ok qid v = true
    | EntityData _ => True
    end.

(** [raw] is the list [scored] as the loop of [find_candidates_for_row]
    builds it from the state [σ]: one entry for each of [hits], in their
    order, holding the identifier, label and description of the hit and the
    confidence that [score_candidate] returned for it; the hits are scored
    one after the other and [σ'] is the state after the last one. *)
Fixpoint scored_in_order (requests_get : list request -> request -> response)
    (row : gmap string value) (hits : list value) (σ : state)
    (raw : list scored_t) (σ' : state) : Prop :=
  match hits, raw with
  | [], [] => σ' = σ
  | c :: hits', x :: raw' =>
      exists d qid conf σ1,
        c = VDict d /\ d !! "id" = Some qid
        /\ score_candidate requests_get c row σ = (Ok conf, σ1)
        /\ x = (qid, Py.dict_get d "label" VNone,
                 Py.dict_get d "description" VNone, conf)
        /\ scored_in_order requests_get row hits' σ1 raw' σ'
  | _, _ => False
  end.

(* ===================================================================== *)
(** ** Scenarios: concrete records, documents and networks *)
(* ===================================================================== *)

Module Scenario.

(** A search hit with all three members. *)
Definition hit (id lbl desc : string) : value :=
  VDict (<["id" := VStr id]> (<["label" := VStr lbl]>
          (<["description" := VStr desc]> ∅))).

(** An entity document for [qid]; with the English sitelink or without. *)
Definition entity_doc (qid : string) (enwiki : bool) : value :=
  let sitelinks : gmap string value :=
    if enwiki then {[ "enwiki" := VDict {[ "title" := VStr qid ]} ]}
    else {[ "dewiki" := VDict {[ "title" := VStr qid ]} ]} in
  VDict {[ "entities" :=
             VDict {[ qid := VDict {[ "sitelinks" := VDict sitelinks ]} ]} ]}.

Definition search_doc (hits : list value) : value :=
  VDict {[ "search" := VList hits ]}.

(** The record of scenarios A to C: word "Berlin", to be resolved. *)
Definition berlin_row : gmap string value :=
  <["word" := VStr "Berlin"]> (<["wiki_qid" := VStr "TBD"]>
    (<["geo_path" := VStr "Europe Germany"]> (<["time_path" := VStr ""]>
      (<["category" := VStr "City"]> ∅)))).

Definition berlin_hit : value := hit "Q64" "Berlin" "capital city of Germany".

(** A network that knows Berlin, with the English sitelink. *)
Definition berlin_net (_ : list request) (rq : request) : response :=
  match rq with
  | SearchEntities q =>
      if bool_decide (q = "Berlin")
      then Response 200 (Some (search_doc [berlin_hit]))
      else Response 404 None
  | EntityData (VStr q) =>
      if bool_decide (q = "Q64")
      then Response 200 (Some (entity_doc "Q64" true))
      else Response 404 None
  | EntityData _ => Response 404 None
  end.

(** A network whose search answers with three hits for Berlin: two whose
    label contains the query and that have no entity document, with the
    city between them. *)
Definition berlin_tie_net (_ : list request) (rq : request) : response :=
  match rq with
  | SearchEntities _ =>
      Response 200
        (Some (search_doc [hit "Q821244" "Berlin (band)" "American band";
                           berlin_hit;
                           hit "Q614184" "Berlin (album)" "album by Lou Reed"]))
  | EntityData (VStr q) =>
      if bool_decide (q = "Q64")
      then Response 200 (Some (entity_doc "Q64" true))
      else Response 404 None
  | EntityData _ => Response 404 None
  end.

(** A network whose search answers with the city and, after it, a second
    hit for the same label whose description holds all three context tokens
    of [berlin_row]; both have the English sitelink. *)
Definition berlin_rival : value :=
  hit "Q152087" "Berlin" "city in Germany, Europe".

Definition berlin_rival_net (_ : list request) (rq : request) : response :=
  match rq with
  | SearchEntities _ =>
      Response 200 (Some (search_doc [berlin_hit; berlin_rival]))
  | EntityData (VStr q) =>
      if bool_decide (q = "Q64") || bool_decide (q = "Q152087")
      then Response 200 (Some (entity_doc q true))
      else Response 404 None
  | EntityData _ => Response 404 None
  end.

(** A search hit that lacks the identifier. *)
Definition hit_without_id : value :=
  VDict (<["label" := VStr "Berlin"]>
          (<["description" := VStr "capital city of Germany"]> ∅)).

(** A network whose search answers with that hit. *)
Definition net_without_id (_ : list request) (rq : request) : response :=
  match rq with
  | SearchEntities _ => Response 200 (Some (search_doc [hit_without_id]))
  | EntityData _ => Response 404 None
  end.


Definition rich_description : string :=
  "Berlin, capital city of Germany, Europe, within Brandenburg".





(** A network on which every request fails. *)
Definition net_down (_ : list request) (_ : request) : response := NoResponse.

(** A stand-in for [json.dumps] where its text does not matter. *)
Definition dumps (_ : value) : string := "[]".

(** The heap after reading a file with the rows [rows]: row [i] at address [i]. *)
Definition heap_of (rows : list (gmap string value)) : gmap nat (gmap string value) :=
  list_to_map (imap (fun i r => (i, r)) rows).

Definition start (rows : list (gmap string value)) : state :=
  State (heap_of rows) [].

End Scenario.

(* ===================================================================== *)
(** ** The output part of [main] *)
(* ===================================================================== *)

(** What the writing of the CSV file can raise: [results[0]] on an empty
    list, and [csv.DictWriter.writerow] on a row with a key that is not one
    of the field names ([ValueError: dict contains fields not in
    fieldnames]).  Kept apart from [exn], the exceptions of the resolving
    part. *)
Inductive write_exn : Type := IndexError | FieldNamesError.

(** [fieldnames = list(results[0].keys())] and [writer.writerow(r)] for every
    [r] of [results], on the heap [h]; [None] when every row is written.  (A
    key a row lacks is written as the empty cell; only a surplus key raises.) *)
Definition write_csv (h : gmap nat (gmap string value)) (results : list nat)
  : option write_exn :=
  match results with
  | [] => Some IndexError
  | r0 :: _ =>
      let fieldnames : gset string := dom (default ∅ (h !! r0)) in
      if forallb (fun r => bool_decide (dom (default ∅ (h !! r)) ⊆ fieldnames))
           results
      then None
      else Some FieldNamesError
  end.

(** The three fields [main] attaches. *)
Definition output_fields : gset string :=
  {[ "wiki_qid"; "wiki_qid_candidates"; "wiki_qid_confidence" ]}.

(** A network whose first answer is a 503 and whose later answers are the
    entity document of Q64. *)
Definition flaky_net (history : list request) (_ : request) : response :=
  match history with
  | [] => Response 503 None
  | _ => Response 200 (Some (Scenario.entity_doc "Q64" true))
  end.

(** A record with twenty context tokens, and a hit whose label has nothing
    in common with the query but whose description contains every token. *)
Definition twenty_row : gmap string value :=
  <["word" := VStr "Berlin"]> (<["wiki_qid" := VStr "TBD"]>
    (<["geo_path" := VStr "Europe Germany Brandenburg Berlin Europe"]>
      (<["time_path" := VStr "Europe Germany Berlin capital city"]>
        (<["category" :=
             VStr "capital city Germany Europe Berlin city capital Germany Berlin Europe"]>
           ∅)))).

Definition unrelated_hit : value :=
  Scenario.hit "Q1711" "Potsdam" Scenario.rich_description.

(** The record of a CSV line that is one cell short: [csv.DictReader] fills
    the missing last column with [None]. *)
Definition short_row : gmap string value :=
  <["word" := VStr "Berlin"]> (<["wiki_qid" := VStr "TBD"]>
    (<["geo_path" := VStr "Europe Germany"]> (<["time_path" := VStr ""]>
      (<["category" := VNone]> ∅)))).

(** A network whose search answers with two hits for Berlin, the band first
    and the city second; only the city has an entity document (with the
    English sitelink). *)
Definition berlin_pair_net (_ : list request) (rq : request) : response :=
  match rq with
  | SearchEntities _ =>
      Response 200
        (Some (Scenario.search_doc
                 [Scenario.hit "Q821244" "Berlin (band)" "American band";
                  Scenario.berlin_hit]))
  | EntityData (VStr q) =>
      if bool_decide (q = "Q64")
      then Response 200 (Some (Scenario.entity_doc "Q64" true))
      else Response 404 None
  | EntityData _ => Response 404 None
  end.

(** How [main] turns the record at [r] of the heap [h] into the record at
    [out] of the heap [h']: passed through as the same object, or a new
    object that has the three output fields on top of the fields of the
    input record. *)
Definition output_of (h h' : gmap nat (gmap string value)) (r out : nat) : Prop :=
  exists row, h !! r = Some row /\
    if skip_row row then out = r
    else h !! out = None
         /\ exists row_out, h' !! out = Some row_out
              /\ dom row_out = dom row ∪ output_fields
              /\ (forall k, k ∉ output_fields -> row_out !! k = row !! k).

(** An input of two records: one to look up, one resolved before. *)
Definition adams_row : gmap string value :=
  <["word" := VStr "Douglas Adams"]> (<["wiki_qid" := VStr "Q42"]>
    (<["geo_path" := VStr ""]> (<["time_path" := VStr ""]>
      (<["category" := VStr "Person"]> ∅)))).

(** The entity requests of the loop over the hits, latest first: for each
    entry of [raw] (in the order of the hits) the number of attempts that
    [attempts] gives for it, each for the identifier of the entry. *)
Definition lookup_log (raw : list scored_t) (attempts : list nat) : list request :=
  concat (reverse (zip_with (fun x k => replicate k (EntityData (fst (fst (fst x)))))
                     raw attempts)).

(* ===================================================================== *)
(** ** The definitions at work *)
(* ===================================================================== *)

(** The literals are the doubles Python reads: [float.hex] gives the same
    mantissas and exponents. *)
Example literals :
  F64.c045 = S754_finite false 8106479329266893 (-54)
  /\ F64.c030 = S754_finite false 5404319552844595 (-54)
  /\ F64.c015 = S754_finite false 5404319552844595 (-55)
  /\ F64.c005 = S754_finite false 7205759403792794 (-57)
  /\ F64.c020 = S754_finite false 7205759403792794 (-55)
  /\ F64.c080 = S754_finite false 7205759403792794 (-53)
  /\ F64.one = S754_finite false 4503599627370496 (-52).
Proof. repeat split. Qed.

(** [0.0 + 0.45 + 0.05 + 0.05 + 0.20 == 0.75], while
    [0.30 + 0.05 + 0.05 + 0.05 + 0.05] is [0.49999999999999994]. *)
Example sums :
  F64.add (F64.add (F64.add (F64.add F64.zero F64.c045) F64.c005) F64.c005)
    F64.c020 = F64.c075
  /\ F64.add (F64.add (F64.add (F64.add F64.c030 F64.c005) F64.c005) F64.c005)
       F64.c005 = S754_finite false 9007199254740991 (-54).
Proof. split; reflexivity. Qed.

Example split_blanks :
  Str.split "  Europe  Germany	berlin " = ["Europe"; "Germany"; "berlin"].
Proof. vm_compute. reflexivity. Qed.

Example contains_cases :
  Str.contains "" "abc" = true /\ Str.contains "bc" "abc" = true
  /\ Str.contains "ac" "abc" = false /\ Str.contains "a" "" = false.
Proof. repeat split. Qed.

Example lower_ascii : Str.lower "BerLin-Z@[" = "berlin-z@[".
Proof. vm_compute. reflexivity. Qed.

(** [lower] beyond ASCII: ['ZÜRICH WEST'.lower() == 'Zürich West'.lower()];
    a capital sigma at the end of a word becomes the final sigma, so
    ['ΑΣ'.lower()] is not found in ['ΑΣΤΡΑ'.lower()]; the capital I with
    dot above becomes two code points. *)
Example lower_unicode :
  Str.lower "ZÜRICH WEST" = "zürich west"
  /\ Str.lower "Zürich West" = "zürich west"
  /\ Str.lower "ΑΣ" = "ας"
  /\ Str.lower "ΑΣΤΡΑ" = "αστρα"
  /\ Str.contains (Str.lower "ΑΣ") (Str.lower "ΑΣΤΡΑ") = false
  /\ Str.lower "İstanbul" = "i̇stanbul"
  /\ Str.lower "MÜNCHEN" = "münchen".
Proof. repeat split; vm_compute; reflexivity. Qed.

(** [split] beyond ASCII: the no-break space (between the first two words
    here) and the ideographic space separate tokens. *)
Example split_unicode :
  Str.split "Europe Germany Berlin　city" = ["Europe"; "Germany"; "Berlin"; "city"].
Proof. vm_compute. reflexivity. Qed.

Example chars_unicode : Str.chars "Zü€" = ["Z"; "ü"; "€"].
Proof. vm_compute. reflexivity. Qed.

(** The label tiers and the token matches beyond ASCII: a label in capitals
    is an exact match of the query; a context token in capitals is found in
    a lowercase description. *)
Example tiers_unicode :
  add_label_score F64.zero (Str.lower "ZÜRICH WEST") (Str.lower "Zürich West")
  = F64.c045
  /\ match_count (Str.lower "münchen") (Str.split (Str.lower "MÜNCHEN")) = 1%nat
  /\ match_count (Str.lower "ΑΣΤΡΑ") (Str.split (Str.lower "ΑΣ")) = 0%nat.
Proof. repeat split; vm_compute; reflexivity. Qed.

(** Scenario A: exact label and sitelink, no description overlap: 0.65. *)
Example scenario_a :
  fst (score_candidate Scenario.berlin_net
         (Scenario.hit "Q64" "Berlin" "Hauptstadt") Scenario.berlin_row
         (Scenario.start [Scenario.berlin_row]))
  = Ok (F64.add F64.c045 F64.c020).
Proof. vm_compute. reflexivity. Qed.

(** Three failing attempts are made before [safe_get] gives up. *)
Example safe_get_retries :
  safe_get Scenario.net_down (EntityData (VStr "Q64")) (Scenario.start [])
  = (Ok VNone,
     State ∅ [EntityData (VStr "Q64"); EntityData (VStr "Q64");
              EntityData (VStr "Q64")]).
Proof. reflexivity. Qed.

(* ===================================================================== *)
(** ** Facts on binary64 comparison and addition *)
(* ===================================================================== *)

Module F64Facts.
Import F64.

(** *** The order is the lexicographic order of the keys *)

Lemma ltb_key (x y : float) :
  is_nan x = false -> is_nan y = false ->
  (ltb x y = true <-> key_lt (key x) (key y)).
Proof.
  intros Hx Hy. unfold ltb, SFltb, SFcompare, key_lt.
  destruct x as [[]|[]| |[] mx ex], y as [[]|[]| |[] my ey];
    try discriminate; cbn [key];
    try (split; [discriminate | lia]); try (split; [lia | reflexivity]).
  - change (Pos.compare_cont Eq mx my) with (Pos.compare mx my).
    destruct (Z.compare_spec ex ey), (Pos.compare_spec mx my); cbn;
      split; intros; try discriminate; try reflexivity; lia.
  - change (Pos.compare_cont Eq mx my) with (Pos.compare mx my).
    destruct (Z.compare_spec ex ey), (Pos.compare_spec mx my); cbn;
      split; intros; try discriminate; try reflexivity; lia.
Qed.

Lemma leb_key (x y : float) :
  is_nan x = false -> is_nan y = false ->
  (leb x y = true <-> ~ key_lt (key y) (key x)).
Proof.
  intros Hx Hy. unfold leb, SFleb, SFcompare, key_lt.
  destruct x as [[]|[]| |[] mx ex], y as [[]|[]| |[] my ey];
    try discriminate; cbn [key];
    try (split; [discriminate | lia]); try (split; [lia | reflexivity]).
  - change (Pos.compare_cont Eq mx my) with (Pos.compare mx my).
    destruct (Z.compare_spec ex ey), (Pos.compare_spec mx my); cbn;
      split; intros; try discriminate; try reflexivity; lia.
  - change (Pos.compare_cont Eq mx my) with (Pos.compare mx my).
    destruct (Z.compare_spec ex ey), (Pos.compare_spec mx my); cbn;
      split; intros; try discriminate; try reflexivity; lia.
Qed.

Lemma eqb_key (x y : float) :
  eqb x y = true <->
  is_nan x = false /\ is_nan y = false /\ key x = key y.
Proof.
  unfold eqb, SFeqb, SFcompare.
  destruct x as [[]|[]| |[] mx ex], y as [[]|[]| |[] my ey]; cbn [key is_nan];
    try (split; [discriminate | intros (? & ? & ?); discriminate]);
    try (split; [intros _; repeat split | reflexivity]).
  - change (Pos.compare_cont Eq mx my) with (Pos.compare mx my).
    destruct (Z.compare_spec ex ey), (Pos.compare_spec mx my); cbn;
      split; try discriminate; try (intros (_ & _ & [= ? ?])); try lia;
      intros _; repeat split; congruence.
  - change (Pos.compare_cont Eq mx my) with (Pos.compare mx my).
    destruct (Z.compare_spec ex ey), (Pos.compare_spec mx my); cbn;
      split; try discriminate; try (intros (_ & _ & [= ? ?])); try lia;
      intros _; repeat split; congruence.
Qed.

Lemma key_lt_irrefl (a : Z * Z * Z) : ~ key_lt a a.
Proof. destruct a as [[a1 a2] a3]; cbn; lia. Qed.

Lemma key_lt_trans (a b c : Z * Z * Z) :
  key_lt a b -> key_lt b c -> key_lt a c.
Proof.
  destruct a as [[a1 a2] a3], b as [[b1 b2] b3], c as [[c1 c2] c3]; cbn; lia.
Qed.

Lemma key_lt_total (a b : Z * Z * Z) : key_lt a b \/ a = b \/ key_lt b a.
Proof.
  destruct a as [[a1 a2] a3], b as [[b1 b2] b3]; cbn.
  destruct (Z.lt_trichotomy a1 b1) as [?|[->|?]]; [lia| |lia].
  destruct (Z.lt_trichotomy a2 b2) as [?|[->|?]]; [lia| |lia].
  destruct (Z.lt_trichotomy a3 b3) as [?|[->|?]]; [lia| |lia].
  right; left; reflexivity.
Qed.

(** A comparison that holds has no NaN operand. *)
Lemma ltb_not_nan (x y : float) :
  ltb x y = true -> is_nan x = false /\ is_nan y = false.
Proof. destruct x as [[]|[]| |[] ? ?], y as [[]|[]| |[] ? ?]; cbn; auto. Qed.

Lemma leb_not_nan (x y : float) :
  leb x y = true -> is_nan x = false /\ is_nan y = false.
Proof. destruct x as [[]|[]| |[] ? ?], y as [[]|[]| |[] ? ?]; cbn; auto. Qed.

Lemma ltb_irrefl (x : float) : ltb x x = false.
Proof.
  destruct (ltb x x) eqn:E; [|reflexivity].
  destruct (ltb_not_nan _ _ E) as [Hx _].
  apply (ltb_key x x Hx Hx) in E. destruct (key_lt_irrefl _ E).
Qed.

(** [not (x < y)] gives [y <= x] when neither is NaN. *)
Lemma not_ltb_leb (x y : float) :
  is_nan x = false -> is_nan y = false -> ltb x y = false -> leb y x = true.
Proof.
  intros Hx Hy H. apply (leb_key y x Hy Hx). intros Hk.
  apply (ltb_key x y Hx Hy) in Hk. congruence.
Qed.

Lemma ltb_leb_false (x y : float) : ltb x y = true -> leb y x = false.
Proof.
  intros H. destruct (ltb_not_nan _ _ H) as [Hx Hy].
  destruct (leb y x) eqn:E; [|reflexivity].
  apply (leb_key y x Hy Hx) in E. apply (ltb_key x y Hx Hy) in H. tauto.
Qed.

Lemma eqb_leb (x y : float) : eqb x y = true -> leb y x = true.
Proof.
  intros H. apply eqb_key in H as (Hx & Hy & Hk).
  apply (leb_key y x Hy Hx). rewrite Hk. apply key_lt_irrefl.
Qed.

Lemma eqb_not_ltb (x y c : float) :
  eqb x c = true -> eqb y c = true -> ltb x y = false.
Proof.
  intros H1 H2. apply eqb_key in H1 as (Hx & _ & K1).
  apply eqb_key in H2 as (Hy & _ & K2).
  destruct (ltb x y) eqn:E; [|reflexivity].
  apply (ltb_key x y Hx Hy) in E. rewrite K1, K2 in E.
  destruct (key_lt_irrefl _ E).
Qed.

Lemma leb_trans (x y z : float) :
  leb x y = true -> leb y z = true -> leb x z = true.
Proof.
  intros H1 H2.
  destruct (leb_not_nan _ _ H1) as [Hx Hy], (leb_not_nan _ _ H2) as [_ Hz].
  apply (leb_key x y Hx Hy) in H1. apply (leb_key y z Hy Hz) in H2.
  apply (leb_key x z Hx Hz). intros Hk.
  destruct (key_lt_total (key y) (key x)) as [?|[E|?]]; [tauto| |].
  - rewrite E in H2. tauto.
  - apply H2. eapply key_lt_trans; eassumption.
Qed.

(** *** Sums of non-negative floats are non-negative *)

Lemma shr_1_nonneg (mrs : shr_record) :
  0 <= shr_m mrs -> 0 <= shr_m (shr_1 mrs).
Proof.
  destruct mrs as [m r s]; cbn [shr_m]; intros Hm.
  destruct m as [|[p|p|]|p]; cbn; lia.
Qed.

Lemma iter_shr_1_nonneg (p : positive) :
  forall mrs, 0 <= shr_m mrs -> 0 <= shr_m (SpecFloat.iter_pos shr_1 p mrs).
Proof.
  induction p as [p IH|p IH|]; intros mrs Hm; cbn [SpecFloat.iter_pos].
  - apply IH, IH, shr_1_nonneg, Hm.
  - apply IH, IH, Hm.
  - apply shr_1_nonneg, Hm.
Qed.

Lemma shr_fexp_nonneg (m e : Z) (l : location) :
  0 <= m -> 0 <= shr_m (fst (shr_fexp prec emax m e l)).
Proof.
  intros Hm. unfold shr_fexp, shr.
  assert (H0 : 0 <= shr_m (shr_record_of_loc m l))
    by (destruct l as [|[]]; exact Hm).
  destruct (fexp prec emax (Zdigits2 m + e) - e) as [|p|p]; cbn [fst];
    auto using iter_shr_1_nonneg.
Qed.

Lemma round_nearest_even_nonneg (m : Z) (l : location) :
  0 <= m -> 0 <= round_nearest_even m l.
Proof.
  intros Hm. destruct l as [|[]]; cbn; try destruct (Z.even m); lia.
Qed.

Lemma binary_round_aux_nonneg (m e : Z) (l : location) :
  0 <= m -> nonneg (binary_round_aux prec emax false m e l) = true.
Proof.
  intros Hm. unfold binary_round_aux.
  pose proof (shr_fexp_nonneg m e l Hm) as H1.
  destruct (shr_fexp prec emax m e l) as [mrs' e']; cbn [fst] in H1.
  pose proof (shr_fexp_nonneg _ e' loc_Exact
                (round_nearest_even_nonneg _ (loc_of_shr_record mrs') H1)) as H2.
  destruct (shr_fexp prec emax _ e' loc_Exact) as [mrs'' e'']; cbn [fst] in H2.
  destruct (shr_m mrs'') as [|p|p]; [reflexivity| |lia].
  destruct (e'' <=? emax - prec); reflexivity.
Qed.

Lemma add_nonneg (x y : float) :
  nonneg x = true -> nonneg y = true -> nonneg (add x y) = true.
Proof.
  destruct x as [[]|[]| |[] mx ex], y as [[]|[]| |[] my ey];
    cbn [nonneg negb]; try discriminate; try reflexivity; intros _ _.
  unfold add, SFadd, cond_Zopp.
  change (Z.pos ?a + Z.pos ?b) with (Z.pos (a + b)).
  cbn [binary_normalize]. unfold binary_round.
  destruct (shl_align (_ + _) _ _) as [mz ez].
  apply binary_round_aux_nonneg. lia.
Qed.

Lemma nonneg_not_nan (x : float) : nonneg x = true -> is_nan x = false.
Proof. destruct x as [[]|[]| |[] mx ex]; cbn; congruence. Qed.

Lemma leb_zero_nonneg (x : float) : nonneg x = true -> leb zero x = true.
Proof. destruct x as [[]|[]| |[] mx ex]; cbn; congruence. Qed.

(** The clamp [if score > 1.0: score = 1.0]. *)
Lemma clamp_bounds (score : float) :
  nonneg score = true ->
  let r := if gtb score one then one else score in
  leb zero r = true /\ leb r one = true.
Proof.
  intros Hs; cbn zeta. unfold gtb.
  destruct (ltb one score) eqn:E.
  - split; reflexivity.
  - split; [apply leb_zero_nonneg, Hs|].
    apply not_ltb_leb; [reflexivity|apply nonneg_not_nan, Hs|exact E].
Qed.

(** *** Above 1.0 a sum stays above 1.0 *)

Lemma digits2_pos_size (p : positive) : digits2_pos p = Pos.size p.
Proof. induction p; cbn; congruence. Qed.

Lemma digits2_pos_bounds (p : positive) :
  2 ^ (Zpos (digits2_pos p) - 1) <= Zpos p < 2 ^ Zpos (digits2_pos p).
Proof.
  rewrite digits2_pos_size. split.
  - pose proof (Pos.size_le p) as H.
    apply Pos2Z.pos_le_pos in H. rewrite Pos2Z.inj_pow in H.
    change (Zpos p~0) with (2 * Zpos p) in H.
    replace (Zpos (Pos.size p)) with (Z.succ (Zpos (Pos.size p) - 1)) in H by lia.
    rewrite Z.pow_succ_r in H by lia. lia.
  - pose proof (Pos.size_gt p) as H.
    apply Pos2Z.pos_lt_pos in H. now rewrite Pos2Z.inj_pow in H.
Qed.

Lemma digits2_pos_unique (p : positive) (d : Z) :
  2 ^ (d - 1) <= Zpos p < 2 ^ d -> Zpos (digits2_pos p) = d.
Proof.
  intros [Hlo Hhi]. pose proof (digits2_pos_bounds p) as [Blo Bhi].
  assert (0 < d).
  { destruct (Z.lt_trichotomy d 0) as [?|[->|?]]; [|cbn in Hhi; lia|lia].
    rewrite Z.pow_neg_r in Hhi by lia. lia. }
  assert (Zpos (digits2_pos p) - 1 < d).
  { apply (Z.pow_lt_mono_r_iff 2); lia. }
  assert (d - 1 < Zpos (digits2_pos p)).
  { apply (Z.pow_lt_mono_r_iff 2); lia. }
  lia.
Qed.

Lemma shr_1_div2 (mrs : shr_record) :
  0 <= shr_m mrs -> shr_m (shr_1 mrs) = shr_m mrs / 2.
Proof.
  destruct mrs as [m r s]; cbn [shr_m]; intros Hm.
  destruct m as [|[p|p|]|p]; cbn [shr_1 shr_m]; try lia.
  - reflexivity.
  - apply Z.div_unique with 1; lia.
  - apply Z.div_unique with 0; lia.
  - reflexivity.
Qed.

Lemma pow2_xI (n : positive) : 2 ^ Zpos n~1 = 2 * (2 ^ Zpos n * 2 ^ Zpos n).
Proof.
  replace (Zpos n~1) with (1 + (Zpos n + Zpos n)) by lia.
  rewrite !Z.pow_add_r, Z.pow_1_r by lia. reflexivity.
Qed.

Lemma pow2_xO (n : positive) : 2 ^ Zpos n~0 = 2 ^ Zpos n * 2 ^ Zpos n.
Proof.
  change (Zpos n~0) with (2 * Zpos n).
  replace (2 * Zpos n) with (Zpos n + Zpos n) by lia.
  now rewrite Z.pow_add_r by lia.
Qed.

Lemma iter_shr_1_div (n : positive) :
  forall mrs, 0 <= shr_m mrs ->
    shr_m (SpecFloat.iter_pos shr_1 n mrs) = shr_m mrs / 2 ^ Zpos n.
Proof.
  induction n as [n IH|n IH|]; intros mrs Hm; cbn [SpecFloat.iter_pos].
  - assert (H1 : 0 <= shr_m (shr_1 mrs))
      by (rewrite shr_1_div2 by assumption; apply Z.div_pos; lia).
    assert (H2 : 0 <= shr_m (SpecFloat.iter_pos shr_1 n (shr_1 mrs)))
      by (rewrite IH by assumption; apply Z.div_pos; lia).
    rewrite IH, IH, shr_1_div2 by assumption.
    rewrite !Z.div_div by lia. now rewrite pow2_xI.
  - assert (H2 : 0 <= shr_m (SpecFloat.iter_pos shr_1 n mrs))
      by (rewrite IH by assumption; apply Z.div_pos; lia).
    rewrite IH, IH by assumption.
    rewrite Z.div_div by lia. now rewrite pow2_xO.
  - rewrite shr_1_div2 by assumption. reflexivity.
Qed.

Lemma iter_xO_mul (m d : positive) :
  Zpos (Pos.iter xO m d) = Zpos m * 2 ^ Zpos d.
Proof.
  induction d as [|d IH] using Pos.peano_ind.
  - cbn. lia.
  - rewrite Pos.iter_succ, Pos2Z.inj_succ, Z.pow_succ_r by lia.
    change (Zpos (Pos.iter xO m d)~0) with (2 * Zpos (Pos.iter xO m d)).
    rewrite IH. lia.
Qed.

Lemma fexp_large (x : Z) : -1021 <= x -> fexp prec emax x = x - 53.
Proof. unfold fexp, SpecFloat.emin, prec, emax. lia. Qed.

Lemma round_nearest_even_range (m : Z) (l : location) :
  m <= round_nearest_even m l <= m + 1.
Proof. destruct l as [|[]]; cbn; try destruct (Z.even m); lia. Qed.

Lemma pow2_split (a b : Z) : 0 <= a -> 0 <= b -> 2 ^ (a + b) = 2 ^ a * 2 ^ b.
Proof. intros. now rewrite Z.pow_add_r. Qed.

(** Rounding a positive integer of at least 54 digits whose rounded exponent
    is at least -52: the result is a normal float (or overflows), with the
    exponent of the truncation or the next one. *)
Lemma binary_round_aux_large (M : positive) (ex : Z) :
  54 <= Zpos (digits2_pos M) ->
  -52 <= ex + Zpos (digits2_pos M) - 53 ->
  match binary_round_aux prec emax false (Zpos M) ex loc_Exact with
  | S754_infinity false => True
  | S754_finite false m' e' =>
      2 ^ 52 <= Zpos m' < 2 ^ 53 /\ e' <= 971
      /\ ((e' = ex + Zpos (digits2_pos M) - 53
           /\ Zpos M / 2 ^ (Zpos (digits2_pos M) - 53) <= Zpos m')
          \/ e' = ex + Zpos (digits2_pos M) - 52)
  | _ => False
  end.
Proof.
  intros HD He. pose proof (digits2_pos_bounds M) as [Mlo Mhi].
  set (D := Zpos (digits2_pos M)) in *.
  unfold binary_round_aux, shr_fexp at 1. cbn [Zdigits2]. fold D.
  rewrite fexp_large by lia.
  replace (D + ex - 53 - ex) with (D - 53) by lia.
  destruct (D - 53) as [|n|n] eqn:En; try lia.
  cbn [shr shr_record_of_loc].
  set (mrs' := SpecFloat.iter_pos shr_1 n _).
  assert (Hm1 : shr_m mrs' = Zpos M / 2 ^ Zpos n)
    by (unfold mrs'; rewrite iter_shr_1_div; cbn [shr_m]; [reflexivity|lia]).
  assert (Hpow : 2 ^ (D - 1) = 2 ^ Zpos n * 2 ^ 52)
    by (rewrite <- pow2_split by lia; f_equal; lia).
  assert (Hpow' : 2 ^ D = 2 ^ Zpos n * 2 ^ 53)
    by (rewrite <- pow2_split by lia; f_equal; lia).
  assert (Hlo : 2 ^ 52 <= shr_m mrs')
    by (rewrite Hm1; apply Z.div_le_lower_bound; lia).
  assert (Hhi : shr_m mrs' < 2 ^ 53)
    by (rewrite Hm1; apply Z.div_lt_upper_bound; lia).
  pose proof (round_nearest_even_range (shr_m mrs') (loc_of_shr_record mrs'))
    as Hr.
  set (m2 := round_nearest_even _ _) in *.
  destruct m2 as [|p2|p2] eqn:E2; try lia.
  unfold shr_fexp. cbn [Zdigits2 shr_record_of_loc].
  destruct (Z.eq_dec (Zpos p2) (2 ^ 53)) as [Hcarry|Hno].
  - rewrite (digits2_pos_unique p2 54) by (rewrite Hcarry; cbn; lia).
    rewrite fexp_large by lia.
    replace (54 + (ex + Zpos n) - 53 - (ex + Zpos n)) with 1 by lia.
    cbn [shr SpecFloat.iter_pos]. rewrite shr_1_div2 by (cbn; lia).
    cbn [shr_m]. rewrite Hcarry.
    change (2 ^ 53 / 2) with (Zpos 4503599627370496).
    destruct (ex + Zpos n + 1 <=? emax - prec) eqn:Eo; [|exact I].
    apply Z.leb_le in Eo. unfold emax, prec in Eo.
    split; [cbn; lia|]. split; [lia|]. right. lia.
  - rewrite (digits2_pos_unique p2 53) by (cbn; lia).
    rewrite fexp_large by lia.
    replace (53 + (ex + Zpos n) - 53 - (ex + Zpos n)) with 0 by lia.
    cbn [shr shr_m].
    destruct (ex + Zpos n <=? emax - prec) eqn:Eo; [|exact I].
    apply Z.leb_le in Eo. unfold emax, prec in Eo.
    split; [lia|]. split; [lia|]. left. split; [lia|].
    rewrite <- Hm1. lia.
Qed.

Lemma above_one_gt (x : float) : above_one x -> ltb one x = true.
Proof.
  destruct x as [[]|[]| |[] m e]; cbn [above_one]; try tauto;
    try (intros _; reflexivity).
  intros (Hm & He & Hm').
  unfold ltb, SFltb, SFcompare, one.
  change (Pos.compare_cont Eq ?a ?b) with (Pos.compare a b).
  destruct (Z.compare_spec (-52) e) as [<-|?|?]; [|reflexivity|lia].
  destruct (Pos.compare_spec 4503599627370496 m) as [<-|?|Hlt].
  - specialize (Hm' eq_refl).
    change (2 ^ 52) with 4503599627370496 in Hm'. lia.
  - reflexivity.
  - apply Pos2Z.pos_lt_pos in Hlt.
    change (2 ^ 52) with 4503599627370496 in Hm. lia.
Qed.

(** Adding a positive float below 1.0 to a float above 1.0 gives a float
    above 1.0. *)
Lemma above_one_add (x c : float) :
  above_one x -> small_addend c -> above_one (add x c).
Proof.
  destruct x as [[]|[]| |[] m e]; cbn [above_one]; try tauto;
    destruct c as [[]|[]| |[] mc ec]; cbn [small_addend]; try tauto.
  intros (Hm & He & Hm') (Hmc & Hec).
  unfold add, SFadd, cond_Zopp.
  replace (Z.min e ec) with ec by lia.
  unfold shl_align at 2. rewrite Z.sub_diag. cbn [fst].
  unfold shl_align at 1. destruct (ec - e) as [|d|d] eqn:Ed; try lia.
  cbn [fst].
  change (Zpos ?a + Zpos ?b) with (Zpos (a + b)). cbn [binary_normalize].
  set (M := (Pos.iter xO m d + mc)%positive).
  assert (HM : Zpos M = Zpos m * 2 ^ Zpos d + Zpos mc)
    by (unfold M; rewrite Pos2Z.inj_add, iter_xO_mul; reflexivity).
  assert (Hs : Zpos d = e - ec) by lia.
  assert (Hp53 : 2 ^ (53 + Zpos d) = 2 ^ 53 * 2 ^ Zpos d)
    by (apply pow2_split; lia).
  assert (Hp52 : 2 ^ (52 + Zpos d) = 2 ^ 52 * 2 ^ Zpos d)
    by (apply pow2_split; lia).
  assert (Hp54 : 2 ^ (54 + Zpos d) = 2 ^ 54 * 2 ^ Zpos d)
    by (apply pow2_split; lia).
  assert (Hpd : 2 <= 2 ^ Zpos d).
  { change 2 with (2 ^ 1) at 1. apply Z.pow_le_mono_r; lia. }
  assert (HMlo : 2 ^ (52 + Zpos d) <= Zpos M) by nia.
  assert (HMhi : Zpos M < 2 ^ (54 + Zpos d)).
  { rewrite Hp54, HM. change (2 ^ 54) with (2 * 2 ^ 53). nia. }
  pose proof (digits2_pos_bounds M) as [Dlo Dhi].
  assert (HD1 : 53 + Zpos d <= Zpos (digits2_pos M)).
  { assert (52 + Zpos d < Zpos (digits2_pos M)); [|lia].
    apply (Z.pow_lt_mono_r_iff 2); lia. }
  assert (HD2 : Zpos (digits2_pos M) <= 54 + Zpos d).
  { assert (Zpos (digits2_pos M) - 1 < 54 + Zpos d); [|lia].
    apply (Z.pow_lt_mono_r_iff 2); lia. }
  unfold binary_round.
  rewrite fexp_large by lia.
  unfold shl_align.
  destruct (Zpos (digits2_pos M) + ec - 53 - ec) as [|k|k] eqn:Ek; try lia.
  pose proof (binary_round_aux_large M ec) as H.
  destruct (binary_round_aux prec emax false (Zpos M) ec loc_Exact)
    as [[]|[]| |[] m' e']; try (apply H; lia); try exact I.
  cbn [above_one].
  destruct H as (Hm'1 & He'1 & Hcases); try lia.
  split; [exact Hm'1|]. split; [lia|].
  intros He'. destruct Hcases as [[E1 E2]|E1]; [|lia].
  assert (Zpos (digits2_pos M) - 53 = Zpos d) as Hn by lia.
  rewrite Hn in E2.
  assert (Hdiv : Zpos m <= Zpos M / 2 ^ Zpos d)
    by (apply Z.div_le_lower_bound; lia).
  assert (He52 : e = -52) by lia. specialize (Hm' He52). lia.
Qed.

Lemma small_addend_c005 : small_addend c005.
Proof. cbn. lia. Qed.

Lemma small_addend_c020 : small_addend c020.
Proof. cbn. lia. Qed.

End F64Facts.

(* ===================================================================== *)
(** ** Facts on the ranking *)
(* ===================================================================== *)

Section SortFacts.
Import F64Facts.

Lemma insert_desc_perm (x : scored_t) (l : list scored_t) :
  Permutation (insert_desc x l) (x :: l).
Proof.
  induction l as [|y l IH]; cbn; [reflexivity|].
  destruct (F64.ltb (conf_of x) (conf_of y)); [|reflexivity].
  rewrite IH. apply perm_swap.
Qed.

Lemma sort_desc_perm (l : list scored_t) : Permutation (sort_desc l) l.
Proof.
  induction l as [|x l IH]; cbn; [reflexivity|].
  rewrite insert_desc_perm. now constructor.
Qed.

Lemma insert_desc_sorted (x : scored_t) (l : list scored_t) :
  F64.is_nan (conf_of x) = false ->
  Forall (fun y => F64.is_nan (conf_of y) = false) l ->
  StronglySorted (fun a b => F64.geb (conf_of a) (conf_of b) = true) l ->
  StronglySorted (fun a b => F64.geb (conf_of a) (conf_of b) = true)
    (insert_desc x l).
Proof.
  intros Hx Hl Hs. induction Hs as [|y l Hs IH Hy]; cbn.
  - repeat constructor.
  - apply Forall_cons in Hl as [Hny Hl].
    destruct (F64.ltb (conf_of x) (conf_of y)) eqn:E.
    + constructor; [apply IH, Hl|].
      rewrite insert_desc_perm. constructor; [|exact Hy].
      unfold F64.geb. apply not_ltb_leb; auto.
      destruct (F64.ltb (conf_of y) (conf_of x)) eqn:E'; [|reflexivity].
      apply (ltb_key _ _ Hx Hny) in E. apply (ltb_key _ _ Hny Hx) in E'.
      destruct (key_lt_irrefl _ (key_lt_trans _ _ _ E E')).
    + assert (Hxy : F64.geb (conf_of x) (conf_of y) = true)
        by (apply not_ltb_leb; auto).
      constructor; [constructor; assumption|].
      constructor; [exact Hxy|].
      eapply Forall_impl; [exact Hy|]. cbn. intros z Hz.
      unfold F64.geb in *. eapply leb_trans; eassumption.
Qed.

Lemma sort_desc_sorted (l : list scored_t) :
  Forall (fun y => F64.is_nan (conf_of y) = false) l ->
  StronglySorted (fun a b => F64.geb (conf_of a) (conf_of b) = true)
    (sort_desc l).
Proof.
  induction 1 as [|x l Hx Hl IH]; cbn; [constructor|].
  apply insert_desc_sorted; [exact Hx| |exact IH].
  rewrite sort_desc_perm. exact Hl.
Qed.

(** Inserting does not reorder the entries a predicate selects, as long as
    no selected entry is strictly below another one. *)
Lemma insert_desc_filter (P : scored_t -> bool) (x : scored_t) (l : list scored_t) :
  (forall y, P x = true -> P y = true ->
             F64.ltb (conf_of x) (conf_of y) = false) ->
  List.filter P (insert_desc x l) = List.filter P (x :: l).
Proof.
  intros HP. induction l as [|y l IH]; [reflexivity|].
  cbn [insert_desc].
  destruct (F64.ltb (conf_of x) (conf_of y)) eqn:E; [|reflexivity].
  cbn [List.filter] in *. rewrite IH.
  destruct (P x) eqn:Px, (P y) eqn:Py; try reflexivity.
  rewrite HP in E by auto. discriminate.
Qed.

Lemma sort_desc_filter (P : scored_t -> bool) (l : list scored_t) :
  (forall x y, P x = true -> P y = true ->
               F64.ltb (conf_of x) (conf_of y) = false) ->
  List.filter P (sort_desc l) = List.filter P l.
Proof.
  intros HP. induction l as [|x l IH]; [reflexivity|].
  cbn [sort_desc foldr]. fold (sort_desc l).
  rewrite insert_desc_filter by (intros; apply HP; assumption).
  cbn [List.filter]. now rewrite IH.
Qed.

Lemma filter_filter_comm {A : Type} (P Q : A -> bool) (l : list A) :
  List.filter P (List.filter Q l) = List.filter Q (List.filter P l).
Proof.
  induction l as [|x l IH]; [reflexivity|]. cbn.
  destruct (P x) eqn:Px, (Q x) eqn:Qx; cbn; rewrite ?Px, ?Qx, IH; reflexivity.
Qed.

End SortFacts.

(* ===================================================================== *)
(** ** Facts on runs of the script *)
(* ===================================================================== *)

Lemma bind_Ok_inv {A B : Type} (m : M A) (f : A -> M B) σ b σ' :
  (m ≫= f) σ = (Ok b, σ') ->
  exists a σ1, m σ = (Ok a, σ1) /\ f a σ1 = (Ok b, σ').
Proof.
  unfold mbind, M_bind. destruct (m σ) as [[a|e] σ1]; [eauto|discriminate].
Qed.

Lemma bind_Ok {A B : Type} (m : M A) (f : A -> M B) σ a σ1 :
  m σ = (Ok a, σ1) -> (m ≫= f) σ = f a σ1.
Proof. unfold mbind, M_bind. now intros ->. Qed.

Lemma bind_Raise {A B : Type} (m : M A) (f : A -> M B) σ e σ1 :
  m σ = (Raise e, σ1) -> (m ≫= f) σ = (Raise e, σ1).
Proof. unfold mbind, M_bind. now intros ->. Qed.

Lemma bind_lift_Ok {A B : Type} (a : A) (f : A -> M B) σ :
  (lift (Ok a) ≫= f) σ = f a σ.
Proof. reflexivity. Qed.

Lemma bind_lift_Raise {A B : Type} (e : exn) (f : A -> M B) σ :
  (lift (Raise e) ≫= f) σ = (Raise e, σ).
Proof. reflexivity. Qed.

Lemma lift_Ok_inv {A : Type} (r : result A) σ a σ' :
  lift r σ = (Ok a, σ') -> r = Ok a /\ σ' = σ.
Proof. unfold lift. now intros [= -> ->]. Qed.

Lemma result_bind_Ok_inv {A B : Type} (r : result A) (f : A -> result B) b :
  r ≫= f = Ok b -> exists a, r = Ok a /\ f a = Ok b.
Proof. destruct r as [a|e]; cbn; [eauto|discriminate]. Qed.

(** Split a successful run of a [bind] into its two halves. *)
Tactic Notation "inv_bind" hyp(H) "as" ident(x) ident(s) ident(Hx) :=
  apply bind_Ok_inv in H as (x & s & Hx & H).

Tactic Notation "inv_lift" hyp(H) "as" ident(x) ident(Hx) :=
  let s := fresh "σ" in
  apply bind_Ok_inv in H as (x & s & Hx & H);
  apply lift_Ok_inv in Hx as [Hx ->].

Section RunFacts.

Variable requests_get : list request -> request -> response.
Variable json_dumps : value -> string.

(** [safe_get] swallows every failure: it always returns, and it leaves
    the heap alone. *)
Lemma safe_get_from_returns (n : nat) (rq : request) σ :
  exists v σ', safe_get_from requests_get n rq σ = (Ok v, σ')
               /\ heap σ' = heap σ.
Proof.
  revert σ. induction n as [|n IH]; intros σ; cbn.
  - exists VNone, σ. split; reflexivity.
  - unfold mbind, M_bind, http_get.
    destruct (json_if_ok (requests_get (log σ) rq)) as [v|].
    + exists v, (State (heap σ) (rq :: log σ)). split; reflexivity.
    + destruct (IH (State (heap σ) (rq :: log σ))) as (v & σ' & E & Hh).
      exists v, σ'. split; [exact E|exact Hh].
Qed.

Lemma get_entity_data_returns (qid : value) σ :
  exists ent σ', get_entity_data requests_get qid σ = (Ok ent, σ')
                 /\ heap σ' = heap σ.
Proof. apply safe_get_from_returns. Qed.

(** When every attempt fails the lookup yields [None]. *)
Lemma safe_get_from_failing (n : nat) (rq : request) σ :
  (forall history, requests_get history rq = NoResponse) ->
  exists σ', safe_get_from requests_get n rq σ = (Ok VNone, σ')
             /\ heap σ' = heap σ.
Proof.
  intros Hf. revert σ. induction n as [|n IH]; intros σ; cbn.
  - exists σ. split; reflexivity.
  - unfold mbind, M_bind, http_get. rewrite Hf. cbn.
    destruct (IH (State (heap σ) (rq :: log σ))) as (σ' & E & Hh).
    exists σ'. split; [exact E|exact Hh].
Qed.

(** What a run of [score_candidate] that returns went through. *)
Lemma score_candidate_Ok_inv (c : value) (row : gmap string value) σ conf σ' :
  score_candidate requests_get c row σ = (Ok conf, σ') ->
  exists d label term desc s qid ent has,
    c = VDict d
    /\ Py.lower (Py.or (Py.dict_get d "label" VNone) (VStr "")) = Ok label
    /\ Py.lower (query_term row) = Ok term
    /\ Py.lower (Py.or (Py.dict_get d "description" VNone) (VStr "")) = Ok desc
    /\ add_description_score (add_label_score F64.zero label term) desc row = Ok s
    /\ d !! "id" = Some qid
    /\ get_entity_data requests_get qid σ = (Ok ent, σ')
    /\ has_enwiki ent qid = Ok has
    /\ conf = normalize (if has then F64.add s F64.c020 else s).
Proof.
  intros H. unfold score_candidate in H.
  inv_lift H as lbl Hlbl. inv_lift H as label Hlabel.
  inv_lift H as term Hterm. inv_lift H as dv Hdv. inv_lift H as desc Hdesc.
  inv_lift H as s Hs. inv_lift H as qid Hqid. inv_bind H as ent σ1 Hent.
  inv_lift H as has Hhas. injection H as <- <-.
  destruct c as [| | | | |l|d]; try discriminate.
  cbn in Hlbl, Hdv, Hqid. injection Hlbl as <-. injection Hdv as <-.
  unfold Py.dict_item in Hqid.
  destruct (d !! "id") as [q|] eqn:Hid; [|discriminate].
  injection Hqid as <-.
  exists d, label, term, desc, s, q, ent, has. repeat split; assumption.
Qed.

End RunFacts.

(* ===================================================================== *)
(** ** Scoring and searching leave the heap alone *)
(* ===================================================================== *)

Lemma heap_stable_ret {A : Type} (a : A) : heap_stable (mret a).
Proof. intros σ. reflexivity. Qed.

Lemma heap_stable_lift {A : Type} (r : result A) : heap_stable (lift r).
Proof. intros σ. reflexivity. Qed.

Lemma heap_stable_bind {A B : Type} (m : M A) (f : A -> M B) :
  heap_stable m -> (forall a, heap_stable (f a)) -> heap_stable (m ≫= f).
Proof.
  intros Hm Hf σ. unfold mbind, M_bind.
  specialize (Hm σ). destruct (m σ) as [[a|e] σ1]; cbn in *.
  - rewrite Hf. exact Hm.
  - exact Hm.
Qed.

Create HintDb heap discriminated.
#[local] Hint Resolve heap_stable_ret heap_stable_lift : heap.

(** Peels the binds of a computation whose parts are all heap stable. *)
Ltac heap_stable_steps :=
  repeat (apply heap_stable_bind; [solve [auto with heap]|intros ?]);
  auto with heap.

Section HeapFacts.

Variable requests_get : list request -> request -> response.

Lemma heap_stable_http_get (rq : request) :
  heap_stable (http_get requests_get rq).
Proof. intros σ. reflexivity. Qed.

Lemma heap_stable_safe_get_from (n : nat) (rq : request) :
  heap_stable (safe_get_from requests_get n rq).
Proof.
  induction n as [|n IH]; cbn; [apply heap_stable_ret|].
  apply heap_stable_bind; [apply heap_stable_http_get|].
  intros r. destruct (json_if_ok r); [apply heap_stable_ret|exact IH].
Qed.

Lemma heap_stable_search_wikidata (label : value) :
  heap_stable (search_wikidata requests_get label).
Proof.
  destruct label; try apply heap_stable_lift.
  apply heap_stable_safe_get_from.
Qed.

Lemma heap_stable_get_entity_data (qid : value) :
  heap_stable (get_entity_data requests_get qid).
Proof. apply heap_stable_safe_get_from. Qed.

#[local] Hint Resolve heap_stable_search_wikidata
  heap_stable_get_entity_data : heap.

Lemma heap_stable_score_candidate (c : value) (row : gmap string value) :
  heap_stable (score_candidate requests_get c row).
Proof. unfold score_candidate. heap_stable_steps. Qed.

#[local] Hint Resolve heap_stable_score_candidate : heap.

Lemma heap_stable_score_hits (hits : list value) (row : gmap string value) :
  forall scored, heap_stable (score_hits requests_get hits row scored).
Proof.
  induction hits as [|c hits IH]; intros scored; cbn;
    [apply heap_stable_ret|].
  heap_stable_steps.
Qed.

#[local] Hint Resolve heap_stable_score_hits : heap.

Lemma heap_stable_find_candidates_for_row (row : gmap string value)
    (threshold : float) :
  heap_stable (find_candidates_for_row requests_get row threshold).
Proof.
  unfold find_candidates_for_row.
  destruct (negb _); [apply heap_stable_ret|].
  apply heap_stable_bind; [apply heap_stable_search_wikidata|].
  intros res. destruct (negb _); [apply heap_stable_ret|].
  heap_stable_steps.
Qed.

End HeapFacts.

(* ===================================================================== *)
(** ** The feature scorer *)
(* ===================================================================== *)

Section ScorerFacts.
Import F64Facts.

Lemma add_label_score_nonneg (score : float) (label term : string) :
  F64.nonneg score = true ->
  F64.nonneg (add_label_score score label term) = true.
Proof.
  intros Hs. unfold add_label_score.
  repeat case_match; auto using add_nonneg.
Qed.

Lemma fold_token_score_nonneg (desc : string) (tokens : list string) :
  forall score, F64.nonneg score = true ->
  F64.nonneg (fold_left (add_token_score desc) tokens score) = true.
Proof.
  induction tokens as [|t tokens IH]; intros score Hs; cbn; [exact Hs|].
  apply IH. unfold add_token_score.
  destruct (token_matches desc t); auto using add_nonneg.
Qed.

Lemma add_description_score_nonneg (score : float) (desc : string)
    (row : gmap string value) (s : float) :
  F64.nonneg score = true ->
  add_description_score score desc row = Ok s ->
  F64.nonneg s = true.
Proof.
  intros Hs H. unfold add_description_score in H.
  destruct (Str.nonempty desc); [|injection H as <-; exact Hs].
  apply result_bind_Ok_inv in H as (ctx & _ & H).
  apply result_bind_Ok_inv in H as (ctx' & _ & H).
  injection H as <-. apply fold_token_score_nonneg, Hs.
Qed.

Lemma normalize_nonneg (score : float) :
  F64.nonneg score = true -> F64.nonneg (normalize score) = true.
Proof. intros H. unfold normalize. now destruct (F64.gtb score F64.one). Qed.

(** A confidence that [score_candidate] returns is not NaN and not negative. *)
Lemma score_candidate_nonneg
    (requests_get : list request -> request -> response)
    (c : value) (row : gmap string value) σ σ' (conf : float) :
  score_candidate requests_get c row σ = (Ok conf, σ') ->
  F64.nonneg conf = true.
Proof.
  intros H.
  apply score_candidate_Ok_inv in H
    as (d & label & term & desc & s & qid & ent & has
        & _ & _ & _ & _ & Hs & _ & _ & _ & ->).
  apply normalize_nonneg.
  assert (Hn : F64.nonneg s = true).
  { eapply add_description_score_nonneg; [|exact Hs].
    apply add_label_score_nonneg. reflexivity. }
  destruct has; [apply add_nonneg|]; auto.
Qed.

End ScorerFacts.

(** C3: whatever the candidate, the record and the outcome of the
    entity-detail lookup, a confidence that [score_candidate] returns lies in
    [0.0, 1.0]: every contribution is non-negative and the sum is clamped
    at 1.0. *)
Theorem score_candidate_bounds
    (requests_get : list request -> request -> response)
    (candidate : value) (row : gmap string value) (σ σ' : state) (conf : float) :
  score_candidate requests_get candidate row σ = (Ok conf, σ') ->
  F64.leb F64.zero conf = true /\ F64.leb conf F64.one = true.
Proof.
  intros H.
  apply score_candidate_Ok_inv in H
    as (d & label & term & desc & s & qid & ent & has & _ & _ & _ & _ & Hs & _ & _ & _ & ->).
  apply F64Facts.clamp_bounds.
  assert (Hn : F64.nonneg s = true).
  { eapply add_description_score_nonneg; [|exact Hs].
    apply add_label_score_nonneg. reflexivity. }
  destruct has; [apply F64Facts.add_nonneg|]; auto.
Qed.

Lemma score_candidate_bounds_witness :
  F64.leb F64.zero F64.c075 = true /\ F64.leb F64.c075 F64.one = true.
Proof.
  apply (score_candidate_bounds Scenario.berlin_net Scenario.berlin_hit
           Scenario.berlin_row (Scenario.start [Scenario.berlin_row])
           (snd (score_candidate Scenario.berlin_net Scenario.berlin_hit
                   Scenario.berlin_row (Scenario.start [Scenario.berlin_row])))).
  vm_compute. reflexivity.
Defined.

Section ScorerRuns.

Variable requests_get : list request -> request -> response.

Lemma iter_add_comm (k : nat) (c s : float) :
  Nat.iter k (fun x => F64.add x c) (F64.add s c)
  = F64.add (Nat.iter k (fun x => F64.add x c) s) c.
Proof.
  induction k as [|k IH]; [reflexivity|].
  rewrite !Nat.iter_succ. now rewrite IH.
Qed.

(** The loop over the context tokens adds 0.05 once per matching token. *)
Lemma fold_token_score_count (desc : string) (tokens : list string) :
  forall score,
    fold_left (add_token_score desc) tokens score
    = Nat.iter (match_count desc tokens) (fun x => F64.add x F64.c005) score.
Proof.
  unfold match_count.
  induction tokens as [|t tokens IH]; intros score; [reflexivity|].
  cbn [fold_left List.filter]. unfold add_token_score at 2.
  destruct (token_matches desc t).
  - rewrite IH. cbn [length]. rewrite Nat.iter_succ. apply iter_add_comm.
  - apply IH.
Qed.

Lemma token_matches_empty (t : string) : token_matches "" t = false.
Proof. destruct t; reflexivity. Qed.

Lemma match_count_empty (tokens : list string) : match_count "" tokens = 0%nat.
Proof.
  unfold match_count. induction tokens as [|t tokens IH]; [reflexivity|].
  cbn. now rewrite token_matches_empty.
Qed.

Lemma add_description_score_count (score : float) (desc : string)
    (row : gmap string value) (tokens : list string) :
  context_tokens row = Ok tokens ->
  add_description_score score desc row
  = Ok (Nat.iter (match_count desc tokens) (fun x => F64.add x F64.c005) score).
Proof.
  intros Hc. unfold add_description_score.
  destruct desc as [|a desc]; cbn [Str.nonempty].
  - now rewrite match_count_empty.
  - unfold context_tokens in Hc.
    destruct (context_string row) as [ctx|]; [|discriminate]. cbn in *.
    destruct (Py.lower ctx) as [ctx'|]; [|discriminate]. cbn in *.
    injection Hc as <-. now rewrite fold_token_score_count.
Qed.

(** A run of [score_candidate] on a hit whose members have the expected
    types, told by its ingredients. *)
Lemma score_candidate_run (d : gmap string value) (row : gmap string value)
    (label term desc : string) (s : float) (qid ent : value) (has : bool) σ σ' :
  Py.lower (Py.or (Py.dict_get d "label" VNone) (VStr "")) = Ok label ->
  Py.lower (query_term row) = Ok term ->
  Py.lower (Py.or (Py.dict_get d "description" VNone) (VStr "")) = Ok desc ->
  add_description_score (add_label_score F64.zero label term) desc row = Ok s ->
  d !! "id" = Some qid ->
  get_entity_data requests_get qid σ = (Ok ent, σ') ->
  has_enwiki ent qid = Ok has ->
  score_candidate requests_get (VDict d) row σ
  = (Ok (normalize (if has then F64.add s F64.c020 else s)), σ').
Proof.
  intros Hl Ht Hd Hs Hq He Hh. unfold score_candidate.
  cbn [Py.get Py.item]. unfold Py.dict_item. rewrite Hq.
  unfold mbind, M_bind, lift. rewrite Hl, Ht, Hd, Hs, He, Hh. reflexivity.
Qed.

End ScorerRuns.

(* ===================================================================== *)
(** ** Scoring on documents of the expected shape *)
(* ===================================================================== *)

Section ShapeFacts.

Variable requests_get : list request -> request -> response.

(** [safe_get] returns [None] or the body of one of the answers. *)
Lemma safe_get_from_cases (n : nat) (rq : request) σ :
  exists v σ',
    safe_get_from requests_get n rq σ = (Ok v, σ')
    /\ (v = VNone
        \/ exists history, json_if_ok (requests_get history rq) = Some v).
Proof.
  revert σ. induction n as [|n IH]; intros σ; cbn.
  - exists VNone, σ. split; [reflexivity|]. now left.
  - unfold mbind, M_bind, http_get.
    destruct (json_if_ok (requests_get (log σ) rq)) as [v|] eqn:E.
    + exists v, (State (heap σ) (rq :: log σ)). split; [reflexivity|].
      right. now exists (log σ).
    + apply IH.
Qed.

Lemma lower_text_or_none (d : gmap string value) (k : string) :
  text_or_none (d !! k) = true ->
  exists s, Py.lower (Py.or (Py.dict_get d k VNone) (VStr "")) = Ok s.
Proof.
  unfold Py.dict_get. intros H.
  destruct (d !! k) as [[| | | |s| |]|]; try discriminate; cbn;
    try (now eexists).
  destruct s; cbn; now eexists.
Qed.

Lemma query_term_text (row : gmap string value) :
  row_ok row = true -> exists s, Py.lower (query_term row) = Ok s.
Proof.
  unfold row_ok, query_term, Py.dict_get. intros H.
  repeat (apply andb_prop in H as [H ?]).
  destruct (row !! "wiki_label") as [[| | | |s| |]|]; try discriminate;
    destruct (row !! "word") as [[| | | |w| |]|]; try discriminate; cbn;
    try (now eexists);
    try (destruct s; cbn; try (now eexists));
    try (destruct w; cbn; now eexists).
Qed.

Lemma label_text_or_falsy (row : gmap string value) :
  row_ok row = true ->
  Py.truthy (Py.or (Py.dict_get row "wiki_label" VNone)
                   (Py.dict_get row "word" VNone)) = true ->
  exists s, Py.or (Py.dict_get row "wiki_label" VNone)
                  (Py.dict_get row "word" VNone) = VStr s.
Proof.
  unfold row_ok, Py.dict_get. intros H.
  repeat (apply andb_prop in H as [H ?]).
  destruct (row !! "wiki_label") as [[| | | |s| |]|]; try discriminate;
    destruct (row !! "word") as [[| | | |w| |]|]; try discriminate; cbn;
    try discriminate; try (now eexists);
    try (destruct s; cbn; try discriminate; now eexists).
Qed.

Lemma context_tokens_text (row : gmap string value) :
  row_ok row = true -> exists tokens, context_tokens row = Ok tokens.
Proof.
  unfold row_ok, context_tokens, context_string, Py.dict_get. intros H.
  repeat (apply andb_prop in H as [H ?]).
  destruct (row !! "geo_path") as [[| | | |g| |]|]; try discriminate;
    destruct (row !! "time_path") as [[| | | |t| |]|]; try discriminate;
    destruct (row !! "category") as [[| | | |c| |]|]; try discriminate;
    cbn; now eexists.
Qed.

Lemma has_enwiki_doc_ok (q : string) (ent : value) :
  entity_doc_ok q ent = true -> exists b, has_enwiki ent (VStr q) = Ok b.
Proof.
  unfold entity_doc_ok, has_enwiki. intros H.
  destruct (Py.truthy ent); [|now eexists]. cbn in H.
  destruct ent as [| | | | | |d]; try discriminate. cbn.
  unfold Py.dict_get.
  destruct (d !! "entities") as [[| | | | | |es]|]; try discriminate; cbn;
    unfold Py.dict_get; rewrite ?lookup_empty; cbn; try (now eexists).
  destruct (es !! q) as [[| | | | | |e]|]; try discriminate; cbn;
    unfold Py.dict_get; rewrite ?lookup_empty; cbn; try (now eexists).
  destruct (e !! "sitelinks") as [[| | | | | |sl]|]; try discriminate; cbn;
    now eexists.
Qed.

Hypothesis Hnet : net_ok requests_get.

Lemma get_entity_data_doc_ok (q : string) σ :
  exists ent σ',
    get_entity_data requests_get (VStr q) σ = (Ok ent, σ')
    /\ entity_doc_ok q ent = true.
Proof.
  destruct (safe_get_from_cases 3 (EntityData (VStr q)) σ)
    as (ent & σ' & E & Hcases).
  exists ent, σ'. split; [exact E|].
  destruct Hcases as [->|(h & Hh)]; [reflexivity|].
  exact (Hnet _ _ _ Hh).
Qed.

Lemma score_candidate_returns (c : value) (row : gmap string value) σ :
  hit_ok c = true -> row_ok row = true ->
  exists conf σ', score_candidate requests_get c row σ = (Ok conf, σ').
Proof.
  intros Hc Hrow. destruct c as [| | | | | |d]; try discriminate.
  cbn in Hc. apply andb_prop in Hc as [Hc Hdesc].
  apply andb_prop in Hc as [Hid Hlbl].
  destruct (d !! "id") as [[| | | |q| |]|] eqn:Eid; try discriminate.
  destruct (lower_text_or_none d "label" Hlbl) as (label & El).
  destruct (lower_text_or_none d "description" Hdesc) as (desc & Ed).
  destruct (query_term_text row Hrow) as (term & Et).
  destruct (context_tokens_text row Hrow) as (tokens & Etok).
  destruct (get_entity_data_doc_ok q σ) as (ent & σ' & Eent & Hok).
  destruct (has_enwiki_doc_ok q ent Hok) as (b & Eb).
  eexists _, σ'.
  eapply score_candidate_run; try eassumption.
  apply add_description_score_count, Etok.
Qed.

Lemma score_hits_returns (hits : list value) (row : gmap string value) :
  forallb hit_ok hits = true -> row_ok row = true ->
  forall scored σ,
    exists scored' σ',
      score_hits requests_get hits row scored σ = (Ok scored', σ').
Proof.
  intros Hhits Hrow. induction hits as [|c hits IH]; intros scored σ; cbn.
  - now eexists _, _.
  - cbn in Hhits. apply andb_prop in Hhits as [Hc Hhits].
    destruct (score_candidate_returns c row σ Hc Hrow) as (conf & σ1 & E).
    rewrite (bind_Ok _ _ _ _ _ E).
    destruct c as [| | | | | |d]; try discriminate. cbn in Hc.
    destruct (d !! "id") as [qid|] eqn:Eid; [|discriminate].
    cbn [Py.item Py.get]. unfold Py.dict_item. rewrite Eid.
    rewrite !bind_lift_Ok. apply IH, Hhits.
Qed.

Lemma find_candidates_for_row_returns (row : gmap string value)
    (threshold : float) σ :
  row_ok row = true ->
  exists ret σ',
    find_candidates_for_row requests_get row threshold σ = (Ok ret, σ').
Proof.
  intros Hrow. unfold find_candidates_for_row.
  destruct (Py.truthy (Py.or _ _)) eqn:Hl; cbn [negb]; [|now eexists _, _].
  destruct (label_text_or_falsy row Hrow Hl) as (s & ->).
  cbn [search_wikidata]. unfold safe_get.
  destruct (safe_get_from_cases 3 (SearchEntities s) σ)
    as (res & σ1 & E & Hres).
  rewrite (bind_Ok _ _ _ _ _ E).
  destruct (Py.truthy res) eqn:Ht; cbn [negb]; [|now eexists _, _].
  destruct Hres as [->|(h & Hh)]; [discriminate|].
  pose proof (Hnet _ _ _ Hh) as Hdoc. cbn in Hdoc.
  unfold search_doc_ok in Hdoc. rewrite Ht in Hdoc. cbn in Hdoc.
  destruct res as [| | | | | |d]; try discriminate.
  cbn [Py.get]. unfold Py.dict_get. rewrite bind_lift_Ok.
  destruct (d !! "search") as [[| | | | |hits|]|]; try discriminate;
    cbn [default from_option id Py.iterate]; rewrite bind_lift_Ok.
  - destruct (score_hits_returns hits row Hdoc Hrow [] σ1)
      as (scored & σ2 & Es).
    rewrite (bind_Ok _ _ _ _ _ Es). now eexists _, _.
  - cbn. now eexists _, _.
Qed.

End ShapeFacts.

(** C2, as the code has it: when the search hits are objects with a string
    identifier and a label and a description that are strings, [None] or
    missing, the record's label and hint fields are text, and the network
    answers in the documented shapes or fails, scoring completes without
    raising, in [score_candidate] and in [find_candidates_for_row]; and when
    the entity lookup fails or is absent (a falsy document) the score is the
    clamped sum of the label and description contributions, with no bonus. *)
Theorem scoring_returns_on_expected_shapes
    (requests_get : list request -> request -> response)
    (row : gmap string value) (threshold : float) :
  net_ok requests_get ->
  row_ok row = true ->
  (forall c σ, hit_ok c = true ->
     exists conf σ', score_candidate requests_get c row σ = (Ok conf, σ'))
  /\ (forall σ, exists ret σ',
        find_candidates_for_row requests_get row threshold σ = (Ok ret, σ'))
  /\ (forall d qid ent σ σ',
        hit_ok (VDict d) = true ->
        d !! "id" = Some qid ->
        get_entity_data requests_get qid σ = (Ok ent, σ') ->
        Py.truthy ent = false ->
        exists label term desc s,
          Py.lower (Py.or (Py.dict_get d "label" VNone) (VStr "")) = Ok label
          /\ Py.lower (query_term row) = Ok term
          /\ Py.lower (Py.or (Py.dict_get d "description" VNone) (VStr "")) = Ok desc
          /\ add_description_score (add_label_score F64.zero label term) desc row
             = Ok s
          /\ score_candidate requests_get (VDict d) row σ = (Ok (normalize s), σ')).
Proof.
  intros Hnet Hrow. split; [|split].
  - intros c σ Hc. now apply score_candidate_returns.
  - intros σ. now apply find_candidates_for_row_returns.
  - intros d qid ent σ σ' Hc Hid Hent Hfalsy.
    cbn in Hc. apply andb_prop in Hc as [Hc Hdesc].
    apply andb_prop in Hc as [_ Hlbl].
    destruct (lower_text_or_none d "label" Hlbl) as (label & El).
    destruct (lower_text_or_none d "description" Hdesc) as (desc & Ed).
    destruct (query_term_text row Hrow) as (term & Et).
    destruct (context_tokens_text row Hrow) as (tokens & Etok).
    exists label, term, desc. eexists.
    split; [exact El|]. split; [exact Et|]. split; [exact Ed|].
    split; [apply add_description_score_count, Etok|].
    rewrite (score_candidate_run requests_get d row label term desc
               _ qid ent false σ σ' El Et Ed
               (add_description_score_count _ _ _ _ Etok) Hid Hent);
      [reflexivity|].
    unfold has_enwiki. now rewrite Hfalsy.
Qed.

Lemma berlin_net_ok : net_ok Scenario.berlin_net.
Proof.
  intros history [q|qid] v; unfold Scenario.berlin_net.
  - case_bool_decide; [|discriminate]. intros [= <-]. reflexivity.
  - destruct qid as [| | | |q| |]; try discriminate.
    case_bool_decide as Hq; [|discriminate]. intros [= <-]. subst q. reflexivity.
Qed.

Lemma scoring_returns_on_expected_shapes_witness :
  exists conf σ',
    score_candidate Scenario.berlin_net Scenario.berlin_hit Scenario.berlin_row
      (Scenario.start [Scenario.berlin_row]) = (Ok conf, σ').
Proof.
  apply (scoring_returns_on_expected_shapes Scenario.berlin_net
           Scenario.berlin_row F64.c080 berlin_net_ok eq_refl).
  reflexivity.
Defined.

(** C2 does not hold as stated: a search hit without the identifier is not
    degraded to "no data"; [candidate['id']] raises [KeyError], out of
    [score_candidate] and out of [find_candidates_for_row]. *)
Lemma hit_without_id_raises :
  fst (score_candidate Scenario.net_without_id Scenario.hit_without_id
         Scenario.berlin_row (Scenario.start [Scenario.berlin_row]))
  = Raise KeyError
  /\ fst (find_candidates_for_row Scenario.net_without_id Scenario.berlin_row
            F64.c080 (Scenario.start [Scenario.berlin_row]))
     = Raise KeyError.
Proof. split; vm_compute; reflexivity. Qed.

(* ===================================================================== *)
(** ** The label tiers *)
(* ===================================================================== *)

Section TierFacts.
Import F64Facts.

Lemma iter_above_one (j : nat) (x : float) :
  F64.above_one x ->
  F64.above_one (Nat.iter j (fun y => F64.add y F64.c005) x).
Proof.
  intros Hx. induction j as [|j IH]; [exact Hx|].
  rewrite Nat.iter_succ. apply above_one_add; [exact IH|].
  apply small_addend_c005.
Qed.

(** From twenty matching tokens on, every tier is clamped to 1.0. *)
Lemma score_of_saturated (tier : float) (k : nat) (bonus : bool) :
  F64.above_one (Nat.iter 20 (fun y => F64.add y F64.c005) tier) ->
  (20 <= k)%nat ->
  score_of tier k bonus = F64.one.
Proof.
  intros H20 Hk. unfold score_of, normalize, F64.gtb. cbv zeta.
  replace k with ((k - 20) + 20)%nat by lia.
  rewrite Nat.iter_add.
  pose proof (iter_above_one (k - 20) _ H20) as Hs.
  assert (Hraw : F64.above_one
            (if bonus
             then F64.add (Nat.iter (k - 20) (fun y => F64.add y F64.c005)
                             (Nat.iter 20 (fun y => F64.add y F64.c005) tier))
                          F64.c020
             else Nat.iter (k - 20) (fun y => F64.add y F64.c005)
                    (Nat.iter 20 (fun y => F64.add y F64.c005) tier))).
  { destruct bonus; [|exact Hs].
    apply above_one_add; [exact Hs|apply small_addend_c020]. }
  apply above_one_gt in Hraw. rewrite Hraw. reflexivity.
Qed.






(** The tokens two strings share, as the set intersection sees them. *)
Lemma shared_token_size (term label : string) :
  (0 < size ((list_to_set (Str.split term) : gset string)
               ∩ list_to_set (Str.split label)))%nat
  <-> exists t, t ∈ Str.split term /\ t ∈ Str.split label.
Proof.
  split.
  - intros H. apply size_pos_elem_of in H as (t & Ht).
    apply elem_of_intersection in Ht as [H1 H2].
    exists t. now rewrite !elem_of_list_to_set in H1, H2.
  - intros (t & H1 & H2).
    assert (Hne : size ((list_to_set (Str.split term) : gset string)
                          ∩ list_to_set (Str.split label)) ≠ 0%nat); [|lia].
    apply size_non_empty_iff. intros He.
    apply (not_elem_of_empty (C := gset string) t). rewrite <- He.
    apply elem_of_intersection. now rewrite !elem_of_list_to_set.
Qed.

(** The description contribution depends on the score it starts from only
    through the additions of 0.05. *)
Lemma add_description_score_inv (score : float) (desc : string)
    (row : gmap string value) (s : float) :
  add_description_score score desc row = Ok s ->
  exists k, forall score',
    add_description_score score' desc row
    = Ok (Nat.iter k (fun x => F64.add x F64.c005) score').
Proof.
  intros H. unfold add_description_score in *.
  destruct (Str.nonempty desc); [|now exists 0%nat].
  destruct (context_string row) as [ctx|]; [|discriminate]. cbn in *.
  destruct (Py.lower ctx) as [ctx'|]; [|discriminate]. cbn in *.
  exists (match_count desc (Str.split ctx')). intros score'.
  now rewrite fold_token_score_count.
Qed.

End TierFacts.





(* ===================================================================== *)
(** ** The candidate ranker *)
(* ===================================================================== *)

Lemma candidate_dict_confidence (x : scored_t) :
  candidate_dict x !! "confidence" = Some (VFloat (conf_of x)).
Proof. destruct x as [[[qid lbl] desc] conf]. reflexivity. Qed.

Lemma elem_of_accepted (threshold : float) (scored : list scored_t)
    (d : gmap string value) :
  d ∈ accepted threshold scored <->
  exists x, d = candidate_dict x /\ x ∈ scored
            /\ F64.geb (conf_of x) threshold = true.
Proof.
  unfold accepted. rewrite list_elem_of_fmap. split.
  - intros (x & -> & Hx). apply list_elem_of_In, filter_In in Hx as [Hx Hc].
    exists x. rewrite list_elem_of_In. auto.
  - intros (x & -> & Hx & Hc). exists x. split; [reflexivity|].
    apply list_elem_of_In, filter_In. rewrite <- list_elem_of_In. auto.
Qed.

(** The lists the ranker sees come from the scorer, so they hold no NaN:
    what [find_candidates_for_row] returns is the stable descending sort of
    the scores in the order of the search hits, and the accepted part of it. *)
Lemma score_hits_not_nan
    (requests_get : list request -> request -> response)
    (hits : list value) (row : gmap string value) :
  forall acc scored σ σ',
    score_hits requests_get hits row acc σ = (Ok scored, σ') ->
    Forall (fun x => F64.is_nan (conf_of x) = false) acc ->
    Forall (fun x => F64.is_nan (conf_of x) = false) scored.
Proof.
  induction hits as [|c hits IH]; intros acc scored σ σ' H Hacc; cbn in H.
  - injection H as <- <-. exact Hacc.
  - inv_bind H as conf σ1 Hconf. inv_lift H as qid Hqid.
    inv_lift H as lbl Hlbl. inv_lift H as desc Hdesc.
    apply IH in H; [exact H|].
    apply Forall_app. split; [exact Hacc|]. constructor; [|constructor].
    apply F64Facts.nonneg_not_nan.
    eapply score_candidate_nonneg, Hconf.
Qed.

Lemma find_candidates_for_row_ranked
    (requests_get : list request -> request -> response)
    (row : gmap string value) (threshold : float) σ σ'
    (candidates : list (gmap string value)) (scored : list scored_t) :
  find_candidates_for_row requests_get row threshold σ
  = (Ok (RetPair candidates scored), σ') ->
  exists raw,
    Forall (fun x => F64.is_nan (conf_of x) = false) raw
    /\ scored = sort_desc raw
    /\ candidates = accepted threshold scored.
Proof.
  unfold find_candidates_for_row. intros H.
  destruct (negb _); [discriminate|].
  inv_bind H as res σ1 Hres.
  destruct (negb _); [discriminate|].
  inv_lift H as search_hits Hsh. inv_lift H as hits Hhits.
  inv_bind H as raw σ2 Hraw. injection H as <- <- <-.
  exists raw. split; [|split; reflexivity].
  eapply score_hits_not_nan; [exact Hraw|constructor].
Qed.

Section ThresholdFacts.
Import F64Facts.

(** In a descending list, below an entry that misses the threshold every
    entry misses it. *)
Lemma below_head_all_rejected (threshold : float) (x : scored_t)
    (l : list scored_t) :
  Forall (fun y => F64.geb (conf_of x) (conf_of y) = true) l ->
  F64.geb (conf_of x) threshold = false ->
  Forall (fun y => F64.geb (conf_of y) threshold = false) l.
Proof.
  intros Hl Hx. eapply Forall_impl; [exact Hl|]. cbn. intros y Hy.
  destruct (F64.geb (conf_of y) threshold) eqn:E; [|reflexivity].
  unfold F64.geb in *. rewrite (leb_trans _ _ _ E Hy) in Hx. discriminate.
Qed.

Lemma filter_all_rejected (threshold : float) (l : list scored_t) :
  Forall (fun y => F64.geb (conf_of y) threshold = false) l ->
  List.filter (fun x => F64.geb (conf_of x) threshold) l = [].
Proof.
  induction 1 as [|y l Hy Hl IH]; [reflexivity|]. cbn. now rewrite Hy.
Qed.

End ThresholdFacts.

Section RankingFacts.

Variable requests_get : list request -> request -> response.

(** The loop over the hits appends one entry per hit, in order. *)
Lemma score_hits_in_order (hits : list value) (row : gmap string value) :
  forall acc scored σ σ',
    score_hits requests_get hits row acc σ = (Ok scored, σ') ->
    exists raw, scored = acc ++ raw
                /\ scored_in_order requests_get row hits σ raw σ'.
Proof.
  induction hits as [|c hits IH]; intros acc scored σ σ' H; cbn in H.
  - injection H as <- <-. exists []. split; [now rewrite app_nil_r|reflexivity].
  - inv_bind H as conf σ1 Hconf. inv_lift H as qid Hqid.
    inv_lift H as lbl Hlbl. inv_lift H as desc Hdesc.
    destruct (score_candidate_Ok_inv _ _ _ _ _ _ Hconf)
      as (d & _ & _ & _ & _ & qid' & _ & _ & -> & _ & _ & _ & _ & Hid & _).
    cbn in Hqid, Hlbl, Hdesc. unfold Py.dict_item in Hqid. rewrite Hid in Hqid.
    injection Hqid as <-. injection Hlbl as <-. injection Hdesc as <-.
    destruct (IH _ _ _ _ H) as (raw & -> & Hraw).
    eexists (_ :: raw). split; [now rewrite <- app_assoc|].
    cbn [scored_in_order]. exists d, qid', conf, σ1. auto.
Qed.

(** What a run of [find_candidates_for_row] that returns its pair went
    through: the search, the hits it lists, their scoring in order, the
    sort and the selection. *)
Lemma find_candidates_for_row_inv
    (row : gmap string value) (threshold : float) σ σ'
    (candidates : list (gmap string value)) (scored : list scored_t) :
  find_candidates_for_row requests_get row threshold σ
  = (Ok (RetPair candidates scored), σ') ->
  exists res σ1 hits raw,
    search_wikidata requests_get
      (Py.or (Py.dict_get row "wiki_label" VNone) (Py.dict_get row "word" VNone))
      σ = (Ok res, σ1)
    /\ Py.get res "search" (VList []) ≫= Py.iterate = Ok hits
    /\ scored_in_order requests_get row hits σ1 raw σ'
    /\ Forall (fun x => F64.is_nan (conf_of x) = false) raw
    /\ scored = sort_desc raw
    /\ candidates = accepted threshold scored.
Proof.
  unfold find_candidates_for_row. intros H.
  destruct (negb _); [discriminate|].
  inv_bind H as res σ1 Hres.
  destruct (negb _); [discriminate|].
  inv_lift H as search_hits Hsh. inv_lift H as hits Hhits.
  inv_bind H as raw σ2 Hraw. injection H as <- <- <-.
  destruct (score_hits_in_order _ _ _ _ _ _ Hraw) as (raw' & E & Horder).
  cbn [app] in E. subst raw'.
  exists res, σ1, hits, raw. split; [exact Hres|].
  split; [rewrite Hsh; exact Hhits|]. split; [exact Horder|].
  split; [|split; reflexivity].
  eapply score_hits_not_nan; [exact Hraw|constructor].
Qed.

End RankingFacts.

(** C5: the ranking that [find_candidates_for_row] returns is a
    rearrangement of the entries of the search hits (one entry per hit, built
    in the order in which the search returned them), in descending order of
    confidence, and stable: the entries of any one confidence [c] stand in
    the ranking, and in the accepted list taken from it, in the order of
    their hits. *)
Theorem ranking_sorted_and_stable
    (requests_get : list request -> request -> response)
    (row : gmap string value) (threshold : float) (σ σ' : state)
    (candidates : list (gmap string value)) (scored : list scored_t) :
  find_candidates_for_row requests_get row threshold σ
  = (Ok (RetPair candidates scored), σ') ->
  exists res σ1 hits raw,
    search_wikidata requests_get
      (Py.or (Py.dict_get row "wiki_label" VNone) (Py.dict_get row "word" VNone))
      σ = (Ok res, σ1)
    /\ Py.get res "search" (VList []) ≫= Py.iterate = Ok hits
    /\ scored_in_order requests_get row hits σ1 raw σ'
    /\ Permutation scored raw
    /\ StronglySorted (fun a b => F64.geb (conf_of a) (conf_of b) = true) scored
    /\ candidates
       = candidate_dict
           <$> List.filter (fun x => F64.geb (conf_of x) threshold) scored
    /\ forall c,
         List.filter (fun x => F64.eqb (conf_of x) c) scored
         = List.filter (fun x => F64.eqb (conf_of x) c) raw
         /\ List.filter (fun x => F64.eqb (conf_of x) c)
              (List.filter (fun x => F64.geb (conf_of x) threshold) scored)
            = List.filter (fun x => F64.eqb (conf_of x) c)
                (List.filter (fun x => F64.geb (conf_of x) threshold) raw).
Proof.
  intros H.
  destruct (find_candidates_for_row_inv _ _ _ _ _ _ _ H)
    as (res & σ1 & hits & raw & Hres & Hhits & Horder & Hnan & -> & ->).
  exists res, σ1, hits, raw.
  split; [exact Hres|]. split; [exact Hhits|]. split; [exact Horder|].
  split; [apply sort_desc_perm|].
  split; [apply sort_desc_sorted, Hnan|].
  split; [reflexivity|].
  intros c.
  assert (Hst : List.filter (fun x => F64.eqb (conf_of x) c) (sort_desc raw)
                = List.filter (fun x => F64.eqb (conf_of x) c) raw).
  { apply sort_desc_filter. intros x y Hx Hy.
    eapply F64Facts.eqb_not_ltb; eassumption. }
  split; [exact Hst|].
  rewrite (filter_filter_comm _ _ (sort_desc raw)), Hst.
  apply filter_filter_comm.
Qed.

Lemma ranking_sorted_and_stable_witness :
  let band : scored_t :=
    (VStr "Q821244", VStr "Berlin (band)", VStr "American band", F64.c030) in
  let city : scored_t :=
    (VStr "Q64", VStr "Berlin", VStr "capital city of Germany", F64.c075) in
  let album : scored_t :=
    (VStr "Q614184", VStr "Berlin (album)", VStr "album by Lou Reed", F64.c030) in
  let run := find_candidates_for_row Scenario.berlin_tie_net Scenario.berlin_row
               F64.c080 (Scenario.start [Scenario.berlin_row]) in
  fst run = Ok (RetPair [] [city; band; album])
  /\ exists raw,
       Permutation [city; band; album] raw
       /\ List.filter (fun x => F64.eqb (conf_of x) F64.c030) raw = [band; album].
Proof.
  intros band city album run.
  assert (H : run = (Ok (RetPair [] [city; band; album]), snd run))
    by (vm_compute; reflexivity).
  split; [now rewrite H|].
  destruct (ranking_sorted_and_stable _ _ _ _ _ _ _ H)
    as (res & σ1 & hits & raw & _ & _ & _ & Hperm & _ & _ & Hst).
  exists raw. split; [exact Hperm|].
  destruct (Hst F64.c030) as [<- _]. reflexivity.
Defined.

(** C6: acceptance uses [>=]: of the entries that [find_candidates_for_row]
    has scored, one whose confidence equals the threshold is in the accepted
    list it returns, and one whose confidence is strictly below the
    threshold is not. *)
Theorem threshold_boundary
    (requests_get : list request -> request -> response)
    (row : gmap string value) (threshold : float) (σ σ' : state)
    (candidates : list (gmap string value)) (scored : list scored_t)
    (x : scored_t) :
  find_candidates_for_row requests_get row threshold σ
  = (Ok (RetPair candidates scored), σ') ->
  x ∈ scored ->
  (F64.eqb (conf_of x) threshold = true -> candidate_dict x ∈ candidates)
  /\ (F64.ltb (conf_of x) threshold = true -> candidate_dict x ∉ candidates).
Proof.
  intros H Hx.
  destruct (find_candidates_for_row_inv _ _ _ _ _ _ _ H)
    as (_ & _ & _ & raw & _ & _ & _ & _ & Hs & ->).
  split.
  - intros He. apply elem_of_accepted. exists x. split; [reflexivity|].
    split; [exact Hx|]. unfold F64.geb. now apply F64Facts.eqb_leb.
  - intros Hl Hin. apply elem_of_accepted in Hin as (y & Hd & _ & Hy).
    assert (Hc : conf_of x = conf_of y).
    { pose proof (candidate_dict_confidence x) as E.
      rewrite Hd, candidate_dict_confidence in E. congruence. }
    rewrite <- Hc in Hy. apply F64Facts.ltb_leb_false in Hl.
    unfold F64.geb in Hy. congruence.
Qed.

Lemma threshold_boundary_witness :
  let city : scored_t :=
    (VStr "Q64", VStr "Berlin", VStr "capital city of Germany", F64.c075) in
  let at_threshold :=
    find_candidates_for_row Scenario.berlin_net Scenario.berlin_row F64.c075
      (Scenario.start [Scenario.berlin_row]) in
  let below :=
    find_candidates_for_row Scenario.berlin_net Scenario.berlin_row F64.c080
      (Scenario.start [Scenario.berlin_row]) in
  (exists candidates,
     fst at_threshold = Ok (RetPair candidates [city])
     /\ candidate_dict city ∈ candidates)
  /\ (exists candidates,
        fst below = Ok (RetPair candidates [city])
        /\ candidate_dict city ∉ candidates).
Proof.
  intros city at_threshold below. split.
  - assert (H : exists candidates,
              at_threshold = (Ok (RetPair candidates [city]), snd at_threshold))
      by (eexists; vm_compute; reflexivity).
    destruct H as (candidates & H). exists candidates.
    split; [now rewrite H|].
    apply (threshold_boundary _ _ _ _ _ _ _ city H);
      [apply list_elem_of_here|reflexivity].
  - assert (H : exists candidates,
              below = (Ok (RetPair candidates [city]), snd below))
      by (eexists; vm_compute; reflexivity).
    destruct H as (candidates & H). exists candidates.
    split; [now rewrite H|].
    apply (threshold_boundary _ _ _ _ _ _ _ city H);
      [apply list_elem_of_here|reflexivity].
Defined.

(* ===================================================================== *)
(** ** The row resolver *)
(* ===================================================================== *)

Section ResolverFacts.

Variable requests_get : list request -> request -> response.
Variable json_dumps : value -> string.

Lemma main_step_skip (threshold : float) (r : nat) (results : list nat) σ :
  skip_row (default ∅ (heap σ !! r)) = true ->
  main_step requests_get json_dumps threshold r results σ
  = (Ok (results ++ [r]), σ).
Proof.
  intros H. unfold main_step, mbind, M_bind, load. now rewrite H.
Qed.

(** The early exits of [find_candidates_for_row] meet the unpacking
    assignment of [main]. *)
Lemma main_step_empty_list (threshold : float) (r : nat) (results : list nat)
    σ σ1 :
  skip_row (default ∅ (heap σ !! r)) = false ->
  find_candidates_for_row requests_get (default ∅ (heap σ !! r)) threshold σ
  = (Ok RetEmptyList, σ1) ->
  main_step requests_get json_dumps threshold r results σ
  = (Raise ValueError, σ1).
Proof.
  intros Hs Hf. unfold main_step, mbind, M_bind, load.
  rewrite Hs. unfold mbind, M_bind. now rewrite Hf.
Qed.

Lemma find_candidates_no_label (row : gmap string value) (threshold : float) σ :
  Py.truthy (Py.or (Py.dict_get row "wiki_label" VNone)
                   (Py.dict_get row "word" VNone)) = false ->
  find_candidates_for_row requests_get row threshold σ = (Ok RetEmptyList, σ).
Proof. intros H. unfold find_candidates_for_row. now rewrite H. Qed.

Lemma find_candidates_no_results (row : gmap string value) (threshold : float)
    (res : value) σ σ1 :
  Py.truthy (Py.or (Py.dict_get row "wiki_label" VNone)
                   (Py.dict_get row "word" VNone)) = true ->
  search_wikidata requests_get
    (Py.or (Py.dict_get row "wiki_label" VNone) (Py.dict_get row "word" VNone)) σ
  = (Ok res, σ1) ->
  Py.truthy res = false ->
  find_candidates_for_row requests_get row threshold σ = (Ok RetEmptyList, σ1).
Proof.
  intros Hl Hs Hr. unfold find_candidates_for_row. rewrite Hl. cbn [negb].
  rewrite (bind_Ok _ _ _ _ _ Hs), Hr. reflexivity.
Qed.

Lemma store_spec (r : nat) (k : string) (v : value) σ :
  exists σ', store r k v σ = (Ok tt, σ')
    /\ heap σ' !! r = Some (<[k := v]> (default ∅ (heap σ !! r)))
    /\ (forall l, l ≠ r -> heap σ' !! l = heap σ !! l)
    /\ log σ' = log σ.
Proof.
  eexists. split; [reflexivity|]. cbn. split; [apply lookup_insert_eq|].
  split; [|reflexivity]. intros l Hl. now apply lookup_insert_ne.
Qed.

Lemma copy_dict_spec (r : nat) σ :
  exists r_out σ', copy_dict r σ = (Ok r_out, σ')
    /\ heap σ !! r_out = None
    /\ heap σ' !! r_out = Some (default ∅ (heap σ !! r))
    /\ (forall l, l ≠ r_out -> heap σ' !! l = heap σ !! l)
    /\ log σ' = log σ.
Proof.
  eexists _, _. split; [reflexivity|]. cbn.
  split; [apply not_elem_of_dom, is_fresh|].
  split; [apply lookup_insert_eq|].
  split; [|reflexivity]. intros l Hl. now apply lookup_insert_ne.
Qed.

End ResolverFacts.

(** C7: a record whose [wiki_qid] is a non-empty string other than "TBD" is
    skipped: the row object itself goes to the results, nothing is looked up
    and nothing is written; doing it a second time gives the same record
    again. *)
Theorem already_resolved_is_skipped
    (requests_get : list request -> request -> response)
    (json_dumps : value -> string) (threshold : float)
    (r : nat) (results : list nat) (σ : state)
    (row : gmap string value) (qid : string) :
  heap σ !! r = Some row ->
  row !! "wiki_qid" = Some (VStr qid) -> qid <> "" -> qid <> "TBD" ->
  main_step requests_get json_dumps threshold r results σ
  = (Ok (results ++ [r]), σ)
  /\ (main_step requests_get json_dumps threshold r results
        ≫= main_step requests_get json_dumps threshold r) σ
     = (Ok ((results ++ [r]) ++ [r]), σ).
Proof.
  intros Hr Hq Hne Htbd.
  assert (Hskip : skip_row (default ∅ (heap σ !! r)) = true).
  { rewrite Hr. cbn. unfold skip_row, Py.dict_get. rewrite Hq. cbn.
    destruct qid as [|a q]; [congruence|]. cbn.
    rewrite bool_decide_eq_false_2 by exact Htbd. reflexivity. }
  split; [now apply main_step_skip|].
  erewrite bind_Ok by (now apply main_step_skip).
  now apply main_step_skip.
Qed.

Lemma already_resolved_is_skipped_witness :
  let row : gmap string value :=
    <["word" := VStr "Douglas Adams"]> (<["wiki_qid" := VStr "Q42"]> ∅) in
  main_step Scenario.net_down Scenario.dumps F64.c080 0%nat []
    (Scenario.start [row])
  = (Ok [0%nat], Scenario.start [row]).
Proof.
  intros row.
  apply (already_resolved_is_skipped Scenario.net_down Scenario.dumps F64.c080
           0%nat [] (Scenario.start [row]) row "Q42");
    [reflexivity|reflexivity|discriminate|discriminate].
Defined.

(** C8, as the code has it: for a record with neither [wiki_label] nor [word]
    populated and nothing resolved yet, no request is made; the record is
    passed through when the guard of [main] catches it ([wiki_label] missing
    or [None] and [word] the empty string), and otherwise the bare [[]] that
    [find_candidates_for_row] returns cannot be unpacked and [main] raises
    [ValueError]. *)
Theorem unpopulated_record_skips_or_raises
    (requests_get : list request -> request -> response)
    (json_dumps : value -> string) (threshold : float)
    (r : nat) (results : list nat) (σ : state) (row : gmap string value) :
  heap σ !! r = Some row ->
  Py.truthy (Py.dict_get row "wiki_label" VNone) = false ->
  Py.truthy (Py.dict_get row "word" VNone) = false ->
  main_step requests_get json_dumps threshold r results σ
  = (if skip_row row then Ok (results ++ [r]) else Raise ValueError, σ).
Proof.
  intros Hr Hl Hw.
  destruct (skip_row row) eqn:Hs.
  - apply main_step_skip. now rewrite Hr.
  - apply main_step_empty_list; rewrite Hr; cbn; [exact Hs|].
    apply find_candidates_no_label. unfold Py.or. now rewrite Hl.
Qed.

Lemma unpopulated_record_skips_or_raises_witness :
  let row : gmap string value :=
    <["word" := VStr ""]> (<["wiki_label" := VStr ""]>
      (<["wiki_qid" := VStr "TBD"]> ∅)) in
  main_step Scenario.net_down Scenario.dumps F64.c080 0%nat []
    (Scenario.start [row])
  = (Raise ValueError, Scenario.start [row]).
Proof.
  intros row.
  apply (unpopulated_record_skips_or_raises Scenario.net_down Scenario.dumps
           F64.c080 0%nat [] (Scenario.start [row]) row);
    reflexivity.
Defined.

(** C1, as the code has it: when the search yields no data (a transport
    failure that [safe_get] turned into [None], or any other falsy
    document), [find_candidates_for_row] returns a bare [[]], the unpacking
    assignment in [main] raises [ValueError], and the loop ends there: the
    rows after this one are not processed. *)
Theorem no_search_data_aborts_the_batch
    (requests_get : list request -> request -> response)
    (json_dumps : value -> string) (threshold : float)
    (r : nat) (rows results : list nat) (σ σ1 : state)
    (row : gmap string value) (res : value) :
  heap σ !! r = Some row ->
  skip_row row = false ->
  Py.truthy (Py.or (Py.dict_get row "wiki_label" VNone)
                   (Py.dict_get row "word" VNone)) = true ->
  search_wikidata requests_get
    (Py.or (Py.dict_get row "wiki_label" VNone) (Py.dict_get row "word" VNone)) σ
  = (Ok res, σ1) ->
  Py.truthy res = false ->
  main_step requests_get json_dumps threshold r results σ
  = (Raise ValueError, σ1)
  /\ main_loop requests_get json_dumps threshold (r :: rows) results σ
     = (Raise ValueError, σ1).
Proof.
  intros Hr Hs Hl Hsearch Hres.
  assert (H : main_step requests_get json_dumps threshold r results σ
              = (Raise ValueError, σ1)).
  { apply main_step_empty_list; rewrite Hr; cbn; [exact Hs|].
    eapply find_candidates_no_results; eassumption. }
  split; [exact H|]. cbn [main_loop]. now apply bind_Raise.
Qed.

Lemma no_search_data_aborts_the_batch_witness :
  let rq := SearchEntities "Berlin" in
  main Scenario.net_down Scenario.dumps F64.c080 [0%nat; 1%nat]
    (Scenario.start [Scenario.berlin_row; Scenario.berlin_row])
  = (Raise ValueError,
     State (Scenario.heap_of [Scenario.berlin_row; Scenario.berlin_row])
           [rq; rq; rq]).
Proof.
  intros rq.
  apply (no_search_data_aborts_the_batch Scenario.net_down Scenario.dumps
           F64.c080 0%nat [1%nat] []
           (Scenario.start [Scenario.berlin_row; Scenario.berlin_row])
           _ Scenario.berlin_row VNone);
    reflexivity.
Defined.

Section FrameFacts.

Variable requests_get : list request -> request -> response.
Variable json_dumps : value -> string.

(** The three assignments to [r_out] of either branch of [main]. *)
Lemma attach_three (r_out : nat) (v1 v2 v3 : value) σ :
  exists σ',
    (_ ← store r_out "wiki_qid_candidates" v1;
     _ ← store r_out "wiki_qid" v2;
     store r_out "wiki_qid_confidence" v3) σ = (Ok tt, σ')
    /\ heap σ' !! r_out
       = Some (<["wiki_qid_confidence" := v3]> (<["wiki_qid" := v2]>
                (<["wiki_qid_candidates" := v1]> (default ∅ (heap σ !! r_out)))))
    /\ (forall l, l ≠ r_out -> heap σ' !! l = heap σ !! l)
    /\ log σ' = log σ.
Proof.
  destruct (store_spec r_out "wiki_qid_candidates" v1 σ)
    as (σa & Ea & Ha & Fa & La).
  destruct (store_spec r_out "wiki_qid" v2 σa) as (σb & Eb & Hb & Fb & Lb).
  destruct (store_spec r_out "wiki_qid_confidence" v3 σb)
    as (σc & Ec & Hc & Fc & Lc).
  exists σc. rewrite (bind_Ok _ _ _ _ _ Ea), (bind_Ok _ _ _ _ _ Eb).
  split; [exact Ec|]. rewrite Hc, Hb, Ha. cbn.
  split; [reflexivity|]. split; [|congruence].
  intros l Hl. rewrite Fc, Fb, Fa by exact Hl. reflexivity.
Qed.

(** What a round of the loop that resolves a record leaves behind. *)
Lemma main_step_resolved_inv (threshold : float) (r : nat)
    (results results' : list nat) σ σ' :
  skip_row (default ∅ (heap σ !! r)) = false ->
  main_step requests_get json_dumps threshold r results σ = (Ok results', σ') ->
  exists candidates scored σ1 r_out v1 v2 v3,
    find_candidates_for_row requests_get (default ∅ (heap σ !! r)) threshold σ
    = (Ok (RetPair candidates scored), σ1)
    /\ results' = results ++ [r_out]
    /\ heap σ !! r_out = None
    /\ heap σ' !! r_out
       = Some (<["wiki_qid_confidence" := v3]> (<["wiki_qid" := v2]>
                (<["wiki_qid_candidates" := v1]> (default ∅ (heap σ !! r)))))
    /\ (forall l, l ≠ r_out -> heap σ' !! l = heap σ !! l)
    /\ log σ' = log σ1
    /\ match candidates with
       | best :: _ =>
           v1 = VStr (json_dumps (VList (VDict <$> candidates)))
           /\ best !! "qid" = Some v2 /\ best !! "confidence" = Some v3
       | [] =>
           v1 = VStr (json_dumps
                        (VList (VDict <$> (fallback_dict <$> take 3 scored))))
           /\ v2 = VStr "" /\ v3 = VStr ""
       end.
Proof.
  intros Hskip H. unfold main_step in H.
  inv_bind H as row σ0 Hload. injection Hload as <- <-.
  rewrite Hskip in H.
  inv_bind H as ret σ1 Hfc. inv_lift H as p Hun.
  destruct ret as [|candidates scored]; [discriminate|].
  injection Hun as <-.
  inv_bind H as r_out σ2 Hcopy. inv_bind H as u σ3 Hatt.
  injection H as <- <-.
  pose proof (heap_stable_find_candidates_for_row requests_get
                (default ∅ (heap σ !! r)) threshold σ) as Hh.
  rewrite Hfc in Hh. cbn in Hh.
  destruct (copy_dict_spec r σ1) as (r' & σ2' & E & Hnew & Hcp & Hfr & Hlg).
  rewrite Hcopy in E. injection E as <- <-.
  rewrite Hh in Hnew, Hcp, Hfr.
  assert (Hfinish : forall v1 v2 v3 σ4,
    heap σ4 !! r_out
    = Some (<["wiki_qid_confidence" := v3]> (<["wiki_qid" := v2]>
             (<["wiki_qid_candidates" := v1]> (default ∅ (heap σ2 !! r_out))))) ->
    (forall l, l ≠ r_out -> heap σ4 !! l = heap σ2 !! l) ->
    heap σ4 !! r_out
    = Some (<["wiki_qid_confidence" := v3]> (<["wiki_qid" := v2]>
             (<["wiki_qid_candidates" := v1]> (default ∅ (heap σ !! r)))))
    /\ (forall l, l ≠ r_out -> heap σ4 !! l = heap σ !! l)).
  { intros v1 v2 v3 σ4 H1 H2. rewrite H1, Hcp. split; [reflexivity|].
    intros l Hl. rewrite H2, Hfr by exact Hl. reflexivity. }
  destruct candidates as [|best rest].
  - destruct (attach_three r_out
                (VStr (json_dumps
                         (VList (VDict <$> (fallback_dict <$> take 3 scored)))))
                (VStr "") (VStr "") σ2) as (σ4 & E & H1 & H2 & H3).
    assert (σ3 = σ4) as -> by congruence.
    destruct (Hfinish _ _ _ _ H1 H2) as [G1 G2].
    eexists [], scored, σ1, r_out, _, _, _.
    repeat split; try eassumption; try reflexivity. congruence.
  - inv_bind Hatt as u1 σa Hs1. inv_lift Hatt as qid Hqid.
    inv_bind Hatt as u2 σb Hs2. inv_lift Hatt as conf Hconf.
    unfold Py.dict_item in Hqid, Hconf.
    destruct (best !! "qid") as [q|] eqn:Eq; [|discriminate].
    destruct (best !! "confidence") as [cf|] eqn:Ec; [|discriminate].
    injection Hqid as <-. injection Hconf as <-.
    destruct (attach_three r_out
                (VStr (json_dumps (VList (VDict <$> best :: rest)))) q cf σ2)
      as (σ4 & E & H1 & H2 & H3).
    rewrite (bind_Ok _ _ _ _ _ Hs1), (bind_Ok _ _ _ _ _ Hs2), Hatt in E.
    assert (σ3 = σ4) as -> by congruence.
    destruct (Hfinish _ _ _ _ H1 H2) as [G1 G2].
    eexists (best :: rest), scored, σ1, r_out, _, _, _.
    repeat split; try eassumption; try reflexivity. congruence.
Qed.

End FrameFacts.

(** C10: when a record is resolved (not skipped) the output record is a new
    object holding a copy of the input record in which only [wiki_qid],
    [wiki_qid_candidates] and [wiki_qid_confidence] are set; every other
    field has its input value, and no object that existed before, the input
    record among them, is changed. *)
Theorem resolved_record_frame
    (requests_get : list request -> request -> response)
    (json_dumps : value -> string) (threshold : float)
    (r : nat) (results results' : list nat) (σ σ' : state)
    (row : gmap string value) :
  heap σ !! r = Some row ->
  skip_row row = false ->
  main_step requests_get json_dumps threshold r results σ = (Ok results', σ') ->
  exists (r_out : nat) (row_out : gmap string value),
    results' = results ++ [r_out]
    /\ heap σ !! r_out = None
    /\ heap σ' !! r_out = Some row_out
    /\ (forall k, k <> "wiki_qid" -> k <> "wiki_qid_candidates" ->
                  k <> "wiki_qid_confidence" -> row_out !! k = row !! k)
    /\ is_Some (row_out !! "wiki_qid")
    /\ is_Some (row_out !! "wiki_qid_candidates")
    /\ is_Some (row_out !! "wiki_qid_confidence")
    /\ (forall l, l <> r_out -> heap σ' !! l = heap σ !! l)
    /\ heap σ' !! r = Some row.
Proof.
  intros Hr Hskip H.
  apply main_step_resolved_inv in H
    as (candidates & scored & σ1 & r_out & v1 & v2 & v3
        & _ & -> & Hnew & Hout & Hfr & _ & _);
    [|now rewrite Hr].
  rewrite Hr in Hout. cbn in Hout.
  eexists r_out, _. split; [reflexivity|]. split; [exact Hnew|].
  split; [exact Hout|]. split.
  { intros k K1 K2 K3. now rewrite !lookup_insert_ne by congruence. }
  split; [rewrite lookup_insert_ne by done; rewrite lookup_insert_eq; eauto|].
  split; [rewrite !lookup_insert_ne by done; rewrite lookup_insert_eq; eauto|].
  split; [rewrite lookup_insert_eq; eauto|].
  split; [exact Hfr|].
  rewrite Hfr; [exact Hr|]. intros ->. congruence.
Qed.

Lemma resolved_record_frame_witness :
  let σ := Scenario.start [Scenario.berlin_row] in
  let run := main_step Scenario.berlin_net Scenario.dumps F64.c080 0%nat [] σ in
  exists (r_out : nat) (row_out : gmap string value),
    fst run = Ok [r_out]
    /\ heap (snd run) !! r_out = Some row_out
    /\ row_out !! "word" = Some (VStr "Berlin")
    /\ row_out !! "geo_path" = Some (VStr "Europe Germany")
    /\ heap (snd run) !! 0%nat = Some Scenario.berlin_row.
Proof.
  intros σ run.
  destruct (resolved_record_frame Scenario.berlin_net Scenario.dumps F64.c080
              0%nat [] [1%nat] σ (snd run) Scenario.berlin_row)
    as (r_out & row_out & Hres & _ & Hout & Hframe & _ & _ & _ & _ & Hin);
    try (vm_compute; reflexivity).
  cbn in Hres. injection Hres as <-.
  exists 1%nat, row_out.
  split; [vm_compute; reflexivity|].
  split; [exact Hout|].
  split; [rewrite Hframe by discriminate; reflexivity|].
  split; [rewrite Hframe by discriminate; reflexivity|].
  exact Hin.
Defined.

Section ScenarioFacts.

Variable requests_get : list request -> request -> response.
Variable json_dumps : value -> string.

(** The fallback branch of [main], run forward. *)
Lemma main_step_fallback (threshold : float) (r : nat) (results : list nat)
    (scored : list scored_t) σ σ1 :
  skip_row (default ∅ (heap σ !! r)) = false ->
  find_candidates_for_row requests_get (default ∅ (heap σ !! r)) threshold σ
  = (Ok (RetPair [] scored), σ1) ->
  exists r_out σ',
    main_step requests_get json_dumps threshold r results σ
    = (Ok (results ++ [r_out]), σ')
    /\ heap σ !! r_out = None
    /\ heap σ' !! r_out
       = Some (<["wiki_qid_confidence" := VStr ""]> (<["wiki_qid" := VStr ""]>
                (<["wiki_qid_candidates" :=
                     VStr (json_dumps
                             (VList (VDict <$> (fallback_dict <$> take 3 scored))))]>
                   (default ∅ (heap σ !! r)))))
    /\ (forall l, l ≠ r_out -> heap σ' !! l = heap σ !! l)
    /\ log σ' = log σ1.
Proof.
  intros Hskip Hfc.
  pose proof (heap_stable_find_candidates_for_row requests_get
                (default ∅ (heap σ !! r)) threshold σ) as Hh.
  rewrite Hfc in Hh. cbn in Hh.
  destruct (copy_dict_spec r σ1) as (r_out & σ2 & Ec & Hnew & Hcp & Hfr & Hlg).
  destruct (attach_three r_out
              (VStr (json_dumps
                       (VList (VDict <$> (fallback_dict <$> take 3 scored)))))
              (VStr "") (VStr "") σ2) as (σ3 & Ea & H1 & H2 & H3).
  exists r_out, σ3. split.
  - unfold main_step, load. unfold mbind at 1, M_bind at 1.
    rewrite Hskip. rewrite (bind_Ok _ _ _ _ _ Hfc).
    cbn [unpack2]. rewrite bind_lift_Ok. cbv beta iota.
    rewrite (bind_Ok _ _ _ _ _ Ec). rewrite (bind_Ok _ _ _ _ _ Ea).
    reflexivity.
  - rewrite Hh in *. split; [exact Hnew|].
    split; [rewrite H1, Hcp; reflexivity|].
    split; [|congruence].
    intros l Hl. rewrite H2, Hfr by exact Hl. reflexivity.
Qed.

(** The one "no results" case that reaches the fallback branch: a search
    document that is not empty but whose [search] list is.  The output
    record is the unresolved one with an empty fallback list. *)
Lemma empty_search_list_is_unresolved (threshold : float) (r : nat)
    (results : list nat) (row rd : gmap string value) (word : string) σ σ1 :
  heap σ !! r = Some row ->
  skip_row row = false ->
  Py.or (Py.dict_get row "wiki_label" VNone) (Py.dict_get row "word" VNone)
  = VStr word ->
  word <> "" ->
  search_wikidata requests_get (VStr word) σ = (Ok (VDict rd), σ1) ->
  rd !! "search" = Some (VList []) ->
  exists r_out row_out σ',
    main_step requests_get json_dumps threshold r results σ
    = (Ok (results ++ [r_out]), σ')
    /\ heap σ' !! r_out = Some row_out
    /\ row_out !! "wiki_qid" = Some (VStr "")
    /\ row_out !! "wiki_qid_confidence" = Some (VStr "")
    /\ row_out !! "wiki_qid_candidates" = Some (VStr (json_dumps (VList []))).
Proof.
  intros Hr Hskip Hl Hw Hs Hrd.
  assert (Hfc : find_candidates_for_row requests_get row threshold σ
                = (Ok (RetPair [] []), σ1)).
  { unfold find_candidates_for_row. rewrite Hl. cbn [Py.truthy].
    destruct word as [|a w]; [congruence|]. cbn [Str.nonempty negb].
    rewrite (bind_Ok _ _ _ _ _ Hs).
    assert (Ht : Py.truthy (VDict rd) = true).
    { cbn. rewrite bool_decide_eq_false_2; [reflexivity|].
      intros ->. rewrite lookup_empty in Hrd. discriminate. }
    rewrite Ht. cbn [negb Py.get]. unfold Py.dict_get at 1. rewrite Hrd.
    reflexivity. }
  destruct (main_step_fallback threshold r results [] σ σ1)
    as (r_out & σ' & Hrun & _ & Hout & _); [now rewrite Hr|now rewrite Hr|].
  rewrite Hr in Hout. cbn in Hout.
  eexists r_out, _, σ'. split; [exact Hrun|]. split; [exact Hout|].
  split; [rewrite lookup_insert_ne by done; apply lookup_insert_eq|].
  split; [apply lookup_insert_eq|].
  rewrite !lookup_insert_ne by done. apply lookup_insert_eq.
Qed.

End ScenarioFacts.

(** C9 (scenario C): a hit whose label equals the query label up to case,
    whose entity document has the English sitelink and whose description
    contains exactly two of the context tokens scores 0.45 + 0.05 + 0.05 +
    0.20, which is the float 0.75, in whatever state it is scored; this is
    not [>= 0.8], so with the default threshold the hit is not among the
    accepted candidates, whatever else the search returned; and when it is
    the best hit (it heads the ranking) the output record is the unresolved
    one: empty [wiki_qid] and [wiki_qid_confidence], and the top of the
    ranking with its raw confidences in the fallback list. *)
Theorem scenario_exact_link_two_tokens
    (requests_get : list request -> request -> response)
    (json_dumps : value -> string)
    (r : nat) (results : list nat) (σ : state)
    (row d : gmap string value) (word q lbl desc : string)
    (tokens : list string) :
  heap σ !! r = Some row ->
  skip_row row = false ->
  query_term row = VStr word ->
  d !! "id" = Some (VStr q) ->
  d !! "label" = Some (VStr lbl) ->
  d !! "description" = Some (VStr desc) ->
  Str.lower lbl = Str.lower word ->
  context_tokens row = Ok tokens ->
  match_count (Str.lower desc) tokens = 2%nat ->
  (forall σ1 σ2 ent,
     get_entity_data requests_get (VStr q) σ1 = (Ok ent, σ2) ->
     has_enwiki ent (VStr q) = Ok true ->
     score_candidate requests_get (VDict d) row σ1 = (Ok F64.c075, σ2))
  /\ F64.geb F64.c075 F64.c080 = false
  /\ forall candidates scored σ1,
       find_candidates_for_row requests_get row F64.c080 σ
       = (Ok (RetPair candidates scored), σ1) ->
       (candidate_dict (VStr q, VStr lbl, VStr desc, F64.c075) ∉ candidates)
       /\ forall rest,
            scored = (VStr q, VStr lbl, VStr desc, F64.c075) :: rest ->
            exists r_out row_out σ',
              main_step requests_get json_dumps F64.c080 r results σ
              = (Ok (results ++ [r_out]), σ')
              /\ heap σ' !! r_out = Some row_out
              /\ row_out !! "wiki_qid" = Some (VStr "")
              /\ row_out !! "wiki_qid_confidence" = Some (VStr "")
              /\ row_out !! "wiki_qid_candidates"
                 = Some (VStr (json_dumps
                      (VList (VDict <$> (fallback_dict <$> take 3 scored))))).
Proof.
  intros Hr Hskip Hterm Hid Hlbl Hdesc Heq Htok Hcount.
  split.
  { intros σ1 σ2 ent Hent Hhas.
    rewrite (score_candidate_run requests_get d row (Str.lower lbl)
               (Str.lower word) (Str.lower desc)
               (F64.add (F64.add F64.c045 F64.c005) F64.c005)
               (VStr q) ent true σ1 σ2);
      try assumption.
    - reflexivity.
    - unfold Py.dict_get. rewrite Hlbl. cbn. destruct lbl; reflexivity.
    - rewrite Hterm. reflexivity.
    - unfold Py.dict_get. rewrite Hdesc. cbn. destruct desc; reflexivity.
    - rewrite (add_description_score_count _ _ _ _ Htok), Hcount.
      unfold add_label_score. rewrite Heq.
      rewrite bool_decide_eq_true_2 by reflexivity. reflexivity. }
  split; [reflexivity|].
  intros candidates scored σ1 Hfc.
  destruct (find_candidates_for_row_inv _ _ _ _ _ _ _ Hfc)
    as (_ & _ & _ & raw & _ & _ & _ & Hnan & Hs & Hc).
  split.
  { rewrite Hc. intros Hin.
    apply elem_of_accepted in Hin as (y & Hd & _ & Hy).
    assert (Hconf : conf_of y = F64.c075).
    { pose proof (candidate_dict_confidence y) as E.
      rewrite <- Hd, candidate_dict_confidence in E. cbn [conf_of snd] in E.
      congruence. }
    rewrite Hconf in Hy. discriminate Hy. }
  intros rest Hhead.
  assert (Hnone : candidates = []).
  { rewrite Hc. unfold accepted. rewrite filter_all_rejected; [reflexivity|].
    pose proof (sort_desc_sorted raw Hnan) as Hsorted.
    rewrite <- Hs, Hhead in Hsorted.
    inversion Hsorted as [|x l Hs' Hx]; subst x l.
    rewrite Hhead. constructor; [reflexivity|].
    eapply below_head_all_rejected; [exact Hx|reflexivity]. }
  rewrite Hnone in Hfc.
  destruct (main_step_fallback requests_get json_dumps F64.c080 r results
              scored σ σ1)
    as (r_out & σ' & Hrun & _ & Hout & _); [now rewrite Hr|now rewrite Hr|].
  rewrite Hr in Hout. cbn in Hout.
  eexists r_out, _, σ'. split; [exact Hrun|]. split; [exact Hout|].
  split; [rewrite lookup_insert_ne by done; apply lookup_insert_eq|].
  split; [apply lookup_insert_eq|].
  rewrite !lookup_insert_ne by done. apply lookup_insert_eq.
Qed.

Lemma scenario_exact_link_two_tokens_witness :
  let σ := Scenario.start [Scenario.berlin_row] in
  let σ1 := snd (search_wikidata Scenario.berlin_net (VStr "Berlin") σ) in
  let σ2 := snd (get_entity_data Scenario.berlin_net (VStr "Q64") σ1) in
  score_candidate Scenario.berlin_net Scenario.berlin_hit Scenario.berlin_row σ1
  = (Ok F64.c075, σ2)
  /\ exists r_out row_out σ',
       main_step Scenario.berlin_net Scenario.dumps F64.c080 0%nat [] σ
       = (Ok [r_out], σ')
       /\ heap σ' !! r_out = Some row_out
       /\ row_out !! "wiki_qid" = Some (VStr "").
Proof.
  intros σ σ1 σ2.
  destruct (scenario_exact_link_two_tokens Scenario.berlin_net Scenario.dumps
              0%nat [] σ Scenario.berlin_row
              (<["id" := VStr "Q64"]> (<["label" := VStr "Berlin"]>
                 (<["description" := VStr "capital city of Germany"]> ∅)))
              "Berlin" "Q64" "Berlin" "capital city of Germany"
              ["europe"; "germany"; "city"])
    as (Hscore & _ & Hrun);
    try (vm_compute; reflexivity).
  split.
  { apply (Hscore σ1 σ2 (Scenario.entity_doc "Q64" true));
      vm_compute; reflexivity. }
  destruct (Hrun [] [(VStr "Q64", VStr "Berlin",
                      VStr "capital city of Germany", F64.c075)]
              (snd (find_candidates_for_row Scenario.berlin_net
                      Scenario.berlin_row F64.c080 σ)))
    as (_ & Hout); [vm_compute; reflexivity|].
  destruct (Hout [] eq_refl) as (r_out & row_out & σ' & H1 & H2 & H3 & _).
  exists r_out, row_out, σ'. auto.
Defined.

(** C9 does not hold as stated where the search returns a better hit as
    well: the hit of scenario C still scores 0.75 and is not accepted, but
    the record is resolved, with the other hit. *)
Lemma better_hit_resolves_the_record :
  let σ := Scenario.start [Scenario.berlin_row] in
  let city : scored_t :=
    (VStr "Q64", VStr "Berlin", VStr "capital city of Germany", F64.c075) in
  let rival : scored_t :=
    (VStr "Q152087", VStr "Berlin", VStr "city in Germany, Europe",
     F64.add (F64.add (F64.add (F64.add F64.c045 F64.c005) F64.c005) F64.c005)
       F64.c020) in
  let run := main_step Scenario.berlin_rival_net Scenario.dumps F64.c080
               0%nat [] σ in
  fst (find_candidates_for_row Scenario.berlin_rival_net Scenario.berlin_row
         F64.c080 σ)
  = Ok (RetPair [candidate_dict rival] [rival; city])
  /\ fst run = Ok [1%nat]
  /\ default ∅ (heap (snd run) !! 1%nat) !! "wiki_qid" = Some (VStr "Q152087").
Proof. intros σ city rival run. repeat split; vm_compute; reflexivity. Qed.

(* ===================================================================== *)
(** ** Further properties: the transport *)
(* ===================================================================== *)

Section SafeGetFacts.

Variable requests_get : list request -> request -> response.

Lemma safe_get_from_log (n : nat) (rq : request) σ :
  exists v σ' k,
    safe_get_from requests_get n rq σ = (Ok v, σ')
    /\ heap σ' = heap σ
    /\ log σ' = replicate k rq ++ log σ
    /\ (k <= n)%nat
    /\ (n <> 0%nat -> k <> 0%nat)
    /\ (v = VNone
        \/ exists history, json_if_ok (requests_get history rq) = Some v).
Proof.
  revert σ. induction n as [|n IH]; intros σ; cbn.
  - exists VNone, σ, 0%nat. repeat split; auto.
  - unfold mbind, M_bind, http_get.
    destruct (json_if_ok (requests_get (log σ) rq)) as [v|] eqn:E.
    + exists v, (State (heap σ) (rq :: log σ)), 1%nat.
      repeat split; [lia|discriminate|]. right. now exists (log σ).
    + destruct (IH (State (heap σ) (rq :: log σ)))
        as (v & σ' & k & Hrun & Hh & Hl & Hk & _ & Hv).
      exists v, σ', (S k). split; [exact Hrun|]. split; [exact Hh|].
      split.
      { rewrite Hl. cbn [log]. rewrite replicate_S_end.
        now rewrite <- app_assoc. }
      split; [lia|]. split; [discriminate|exact Hv].
Qed.

(** The attempts of [safe_get] told by the answers: the body of the first
    usable answer after [j] unusable ones, with [j + 1] requests made. *)
Lemma safe_get_from_first_success (n j : nat) (rq : request) (v : value) σ :
  (j < n)%nat ->
  (forall i, (i < j)%nat ->
     json_if_ok (requests_get (replicate i rq ++ log σ) rq) = None) ->
  json_if_ok (requests_get (replicate j rq ++ log σ) rq) = Some v ->
  safe_get_from requests_get n rq σ
  = (Ok v, State (heap σ) (replicate (S j) rq ++ log σ)).
Proof.
  revert j σ. induction n as [|n IH]; intros j σ Hj Hfail Hok; [lia|].
  cbn [safe_get_from]. unfold mbind, M_bind, http_get.
  destruct j as [|j].
  - cbn in Hok. rewrite Hok. reflexivity.
  - pose proof (Hfail 0%nat ltac:(lia)) as H0. cbn in H0. rewrite H0.
    rewrite (IH j (State (heap σ) (rq :: log σ))); cbn [heap log].
    + f_equal. f_equal. rewrite (replicate_S_end (S j)).
      rewrite <- app_assoc. reflexivity.
    + lia.
    + intros i Hi. specialize (Hfail (S i)). rewrite replicate_S_end in Hfail.
      rewrite <- app_assoc in Hfail. apply Hfail. lia.
    + rewrite replicate_S_end, <- app_assoc in Hok. exact Hok.
Qed.

Lemma safe_get_from_exhausted (n : nat) (rq : request) σ :
  (forall i, (i < n)%nat ->
     json_if_ok (requests_get (replicate i rq ++ log σ) rq) = None) ->
  safe_get_from requests_get n rq σ
  = (Ok VNone, State (heap σ) (replicate n rq ++ log σ)).
Proof.
  revert σ. induction n as [|n IH]; intros σ Hfail.
  - destruct σ. reflexivity.
  - cbn [safe_get_from]. unfold mbind, M_bind, http_get.
    pose proof (Hfail 0%nat ltac:(lia)) as H0. cbn in H0. rewrite H0.
    rewrite (IH (State (heap σ) (rq :: log σ))); cbn [heap log].
    + f_equal. f_equal. rewrite replicate_S_end, <- app_assoc. reflexivity.
    + intros i Hi. specialize (Hfail (S i)). rewrite replicate_S_end in Hfail.
      rewrite <- app_assoc in Hfail. apply Hfail. lia.
Qed.

End SafeGetFacts.

(** X1: [safe_get] never raises and never touches the rows: whatever the
    network does it returns, after one, two or three requests, all of them
    the request it was given, either [None] or the decoded body of one of
    the answers. *)
Theorem safe_get_always_returns
    (requests_get : list request -> request -> response)
    (rq : request) (σ : state) :
  exists v σ' k,
    safe_get requests_get rq σ = (Ok v, σ')
    /\ heap σ' = heap σ
    /\ log σ' = replicate k rq ++ log σ
    /\ (1 <= k <= 3)%nat
    /\ (v = VNone
        \/ exists history, json_if_ok (requests_get history rq) = Some v).
Proof.
  destruct (safe_get_from_log requests_get 3 rq σ)
    as (v & σ' & k & Hrun & Hh & Hl & Hk & Hk' & Hv).
  exists v, σ', k. repeat split; try assumption.
  assert (k <> 0%nat) by (apply Hk'; discriminate). lia.
Qed.

(** X2: [safe_get] stops at the first usable answer: when the first [j]
    answers (fewer than three) are unusable and the next one has status 200
    and a body that decodes, that body is returned and exactly [j + 1]
    requests have been made. *)
Theorem safe_get_stops_at_first_success
    (requests_get : list request -> request -> response)
    (rq : request) (σ : state) (j : nat) (v : value) :
  (j < 3)%nat ->
  (forall i, (i < j)%nat ->
     json_if_ok (requests_get (replicate i rq ++ log σ) rq) = None) ->
  json_if_ok (requests_get (replicate j rq ++ log σ) rq) = Some v ->
  safe_get requests_get rq σ
  = (Ok v, State (heap σ) (replicate (S j) rq ++ log σ)).
Proof. apply safe_get_from_first_success. Qed.

(** X3: when the three answers are all unusable (an exception of
    [requests.get], a status other than 200, or a body that does not decode)
    [safe_get] returns [None], having made exactly three requests. *)
Theorem safe_get_gives_up_after_three
    (requests_get : list request -> request -> response)
    (rq : request) (σ : state) :
  (forall i, (i < 3)%nat ->
     json_if_ok (requests_get (replicate i rq ++ log σ) rq) = None) ->
  safe_get requests_get rq σ
  = (Ok VNone, State (heap σ) (replicate 3 rq ++ log σ)).
Proof. apply safe_get_from_exhausted. Qed.

Lemma safe_get_stops_at_first_success_witness :
  let rq := EntityData (VStr "Q64") in
  safe_get flaky_net rq (Scenario.start [])
  = (Ok (Scenario.entity_doc "Q64" true), State ∅ [rq; rq]).
Proof.
  intros rq.
  apply (safe_get_stops_at_first_success flaky_net rq (Scenario.start [])
           1%nat (Scenario.entity_doc "Q64" true)).
  - lia.
  - intros i Hi. assert (i = 0%nat) as -> by lia. reflexivity.
  - reflexivity.
Defined.

Lemma safe_get_gives_up_after_three_witness :
  let rq := SearchEntities "Berlin" in
  safe_get Scenario.net_down rq (Scenario.start [])
  = (Ok VNone, State ∅ [rq; rq; rq]).
Proof.
  intros rq.
  apply (safe_get_gives_up_after_three Scenario.net_down rq (Scenario.start [])).
  intros i Hi. reflexivity.
Defined.

(* ===================================================================== *)
(** ** Further properties: the scorer *)
(* ===================================================================== *)

Section ScoreOfFacts.
Import F64Facts.

(** The label contribution is one of four values. *)
Lemma add_label_score_zero_cases (label term : string) :
  add_label_score F64.zero label term = F64.c045
  \/ add_label_score F64.zero label term = F64.c030
  \/ add_label_score F64.zero label term = F64.c015
  \/ add_label_score F64.zero label term = F64.zero.
Proof. unfold add_label_score. repeat case_match; auto. Qed.

Lemma above_one_after_twenty_any (tier : float) :
  tier = F64.c045 \/ tier = F64.c030 \/ tier = F64.c015 \/ tier = F64.zero ->
  F64.above_one (Nat.iter 20 (fun y => F64.add y F64.c005) tier).
Proof.
  intros [-> | [-> | [-> | ->]]]; vm_compute; repeat split; intros;
    try discriminate.
Qed.

Lemma score_of_twenty (tier : float) (k : nat) (bonus : bool) :
  tier = F64.c045 \/ tier = F64.c030 \/ tier = F64.c015 \/ tier = F64.zero ->
  (20 <= k)%nat ->
  score_of tier k bonus = F64.one.
Proof.
  intros Ht Hk. apply score_of_saturated; [|exact Hk].
  now apply above_one_after_twenty_any.
Qed.

(** A property of the signals that holds up to twenty tokens by evaluation
    and from twenty tokens on. *)
Lemma by_cases_on_twenty (P : nat -> bool -> bool) :
  forallb (fun k => P k true && P k false) (seq 0 20) = true ->
  (forall k bonus, (20 <= k)%nat -> P k bonus = true) ->
  forall k bonus, P k bonus = true.
Proof.
  intros H Hbig k bonus. destruct (le_lt_dec 20 k) as [Hk|Hk]; [now apply Hbig|].
  rewrite forallb_forall in H. specialize (H k). rewrite in_seq in H.
  apply andb_prop in H as [H1 H2]; [|lia]. now destruct bonus.
Qed.

Lemma score_of_ge_tier (tier : float) (k : nat) (bonus : bool) :
  tier = F64.c045 \/ tier = F64.c030 \/ tier = F64.c015 \/ tier = F64.zero ->
  F64.leb tier (score_of tier k bonus) = true.
Proof.
  intros Ht.
  apply (by_cases_on_twenty (fun k b => F64.leb tier (score_of tier k b))).
  - destruct Ht as [-> | [-> | [-> | ->]]]; vm_compute; reflexivity.
  - intros k' b Hk. rewrite score_of_twenty by assumption.
    destruct Ht as [-> | [-> | [-> | ->]]]; reflexivity.
Qed.

Lemma score_of_bonus_mono (tier : float) (k : nat) :
  tier = F64.c045 \/ tier = F64.c030 \/ tier = F64.c015 \/ tier = F64.zero ->
  F64.leb (score_of tier k false) (score_of tier k true) = true.
Proof.
  intros Ht.
  apply (by_cases_on_twenty
           (fun k _ => F64.leb (score_of tier k false) (score_of tier k true)));
    [|intros k' _ Hk; now rewrite !score_of_twenty by assumption|exact true].
  destruct Ht as [-> | [-> | [-> | ->]]]; vm_compute; reflexivity.
Qed.

Lemma score_of_token_step (tier : float) (k : nat) (bonus : bool) :
  tier = F64.c045 \/ tier = F64.c030 \/ tier = F64.c015 \/ tier = F64.zero ->
  F64.leb (score_of tier k bonus) (score_of tier (S k) bonus) = true.
Proof.
  intros Ht.
  apply (by_cases_on_twenty
           (fun k b => F64.leb (score_of tier k b) (score_of tier (S k) b))).
  - destruct Ht as [-> | [-> | [-> | ->]]]; vm_compute; reflexivity.
  - intros k' b Hk. rewrite !score_of_twenty by (assumption || lia).
    reflexivity.
Qed.

Lemma score_of_not_nan (tier : float) (k : nat) (bonus : bool) :
  tier = F64.c045 \/ tier = F64.c030 \/ tier = F64.c015 \/ tier = F64.zero ->
  F64.is_nan (score_of tier k bonus) = false.
Proof.
  intros Ht. pose proof (score_of_ge_tier tier k bonus Ht) as H.
  now apply leb_not_nan in H.
Qed.

Lemma score_of_token_mono (tier : float) (k1 k2 : nat) (bonus : bool) :
  tier = F64.c045 \/ tier = F64.c030 \/ tier = F64.c015 \/ tier = F64.zero ->
  (k1 <= k2)%nat ->
  F64.leb (score_of tier k1 bonus) (score_of tier k2 bonus) = true.
Proof.
  intros Ht Hk. induction Hk as [|k2 Hk IH].
  - apply not_ltb_leb; try now apply score_of_not_nan. apply ltb_irrefl.
  - eapply leb_trans; [exact IH|]. now apply score_of_token_step.
Qed.

End ScoreOfFacts.

Section ScorerExtra.

Variable requests_get : list request -> request -> response.

(** The closed form of a run that returns, for a record whose hint fields
    are text. *)
Lemma score_candidate_closed_form (d row : gmap string value)
    (tokens : list string) (conf : float) σ σ' :
  score_candidate requests_get (VDict d) row σ = (Ok conf, σ') ->
  context_tokens row = Ok tokens ->
  exists label term desc qid ent has,
    Py.lower (Py.or (Py.dict_get d "label" VNone) (VStr "")) = Ok label
    /\ Py.lower (query_term row) = Ok term
    /\ Py.lower (Py.or (Py.dict_get d "description" VNone) (VStr "")) = Ok desc
    /\ d !! "id" = Some qid
    /\ get_entity_data requests_get qid σ = (Ok ent, σ')
    /\ has_enwiki ent qid = Ok has
    /\ conf = score_of (add_label_score F64.zero label term)
                (match_count desc tokens) has.
Proof.
  intros H Htok.
  apply score_candidate_Ok_inv in H
    as (d' & label & term & desc & s & qid & ent & has
        & [= <-] & Hl & Ht & Hd & Hs & Hid & Hent & Hhas & ->).
  rewrite (add_description_score_count _ _ _ _ Htok) in Hs.
  injection Hs as <-.
  exists label, term, desc, qid, ent, has. repeat split; assumption.
Qed.

End ScorerExtra.

Lemma bind_Raise_inv {A B : Type} (m : M A) (f : A -> M B) σ e σ' :
  (m ≫= f) σ = (Raise e, σ') ->
  m σ = (Raise e, σ')
  \/ exists a σ1, m σ = (Ok a, σ1) /\ f a σ1 = (Raise e, σ').
Proof.
  unfold mbind, M_bind. destruct (m σ) as [[a|e0] σ1]; [eauto|].
  intros [= <- <-]. now left.
Qed.

Lemma lift_Raise_inv {A : Type} (r : result A) σ e σ' :
  lift r σ = (Raise e, σ') -> r = Raise e /\ σ' = σ.
Proof. unfold lift. now intros [= -> ->]. Qed.

(** A failing step that is a [lift] fails in place; otherwise go on. *)
Tactic Notation "raise_lift" hyp(H) "as" ident(x) ident(Hx) :=
  let s := fresh "σ" in
  apply bind_Raise_inv in H as [H | (x & s & Hx & H)];
  [apply lift_Raise_inv in H as [_ ->]; now left
  |apply lift_Ok_inv in Hx as [Hx ->]].

Section ScorerTheorems.
Import F64Facts.

Variable requests_get : list request -> request -> response.

Lemma score_candidate_signals_any (c : value) (row : gmap string value)
    (conf : float) σ σ' :
  score_candidate requests_get c row σ = (Ok conf, σ') ->
  exists d label term k has,
    c = VDict d
    /\ Py.lower (Py.or (Py.dict_get d "label" VNone) (VStr "")) = Ok label
    /\ Py.lower (query_term row) = Ok term
    /\ conf = score_of (add_label_score F64.zero label term) k has.
Proof.
  intros H.
  apply score_candidate_Ok_inv in H
    as (d & label & term & desc & s & qid & ent & has
        & -> & Hl & Ht & Hd & Hs & Hid & Hent & Hhas & ->).
  destruct (add_description_score_inv _ _ _ _ Hs) as (k & Hk).
  rewrite Hk in Hs. injection Hs as <-.
  exists d, label, term, k, has. repeat split; assumption.
Qed.

Lemma add_label_score_tiers (score : float) (label term : string) :
  (label = term ->
     add_label_score score label term = F64.add score F64.c045)
  /\ (label <> term ->
      Str.contains term label || Str.contains label term = true ->
      add_label_score score label term = F64.add score F64.c030)
  /\ (label <> term ->
      Str.contains term label || Str.contains label term = false ->
      (exists t, t ∈ Str.split term /\ t ∈ Str.split label) ->
      add_label_score score label term = F64.add score F64.c015)
  /\ (label <> term ->
      Str.contains term label || Str.contains label term = false ->
      ~ (exists t, t ∈ Str.split term /\ t ∈ Str.split label) ->
      add_label_score score label term = score).
Proof.
  unfold add_label_score. repeat split.
  - intros ->. now rewrite bool_decide_eq_true_2.
  - intros Hne Hc. now rewrite bool_decide_eq_false_2, Hc.
  - intros Hne Hc Ht. rewrite bool_decide_eq_false_2, Hc by assumption.
    rewrite bool_decide_eq_true_2; [reflexivity|].
    now apply shared_token_size.
  - intros Hne Hc Ht. rewrite bool_decide_eq_false_2, Hc by assumption.
    rewrite bool_decide_eq_false_2; [reflexivity|].
    now rewrite shared_token_size.
Qed.

Lemma leb_tier_chain :
  F64.leb F64.c015 F64.c030 = true /\ F64.leb F64.c030 F64.c045 = true.
Proof. split; reflexivity. Qed.

End ScorerTheorems.

(** The requests of a run of [score_candidate] that returns. *)
Lemma score_candidate_log
    (requests_get : list request -> request -> response)
    (c : value) (row : gmap string value) (σ σ' : state) (conf : float) :
  score_candidate requests_get c row σ = (Ok conf, σ') ->
  exists d qid k,
    c = VDict d /\ d !! "id" = Some qid
    /\ heap σ' = heap σ
    /\ log σ' = replicate k (EntityData qid) ++ log σ
    /\ (1 <= k <= 3)%nat.
Proof.
  intros H.
  apply score_candidate_Ok_inv in H
    as (d & label & term & desc & s & qid & ent & has
        & -> & _ & _ & _ & _ & Hid & Hent & _).
  destruct (safe_get_from_log requests_get 3 (EntityData qid) σ)
    as (v & σ1 & k & Hrun & Hh & Hl & Hk & Hk' & _).
  unfold get_entity_data, safe_get in Hent. rewrite Hrun in Hent.
  injection Hent as _ <-.
  exists d, qid, k. repeat split; try assumption.
  assert (k <> 0%nat) by (apply Hk'; discriminate). lia.
Qed.

(** X4: a run of [score_candidate] that returns has made exactly one entity
    lookup: one to three requests, each for the entity data of the hit's own
    identifier, no search request, and no write to the rows. *)
Theorem score_candidate_one_lookup
    (requests_get : list request -> request -> response)
    (c : value) (row : gmap string value) (σ σ' : state) (conf : float) :
  score_candidate requests_get c row σ = (Ok conf, σ') ->
  exists d qid k,
    c = VDict d /\ d !! "id" = Some qid
    /\ heap σ' = heap σ
    /\ log σ' = replicate k (EntityData qid) ++ log σ
    /\ (1 <= k <= 3)%nat.
Proof. apply score_candidate_log. Qed.

(** X5: an exception out of [score_candidate] comes either before any
    request is made (the state is the one it started from), or from reading
    the entity document after the lookup returned it. *)
Theorem score_candidate_raises_before_or_after_lookup
    (requests_get : list request -> request -> response)
    (c : value) (row : gmap string value) (σ σ' : state) (e : exn) :
  score_candidate requests_get c row σ = (Raise e, σ') ->
  σ' = σ
  \/ exists d qid ent,
       c = VDict d /\ d !! "id" = Some qid
       /\ get_entity_data requests_get qid σ = (Ok ent, σ')
       /\ has_enwiki ent qid = Raise e.
Proof.
  intros H. unfold score_candidate in H.
  raise_lift H as lbl Hlbl. raise_lift H as label Hlabel.
  raise_lift H as term Hterm. raise_lift H as dv Hdv.
  raise_lift H as desc Hdesc. raise_lift H as s Hs.
  raise_lift H as qid Hqid.
  apply bind_Raise_inv in H as [H | (ent & σ1 & Hent & H)].
  { destruct (get_entity_data_returns requests_get qid σ) as (v & σ2 & E & _).
    rewrite E in H. discriminate. }
  apply bind_Raise_inv in H as [H | (has & σ2 & Hhas & H)]; [|discriminate].
  apply lift_Raise_inv in H as [H ->].
  right. destruct c as [| | | | | |d]; try discriminate.
  cbn in Hqid. unfold Py.dict_item in Hqid.
  destruct (d !! "id") as [q|] eqn:Hid; [|discriminate].
  injection Hqid as <-. now exists d, q, ent.
Qed.

Lemma score_candidate_one_lookup_witness :
  let σ := Scenario.start [Scenario.berlin_row] in
  exists d qid k,
    Scenario.berlin_hit = VDict d /\ d !! "id" = Some qid
    /\ log (snd (score_candidate Scenario.berlin_net Scenario.berlin_hit
                   Scenario.berlin_row σ))
       = replicate k (EntityData qid) ++ log σ
    /\ (1 <= k <= 3)%nat.
Proof.
  intros σ.
  destruct (score_candidate_one_lookup Scenario.berlin_net Scenario.berlin_hit
              Scenario.berlin_row σ
              (snd (score_candidate Scenario.berlin_net Scenario.berlin_hit
                      Scenario.berlin_row σ)) F64.c075)
    as (d & qid & k & Hc & Hid & _ & Hl & Hk); [vm_compute; reflexivity|].
  exists d, qid, k. auto.
Defined.

Lemma score_candidate_raises_before_or_after_lookup_witness :
  let σ := Scenario.start [Scenario.berlin_row] in
  score_candidate Scenario.net_without_id Scenario.hit_without_id
    Scenario.berlin_row σ = (Raise KeyError, σ).
Proof.
  intros σ.
  assert (H : score_candidate Scenario.net_without_id Scenario.hit_without_id
                Scenario.berlin_row σ
              = (Raise KeyError,
                 snd (score_candidate Scenario.net_without_id
                        Scenario.hit_without_id Scenario.berlin_row σ)))
    by (vm_compute; reflexivity).
  destruct (score_candidate_raises_before_or_after_lookup _ _ _ _ _ _ H)
    as [Hσ | (d & qid & ent & Hd & Hid & _)].
  - rewrite Hσ in H. exact H.
  - injection Hd as <-. vm_compute in Hid. discriminate Hid.
Defined.

(** X6: the description contribution has no cap of its own: with twenty or
    more context tokens found in the description (repeated tokens counted
    each time) the confidence is exactly 1.0, whatever the label and the
    sitelink. *)
Theorem twenty_matches_saturate
    (requests_get : list request -> request -> response)
    (d row : gmap string value) (desc : string) (tokens : list string)
    (σ σ' : state) (conf : float) :
  score_candidate requests_get (VDict d) row σ = (Ok conf, σ') ->
  context_tokens row = Ok tokens ->
  Py.lower (Py.or (Py.dict_get d "description" VNone) (VStr "")) = Ok desc ->
  (20 <= match_count desc tokens)%nat ->
  conf = F64.one.
Proof.
  intros H Htok Hdesc Hk.
  destruct (score_candidate_closed_form _ _ _ _ _ _ _ H Htok)
    as (label & term & desc' & qid & ent & has & _ & _ & Hd & _ & _ & _ & ->).
  assert (desc' = desc) as -> by congruence.
  apply score_of_twenty; [apply add_label_score_zero_cases|exact Hk].
Qed.

Lemma score_candidate_floor
    (requests_get : list request -> request -> response)
    (d row : gmap string value) (label term : string)
    (σ σ' : state) (conf : float) :
  score_candidate requests_get (VDict d) row σ = (Ok conf, σ') ->
  Py.lower (Py.or (Py.dict_get d "label" VNone) (VStr "")) = Ok label ->
  Py.lower (query_term row) = Ok term ->
  (label = term -> F64.leb F64.c045 conf = true)
  /\ (Str.contains term label || Str.contains label term = true ->
      F64.leb F64.c030 conf = true)
  /\ ((exists t, t ∈ Str.split term /\ t ∈ Str.split label) ->
      F64.leb F64.c015 conf = true).
Proof.
  intros H Hl Ht.
  destruct (score_candidate_signals_any _ _ _ _ _ _ H)
    as (d' & label' & term' & k & has & [= <-] & Hl' & Ht' & ->).
  assert (label' = label) as -> by congruence.
  assert (term' = term) as -> by congruence.
  pose proof (score_of_ge_tier _ k has (add_label_score_zero_cases label term))
    as Hfloor.
  destruct leb_tier_chain as [H15 H30].
  destruct (add_label_score_tiers F64.zero label term) as (T1 & T2 & T3 & _).
  change (F64.add F64.zero F64.c045) with F64.c045 in T1.
  change (F64.add F64.zero F64.c030) with F64.c030 in T2.
  change (F64.add F64.zero F64.c015) with F64.c015 in T3.
  assert (Hexact : label = term ->
            F64.leb F64.c045
              (score_of (add_label_score F64.zero label term) k has) = true).
  { intros E. rewrite (T1 E) in *. exact Hfloor. }
  assert (Hsub : Str.contains term label || Str.contains label term = true ->
            F64.leb F64.c030
              (score_of (add_label_score F64.zero label term) k has) = true).
  { intros Hc. destruct (decide (label = term)) as [E|E].
    - eapply F64Facts.leb_trans; [exact H30|exact (Hexact E)].
    - rewrite (T2 E Hc) in *. exact Hfloor. }
  split; [exact Hexact|]. split; [exact Hsub|].
  intros Hs. destruct (decide (label = term)) as [E|E].
  { eapply F64Facts.leb_trans; [|exact (Hexact E)].
    eapply F64Facts.leb_trans; [exact H15|exact H30]. }
  destruct (Str.contains term label || Str.contains label term) eqn:Hc.
  - eapply F64Facts.leb_trans; [exact H15|exact (Hsub eq_refl)].
  - rewrite (T3 E eq_refl Hs) in *. exact Hfloor.
Qed.

(** X7: the label tier is a floor of the confidence: a hit whose label equals
    the query up to case scores at least 0.45, one whose label contains the
    query or is contained in it at least 0.30, and one that shares a token
    with it at least 0.15. *)
Theorem label_tier_is_a_floor
    (requests_get : list request -> request -> response)
    (d row : gmap string value) (label term : string)
    (σ σ' : state) (conf : float) :
  score_candidate requests_get (VDict d) row σ = (Ok conf, σ') ->
  Py.lower (Py.or (Py.dict_get d "label" VNone) (VStr "")) = Ok label ->
  Py.lower (query_term row) = Ok term ->
  (label = term -> F64.leb F64.c045 conf = true)
  /\ (Str.contains term label || Str.contains label term = true ->
      F64.leb F64.c030 conf = true)
  /\ ((exists t, t ∈ Str.split term /\ t ∈ Str.split label) ->
      F64.leb F64.c015 conf = true).
Proof. apply score_candidate_floor. Qed.

Lemma label_tier_is_a_floor_witness :
  F64.leb F64.c045 F64.c075 = true.
Proof.
  destruct (label_tier_is_a_floor Scenario.berlin_net
           (<["id" := VStr "Q64"]> (<["label" := VStr "Berlin"]>
              (<["description" := VStr "capital city of Germany"]> ∅)))
           Scenario.berlin_row "berlin" "berlin"
           (Scenario.start [Scenario.berlin_row])
           (snd (score_candidate Scenario.berlin_net Scenario.berlin_hit
                   Scenario.berlin_row (Scenario.start [Scenario.berlin_row])))
           F64.c075) as (Hexact & _ & _);
    [vm_compute; reflexivity ..|].
  apply Hexact. reflexivity.
Defined.

Lemma twenty_matches_saturate_witness :
  fst (score_candidate Scenario.net_down unrelated_hit twenty_row
         (Scenario.start [twenty_row])) = Ok F64.one
  /\ add_label_score F64.zero "potsdam" "berlin" = F64.zero.
Proof.
  split; [|vm_compute; reflexivity].
  assert (H : exists conf,
            score_candidate Scenario.net_down unrelated_hit twenty_row
              (Scenario.start [twenty_row])
            = (Ok conf,
               snd (score_candidate Scenario.net_down unrelated_hit twenty_row
                      (Scenario.start [twenty_row]))))
    by (eexists; vm_compute; reflexivity).
  destruct H as (conf & H). rewrite H. cbn [fst]. f_equal.
  apply (twenty_matches_saturate Scenario.net_down _ twenty_row
           (Str.lower Scenario.rich_description)
           ["europe"; "germany"; "brandenburg"; "berlin"; "europe";
            "europe"; "germany"; "berlin"; "capital"; "city";
            "capital"; "city"; "germany"; "europe"; "berlin"; "city";
            "capital"; "germany"; "berlin"; "europe"]
           _ _ conf H);
    [vm_compute; reflexivity|vm_compute; reflexivity|vm_compute; lia].
Defined.

(** X8: a hit without a label (missing, [None] or empty) is not at the
    bottom tier: the empty string is contained in every query, so such a hit
    scores at least 0.30. *)
Theorem label_less_hit_scores_as_substring
    (requests_get : list request -> request -> response)
    (d row : gmap string value) (σ σ' : state) (conf : float) :
  score_candidate requests_get (VDict d) row σ = (Ok conf, σ') ->
  Py.truthy (Py.dict_get d "label" VNone) = false ->
  F64.leb F64.c030 conf = true.
Proof.
  intros H Hl.
  destruct (score_candidate_signals_any _ _ _ _ _ _ H)
    as (d' & label & term & k & has & [= <-] & Hlabel & Hterm & _).
  unfold Py.or in Hlabel. rewrite Hl in Hlabel. cbn in Hlabel.
  injection Hlabel as <-.
  destruct (score_candidate_floor _ _ _ _ _ _ _ _ H
              ltac:(unfold Py.or; rewrite Hl; reflexivity) Hterm)
    as (_ & Hsub & _).
  apply Hsub. destruct term; reflexivity.
Qed.

Lemma label_less_hit_scores_as_substring_witness :
  let hit : gmap string value :=
    <["id" := VStr "Q64"]> (<["description" := VStr "Hauptstadt"]> ∅) in
  F64.leb F64.c030 F64.c030 = true.
Proof.
  intros hit.
  exact (label_less_hit_scores_as_substring Scenario.net_down hit
           Scenario.berlin_row (Scenario.start [Scenario.berlin_row])
           (snd (score_candidate Scenario.net_down (VDict hit)
                   Scenario.berlin_row (Scenario.start [Scenario.berlin_row])))
           F64.c030 ltac:(vm_compute; reflexivity)
           ltac:(vm_compute; reflexivity)).
Defined.

Section StringFacts.

Lemma decode_nonempty (a : ascii) (s : string) : Utf8.decode (String a s) <> [].
Proof. cbn [Utf8.decode]. repeat case_match; discriminate. Qed.

Lemma encode_nonempty (c : N) : Str.nonempty (Utf8.encode c) = true.
Proof. unfold Utf8.encode. repeat case_match; reflexivity. Qed.

Lemma encode_all_nonempty (l : list N) :
  l <> [] -> Str.nonempty (Utf8.encode_all l) = true.
Proof.
  destruct l as [|c l]; [congruence|]. intros _. cbn [Utf8.encode_all].
  pose proof (encode_nonempty c) as H.
  destruct (Utf8.encode c); [discriminate|reflexivity].
Qed.

Lemma lower_from_nonempty (before : list N) (c : N) (l : list N) :
  Str.lower_from before (c :: l) <> [].
Proof.
  cbn [Str.lower_from]. unfold Unicode.to_lower_full.
  repeat case_match; discriminate.
Qed.

(** [s.lower()] of a string that is not empty is not empty. *)
Lemma lower_nonempty (s : string) :
  Str.nonempty s = true -> Str.nonempty (Str.lower s) = true.
Proof.
  destruct s as [|a s]; [discriminate|]. intros _. unfold Str.lower.
  apply encode_all_nonempty.
  pose proof (decode_nonempty a s) as H.
  destruct (Utf8.decode (String a s)) as [|c l]; [congruence|].
  apply lower_from_nonempty.
Qed.

End StringFacts.

Section HintFacts.

Lemma query_term_lowers (row : gmap string value) :
  text_or_none (row !! "wiki_label") = true ->
  text_or_none (row !! "word") = true ->
  exists s, Py.lower (query_term row) = Ok s.
Proof.
  unfold query_term, Py.dict_get. intros Hl Hw.
  destruct (row !! "wiki_label") as [[| | | |s| |]|]; try discriminate;
    destruct (row !! "word") as [[| | | |w| |]|]; try discriminate; cbn;
    try (now eexists);
    try (destruct s; cbn; try (now eexists));
    try (destruct w; cbn; now eexists).
Qed.

(** [a + " " + b + " " + c] with an operand that is not a str. *)
Lemma context_string_not_text (row : gmap string value) :
  text_or_missing (row !! "geo_path") && text_or_missing (row !! "time_path")
    && text_or_missing (row !! "category") = false ->
  context_string row = Raise TypeError.
Proof.
  unfold context_string, Py.dict_get. intros H.
  destruct (row !! "geo_path") as [[| | | |g| |]|];
    destruct (row !! "time_path") as [[| | | |t| |]|];
    destruct (row !! "category") as [[| | | |c| |]|];
    try discriminate; reflexivity.
Qed.

Lemma query_term_agree (row row' : gmap string value) :
  row !! "wiki_label" = row' !! "wiki_label" ->
  row !! "word" = row' !! "word" ->
  query_term row = query_term row'.
Proof. unfold query_term, Py.dict_get. now intros -> ->. Qed.

End HintFacts.

(** X9: more evidence never lowers the confidence: of two hits with the same
    label (up to case) scored for the same record, the one whose description
    matches at least as many context tokens and whose entity has the English
    sitelink whenever the other's has it does not score lower. *)
Theorem more_evidence_never_lowers_confidence
    (requests_get : list request -> request -> response)
    (d1 d2 row : gmap string value) (label desc1 desc2 : string)
    (tokens : list string) (qid1 qid2 ent1 ent2 : value) (has1 has2 : bool)
    (σ1 σ1' σ2 σ2' : state) (c1 c2 : float) :
  score_candidate requests_get (VDict d1) row σ1 = (Ok c1, σ1') ->
  score_candidate requests_get (VDict d2) row σ2 = (Ok c2, σ2') ->
  context_tokens row = Ok tokens ->
  Py.lower (Py.or (Py.dict_get d1 "label" VNone) (VStr "")) = Ok label ->
  Py.lower (Py.or (Py.dict_get d2 "label" VNone) (VStr "")) = Ok label ->
  Py.lower (Py.or (Py.dict_get d1 "description" VNone) (VStr "")) = Ok desc1 ->
  Py.lower (Py.or (Py.dict_get d2 "description" VNone) (VStr "")) = Ok desc2 ->
  (match_count desc1 tokens <= match_count desc2 tokens)%nat ->
  d1 !! "id" = Some qid1 ->
  get_entity_data requests_get qid1 σ1 = (Ok ent1, σ1') ->
  has_enwiki ent1 qid1 = Ok has1 ->
  d2 !! "id" = Some qid2 ->
  get_entity_data requests_get qid2 σ2 = (Ok ent2, σ2') ->
  has_enwiki ent2 qid2 = Ok has2 ->
  (has1 = true -> has2 = true) ->
  F64.leb c1 c2 = true.
Proof.
  intros H1 H2 Htok Hl1 Hl2 Hd1 Hd2 Hk Hq1 He1 Hh1 Hq2 He2 Hh2 Hhas.
  destruct (score_candidate_closed_form _ _ _ _ _ _ _ H1 Htok)
    as (l1 & t1 & de1 & q1 & e1 & b1 & L1 & T1 & D1 & Q1 & E1 & B1 & ->).
  destruct (score_candidate_closed_form _ _ _ _ _ _ _ H2 Htok)
    as (l2 & t2 & de2 & q2 & e2 & b2 & L2 & T2 & D2 & Q2 & E2 & B2 & ->).
  assert (l1 = label) as -> by congruence.
  assert (l2 = label) as -> by congruence.
  assert (t2 = t1) as -> by congruence.
  assert (de1 = desc1) as -> by congruence.
  assert (de2 = desc2) as -> by congruence.
  assert (q1 = qid1) as -> by congruence.
  assert (q2 = qid2) as -> by congruence.
  assert (e1 = ent1) as -> by congruence.
  assert (e2 = ent2) as -> by congruence.
  assert (b1 = has1) as -> by congruence.
  assert (b2 = has2) as -> by congruence.
  pose proof (add_label_score_zero_cases label t1) as Htier.
  eapply F64Facts.leb_trans;
    [apply (score_of_token_mono _ _ _ has1 Htier Hk)|].
  destruct has1, has2.
  - apply (score_of_token_mono _ _ _ true Htier (Nat.le_refl _)).
  - specialize (Hhas eq_refl). discriminate.
  - now apply score_of_bonus_mono.
  - apply (score_of_token_mono _ _ _ false Htier (Nat.le_refl _)).
Qed.

Lemma more_evidence_never_lowers_confidence_witness :
  let d1 : gmap string value :=
    <["id" := VStr "Q999"]> (<["label" := VStr "Berlin"]>
      (<["description" := VStr "city"]> ∅)) in
  let d2 : gmap string value :=
    <["id" := VStr "Q64"]> (<["label" := VStr "BERLIN"]>
      (<["description" := VStr "capital city of Germany"]> ∅)) in
  let σ := Scenario.start [Scenario.berlin_row] in
  exists c1 c2,
    fst (score_candidate Scenario.berlin_net (VDict d1) Scenario.berlin_row σ)
    = Ok c1
    /\ fst (score_candidate Scenario.berlin_net (VDict d2) Scenario.berlin_row σ)
       = Ok c2
    /\ F64.leb c1 c2 = true.
Proof.
  intros d1 d2 σ.
  assert (H1 : exists c1,
            score_candidate Scenario.berlin_net (VDict d1) Scenario.berlin_row σ
            = (Ok c1, snd (score_candidate Scenario.berlin_net (VDict d1)
                             Scenario.berlin_row σ)))
    by (eexists; vm_compute; reflexivity).
  assert (H2 : exists c2,
            score_candidate Scenario.berlin_net (VDict d2) Scenario.berlin_row σ
            = (Ok c2, snd (score_candidate Scenario.berlin_net (VDict d2)
                             Scenario.berlin_row σ)))
    by (eexists; vm_compute; reflexivity).
  destruct H1 as (c1 & H1), H2 as (c2 & H2).
  exists c1, c2. rewrite H1, H2. split; [reflexivity|]. split; [reflexivity|].
  apply (more_evidence_never_lowers_confidence Scenario.berlin_net d1 d2
           Scenario.berlin_row "berlin" "city" "capital city of germany"
           ["europe"; "germany"; "city"]
           (VStr "Q999") (VStr "Q64") VNone (Scenario.entity_doc "Q64" true)
           false true σ _ σ _ c1 c2 H1 H2);
    try (vm_compute; reflexivity);
    try (vm_compute; lia).
Defined.

(** X10: a hint field that is present but not text ([None] where a CSV line
    is short of cells) makes the scorer raise [TypeError] as soon as a hit
    has a description, before any request is made. *)
Theorem non_text_hint_field_raises
    (requests_get : list request -> request -> response)
    (d row : gmap string value) (desc : string) (σ : state) :
  text_or_none (d !! "label") = true ->
  text_or_none (row !! "wiki_label") = true ->
  text_or_none (row !! "word") = true ->
  d !! "description" = Some (VStr desc) -> desc <> "" ->
  text_or_missing (row !! "geo_path") && text_or_missing (row !! "time_path")
    && text_or_missing (row !! "category") = false ->
  score_candidate requests_get (VDict d) row σ = (Raise TypeError, σ).
Proof.
  intros Hl Hwl Hw Hd Hne Hhint.
  destruct (lower_text_or_none d "label" Hl) as (label & El).
  destruct (query_term_lowers row Hwl Hw) as (term & Et).
  unfold score_candidate. cbn [Py.get].
  unfold mbind, M_bind, lift. rewrite El, Et.
  unfold Py.dict_get at 1. rewrite Hd.
  destruct desc as [|a desc]; [congruence|].
  change (default VNone (Some (VStr (String a desc))))
    with (VStr (String a desc)).
  cbn [Py.or Py.truthy Str.nonempty Py.lower].
  unfold add_description_score.
  rewrite (lower_nonempty (String a desc) eq_refl).
  rewrite (context_string_not_text row Hhint). reflexivity.
Qed.

Lemma non_text_hint_field_raises_witness :
  score_candidate Scenario.berlin_net Scenario.berlin_hit short_row
    (Scenario.start [short_row])
  = (Raise TypeError, Scenario.start [short_row]).
Proof.
  apply (non_text_hint_field_raises Scenario.berlin_net _ short_row
           "capital city of Germany");
    try reflexivity.
  discriminate.
Defined.

(** X11: the hint fields are read only for a hit that has a description:
    for a hit whose description is missing, [None] or empty, records that
    agree on [wiki_label] and [word] get the same outcome, whatever their
    other fields hold. *)
Theorem hints_unread_without_description
    (requests_get : list request -> request -> response)
    (d row row' : gmap string value) (σ : state) :
  Py.truthy (Py.dict_get d "description" VNone) = false ->
  row !! "wiki_label" = row' !! "wiki_label" ->
  row !! "word" = row' !! "word" ->
  score_candidate requests_get (VDict d) row σ
  = score_candidate requests_get (VDict d) row' σ.
Proof.
  intros Hd Hl Hw. unfold score_candidate, mbind, M_bind, lift.
  cbn [Py.get].
  rewrite (query_term_agree row row' Hl Hw).
  replace (Py.or (Py.dict_get d "description" VNone) (VStr ""))
    with (VStr "") by (unfold Py.or; now rewrite Hd).
  reflexivity.
Qed.

Lemma hints_unread_without_description_witness :
  let d : gmap string value :=
    <["id" := VStr "Q64"]> (<["label" := VStr "Berlin"]> ∅) in
  score_candidate Scenario.berlin_net (VDict d) short_row
    (Scenario.start [short_row])
  = score_candidate Scenario.berlin_net (VDict d) Scenario.berlin_row
      (Scenario.start [short_row]).
Proof.
  intros d.
  apply (hints_unread_without_description Scenario.berlin_net d short_row
           Scenario.berlin_row); reflexivity.
Defined.

(* ===================================================================== *)
(** ** Further properties: ranking and acceptance *)
(* ===================================================================== *)

Section RankFacts.
Import F64Facts.

Lemma filter_all_accepted (threshold : float) (l : list scored_t) :
  Forall (fun y => F64.geb (conf_of y) threshold = true) l ->
  List.filter (fun x => F64.geb (conf_of x) threshold) l = l.
Proof.
  induction 1 as [|y l Hy Hl IH]; [reflexivity|]. cbn. now rewrite Hy, IH.
Qed.

(** The entries of a descending list that reach the threshold are its
    leading entries. *)
Lemma filter_sorted_prefix (threshold : float) (l : list scored_t) :
  StronglySorted (fun a b => F64.geb (conf_of a) (conf_of b) = true) l ->
  let kept := List.filter (fun x => F64.geb (conf_of x) threshold) l in
  kept = take (length kept) l
  /\ Forall (fun y => F64.geb (conf_of y) threshold = false)
       (drop (length kept) l).
Proof.
  induction 1 as [|x l Hs IH Hx]; cbn zeta; [split; [reflexivity|constructor]|].
  cbn [List.filter]. destruct (F64.geb (conf_of x) threshold) eqn:E.
  - cbn [length take drop]. destruct IH as [IH1 IH2].
    split; [now rewrite <- IH1|exact IH2].
  - pose proof (below_head_all_rejected threshold x l Hx E) as Hall.
    rewrite (filter_all_rejected _ _ Hall). cbn [length take drop].
    split; [reflexivity|]. now constructor.
Qed.

(** Every entry of a prefix of a descending list scores at least as high as
    every entry after the prefix. *)
Lemma sorted_prefix_dominates (n : nat) (l : list scored_t) (x y : scored_t) :
  StronglySorted (fun a b => F64.geb (conf_of a) (conf_of b) = true) l ->
  x ∈ take n l -> y ∈ drop n l ->
  F64.geb (conf_of x) (conf_of y) = true.
Proof.
  intros Hs. revert n. induction Hs as [|z l Hs IH Hz]; intros n Hx Hy.
  - rewrite take_nil in Hx. inversion Hx.
  - destruct n as [|n]; [inversion Hx|]. cbn in Hx, Hy.
    apply elem_of_cons in Hx as [->|Hx]; [|now apply (IH n)].
    rewrite Forall_forall in Hz. apply Hz.
    rewrite <- (take_drop n l). apply elem_of_app. now right.
Qed.

Variable requests_get : list request -> request -> response.

(** A confidence that [score_candidate] returns is at most 1.0. *)
Lemma score_candidate_unit
    (c : value) (row : gmap string value) σ σ' (conf : float) :
  score_candidate requests_get c row σ = (Ok conf, σ') ->
  F64.leb F64.zero conf = true /\ F64.leb conf F64.one = true.
Proof.
  intros H.
  apply score_candidate_Ok_inv in H
    as (d & label & term & desc & s & qid & ent & has
        & _ & _ & _ & _ & Hs & _ & _ & _ & ->).
  apply clamp_bounds.
  assert (Hn : F64.nonneg s = true).
  { eapply add_description_score_nonneg; [|exact Hs].
    apply add_label_score_nonneg. reflexivity. }
  destruct has; [apply add_nonneg|]; auto.
Qed.

Lemma score_hits_unit (hits : list value) (row : gmap string value) :
  forall acc scored σ σ',
    score_hits requests_get hits row acc σ = (Ok scored, σ') ->
    Forall (fun x => F64.leb F64.zero (conf_of x) = true
                     /\ F64.leb (conf_of x) F64.one = true) acc ->
    Forall (fun x => F64.leb F64.zero (conf_of x) = true
                     /\ F64.leb (conf_of x) F64.one = true) scored.
Proof.
  induction hits as [|c hits IH]; intros acc scored σ σ' H Hacc; cbn in H.
  - injection H as <- <-. exact Hacc.
  - inv_bind H as conf σ1 Hconf. inv_lift H as qid Hqid.
    inv_lift H as lbl Hlbl. inv_lift H as desc Hdesc.
    apply IH in H; [exact H|].
    apply Forall_app. split; [exact Hacc|]. constructor; [|constructor].
    eapply score_candidate_unit, Hconf.
Qed.

(** What [find_candidates_for_row] returns, with the range of the scores. *)
Lemma find_candidates_for_row_unit
    (row : gmap string value) (threshold : float) σ σ'
    (candidates : list (gmap string value)) (scored : list scored_t) :
  find_candidates_for_row requests_get row threshold σ
  = (Ok (RetPair candidates scored), σ') ->
  Forall (fun x => F64.leb F64.zero (conf_of x) = true
                   /\ F64.leb (conf_of x) F64.one = true) scored
  /\ StronglySorted (fun a b => F64.geb (conf_of a) (conf_of b) = true) scored
  /\ candidates = accepted threshold scored.
Proof.
  intros H.
  destruct (find_candidates_for_row_ranked _ _ _ _ _ _ _ H)
    as (raw & Hnan & -> & ->).
  split; [|split; [now apply sort_desc_sorted|reflexivity]].
  unfold find_candidates_for_row in H.
  destruct (negb _); [discriminate|].
  inv_bind H as res σ1 Hres.
  destruct (negb _); [discriminate|].
  inv_lift H as search_hits Hsh. inv_lift H as hits Hhits.
  inv_bind H as raw' σ2 Hraw. injection H as _ E _.
  rewrite <- E.
  assert (Hu : Forall (fun x => F64.leb F64.zero (conf_of x) = true
                               /\ F64.leb (conf_of x) F64.one = true) raw').
  { eapply score_hits_unit; [exact Hraw|constructor]. }
  rewrite Forall_forall in Hu |- *. intros x Hx. apply Hu.
  now rewrite <- (sort_desc_perm raw').
Qed.

End RankFacts.

(** X12: the accepted candidates are the leading entries of the ranking,
    in the order of the ranking, and every entry after them misses the
    threshold. *)
Theorem accepted_candidates_lead_the_ranking
    (requests_get : list request -> request -> response)
    (row : gmap string value) (threshold : float) (σ σ' : state)
    (candidates : list (gmap string value)) (scored : list scored_t) :
  find_candidates_for_row requests_get row threshold σ
  = (Ok (RetPair candidates scored), σ') ->
  candidates = candidate_dict <$> take (length candidates) scored
  /\ Forall (fun x => F64.geb (conf_of x) threshold = false)
       (drop (length candidates) scored).
Proof.
  intros H.
  destruct (find_candidates_for_row_unit _ _ _ _ _ _ _ H) as (_ & Hs & ->).
  destruct (filter_sorted_prefix threshold scored Hs) as [H1 H2].
  unfold accepted. rewrite length_fmap.
  split; [now rewrite <- H1|exact H2].
Qed.

Lemma accepted_candidates_lead_the_ranking_witness :
  let run := find_candidates_for_row Scenario.berlin_net Scenario.berlin_row
               F64.c075 (Scenario.start [Scenario.berlin_row]) in
  exists candidates scored,
    fst run = Ok (RetPair candidates scored)
    /\ candidates = candidate_dict <$> take (length candidates) scored.
Proof.
  intros run.
  assert (H : exists candidates scored,
            run = (Ok (RetPair candidates scored), snd run))
    by (eexists _, _; vm_compute; reflexivity).
  destruct H as (candidates & scored & H).
  exists candidates, scored. rewrite H. split; [reflexivity|].
  exact (proj1 (accepted_candidates_lead_the_ranking _ _ _ _ _ _ _ H)).
Defined.

(** X13: in the ranking that [find_candidates_for_row] returns, every entry
    among the first [n] scores at least as high as every entry after them;
    so the three entries the fallback of [main] records are three best ones. *)
Theorem ranking_prefix_holds_the_best
    (requests_get : list request -> request -> response)
    (row : gmap string value) (threshold : float) (σ σ' : state)
    (candidates : list (gmap string value)) (scored : list scored_t)
    (n : nat) (x y : scored_t) :
  find_candidates_for_row requests_get row threshold σ
  = (Ok (RetPair candidates scored), σ') ->
  x ∈ take n scored -> y ∈ drop n scored ->
  F64.geb (conf_of x) (conf_of y) = true.
Proof.
  intros H.
  destruct (find_candidates_for_row_unit _ _ _ _ _ _ _ H) as (_ & Hs & _).
  now apply sorted_prefix_dominates.
Qed.

(** X14: a threshold above 1.0, or one that is not a number, accepts
    nothing: every record that is looked up comes out unresolved. *)
Theorem threshold_above_one_accepts_nothing
    (requests_get : list request -> request -> response)
    (row : gmap string value) (threshold : float) (σ σ' : state)
    (candidates : list (gmap string value)) (scored : list scored_t) :
  find_candidates_for_row requests_get row threshold σ
  = (Ok (RetPair candidates scored), σ') ->
  F64.leb threshold F64.one = false ->
  candidates = [].
Proof.
  intros H Hthr.
  destruct (find_candidates_for_row_unit _ _ _ _ _ _ _ H) as (Hu & _ & ->).
  unfold accepted. rewrite filter_all_rejected; [reflexivity|].
  eapply Forall_impl; [exact Hu|]. cbn. intros x [_ Hx].
  destruct (F64.geb (conf_of x) threshold) eqn:E; [|reflexivity].
  unfold F64.geb in E.
  rewrite (F64Facts.leb_trans _ _ _ E Hx) in Hthr. discriminate.
Qed.

(** X15: a threshold of 0.0 or less accepts every scored hit: the accepted
    candidates are the whole ranking. *)
Theorem threshold_zero_accepts_everything
    (requests_get : list request -> request -> response)
    (row : gmap string value) (threshold : float) (σ σ' : state)
    (candidates : list (gmap string value)) (scored : list scored_t) :
  find_candidates_for_row requests_get row threshold σ
  = (Ok (RetPair candidates scored), σ') ->
  F64.leb threshold F64.zero = true ->
  candidates = candidate_dict <$> scored.
Proof.
  intros H Hthr.
  destruct (find_candidates_for_row_unit _ _ _ _ _ _ _ H) as (Hu & _ & ->).
  unfold accepted. rewrite filter_all_accepted; [reflexivity|].
  eapply Forall_impl; [exact Hu|]. cbn. intros x [Hx _].
  unfold F64.geb. eapply F64Facts.leb_trans; eassumption.
Qed.

Lemma ranking_prefix_holds_the_best_witness :
  let run := find_candidates_for_row berlin_pair_net Scenario.berlin_row
               F64.c080 (Scenario.start [Scenario.berlin_row]) in
  exists candidates x y,
    fst run = Ok (RetPair candidates [x; y])
    /\ F64.geb (conf_of x) (conf_of y) = true.
Proof.
  intros run.
  assert (H : exists candidates x y,
            run = (Ok (RetPair candidates [x; y]), snd run))
    by (eexists _, _, _; vm_compute; reflexivity).
  destruct H as (candidates & x & y & H).
  exists candidates, x, y. rewrite H. split; [reflexivity|].
  apply (ranking_prefix_holds_the_best _ _ _ _ _ _ _ 1%nat x y H);
    cbn; apply list_elem_of_here.
Defined.

Lemma threshold_above_one_accepts_nothing_witness :
  let run := find_candidates_for_row Scenario.berlin_net Scenario.berlin_row
               (F64.lit 11 10) (Scenario.start [Scenario.berlin_row]) in
  exists scored, fst run = Ok (RetPair [] scored).
Proof.
  intros run.
  assert (H : exists candidates scored,
            run = (Ok (RetPair candidates scored), snd run))
    by (eexists _, _; vm_compute; reflexivity).
  destruct H as (candidates & scored & H).
  exists scored. rewrite H. cbn [fst]. do 2 f_equal.
  apply (threshold_above_one_accepts_nothing _ _ _ _ _ _ _ H).
  vm_compute. reflexivity.
Defined.

Lemma threshold_zero_accepts_everything_witness :
  let run := find_candidates_for_row berlin_pair_net Scenario.berlin_row
               F64.zero (Scenario.start [Scenario.berlin_row]) in
  exists scored,
    fst run = Ok (RetPair (candidate_dict <$> scored) scored)
    /\ length scored = 2%nat.
Proof.
  intros run.
  assert (H : exists candidates x y,
            run = (Ok (RetPair candidates [x; y]), snd run))
    by (eexists _, _, _; vm_compute; reflexivity).
  destruct H as (candidates & x & y & H).
  exists [x; y]. rewrite H. cbn [fst]. split; [|reflexivity]. do 2 f_equal.
  apply (threshold_zero_accepts_everything _ _ _ _ _ _ _ H).
  reflexivity.
Defined.

Section RequestFacts.

Variable requests_get : list request -> request -> response.

Lemma lookup_log_cons (x : scored_t) (k : nat) (raw : list scored_t)
    (attempts : list nat) :
  lookup_log (x :: raw) (k :: attempts)
  = lookup_log raw attempts ++ replicate k (EntityData (fst (fst (fst x)))).
Proof.
  unfold lookup_log. cbn [zip_with]. rewrite reverse_cons, concat_app.
  cbn [concat]. now rewrite app_nil_r.
Qed.

(** The requests of the loop over the hits: for each hit, in order, one
    entity lookup of one to three attempts for the identifier of the hit. *)
Lemma scored_in_order_log (row : gmap string value) (hits : list value) :
  forall σ raw σ',
    scored_in_order requests_get row hits σ raw σ' ->
    exists attempts,
      length attempts = length raw
      /\ Forall (fun k => 1 <= k <= 3)%nat attempts
      /\ log σ' = lookup_log raw attempts ++ log σ.
Proof.
  induction hits as [|c hits IH]; intros σ [|x raw] σ' H; cbn in H;
    try contradiction.
  - subst σ'. exists []. repeat split; constructor.
  - destruct H as (d & qid & conf & σ1 & -> & Hid & Hconf & -> & H).
    destruct (score_candidate_log _ _ _ _ _ _ Hconf)
      as (d' & q & k & [= <-] & Hid' & _ & Hl1 & Hk).
    assert (q = qid) as -> by congruence.
    destruct (IH _ _ _ H) as (attempts & Hlen & Hall & Hl).
    exists (k :: attempts). split; [cbn; now rewrite Hlen|].
    split; [now constructor|].
    rewrite lookup_log_cons, Hl, Hl1, <- app_assoc. reflexivity.
Qed.

End RequestFacts.

(** X16: the traffic for one record that is looked up: one search for the
    record's label, of one to three attempts, then, for each hit in the
    order of the search, one entity lookup of one to three attempts for the
    identifier of that hit, and nothing else; the rows are not written to. *)
Theorem requests_per_record
    (requests_get : list request -> request -> response)
    (row : gmap string value) (threshold : float) (σ σ' : state)
    (candidates : list (gmap string value)) (scored : list scored_t) :
  find_candidates_for_row requests_get row threshold σ
  = (Ok (RetPair candidates scored), σ') ->
  exists q searches res σ1 hits raw attempts,
    Py.or (Py.dict_get row "wiki_label" VNone) (Py.dict_get row "word" VNone)
    = VStr q
    /\ search_wikidata requests_get (VStr q) σ = (Ok res, σ1)
    /\ log σ1 = replicate searches (SearchEntities q) ++ log σ
    /\ (1 <= searches <= 3)%nat
    /\ Py.get res "search" (VList []) ≫= Py.iterate = Ok hits
    /\ scored_in_order requests_get row hits σ1 raw σ'
    /\ scored = sort_desc raw
    /\ length attempts = length raw
    /\ Forall (fun k => 1 <= k <= 3)%nat attempts
    /\ log σ' = lookup_log raw attempts ++ log σ1
    /\ heap σ' = heap σ.
Proof.
  intros H.
  pose proof (heap_stable_find_candidates_for_row requests_get row threshold σ)
    as Hh.
  rewrite H in Hh. cbn in Hh.
  destruct (find_candidates_for_row_inv _ _ _ _ _ _ _ H)
    as (res & σ1 & hits & raw & Hres & Hhits & Horder & _ & Hs & _).
  destruct (Py.or (Py.dict_get row "wiki_label" VNone)
                  (Py.dict_get row "word" VNone))
    as [| | | |q| |]; try discriminate.
  destruct (safe_get_from_log requests_get 3 (SearchEntities q) σ)
    as (v & σ1' & k & Hrun & _ & Hl & Hk & Hk' & _).
  pose proof Hres as Hres'.
  cbn [search_wikidata] in Hres'. unfold safe_get in Hres'.
  rewrite Hrun in Hres'. injection Hres' as _ <-.
  destruct (scored_in_order_log _ _ _ _ _ _ Horder)
    as (attempts & Hlen & Hall & Hl2).
  exists q, k, res, σ1', hits, raw, attempts.
  split; [reflexivity|]. split; [exact Hres|]. split; [exact Hl|].
  split; [assert (k <> 0%nat) by (apply Hk'; discriminate); lia|].
  split; [exact Hhits|]. split; [exact Horder|]. split; [exact Hs|].
  split; [exact Hlen|]. split; [exact Hall|]. split; [exact Hl2|exact Hh].
Qed.

Lemma requests_per_record_witness :
  let σ := Scenario.start [Scenario.berlin_row] in
  let run := find_candidates_for_row berlin_pair_net Scenario.berlin_row
               F64.c080 σ in
  exists searches raw attempts,
    log (snd run)
    = lookup_log raw attempts ++ replicate searches (SearchEntities "Berlin") ++ []
    /\ (1 <= searches <= 3)%nat
    /\ length attempts = 2%nat
    /\ Forall (fun k => 1 <= k <= 3)%nat attempts.
Proof.
  intros σ run.
  assert (H : exists candidates x y,
            run = (Ok (RetPair candidates [x; y]), snd run))
    by (eexists _, _, _; vm_compute; reflexivity).
  destruct H as (candidates & x & y & H).
  destruct (requests_per_record _ _ _ _ _ _ _ H)
    as (q & searches & res & σ1 & hits & raw & attempts
        & Hq & _ & Hl1 & Hs & _ & _ & Hsort & Hlen & Hall & Hl & _).
  injection Hq as <-.
  exists searches, raw, attempts. rewrite Hl, Hl1.
  split; [reflexivity|]. split; [exact Hs|]. split; [|exact Hall].
  rewrite Hlen, <- (Permutation_length (sort_desc_perm raw)), <- Hsort.
  reflexivity.
Defined.

(* ===================================================================== *)
(** ** Further properties: the loop of [main] *)
(* ===================================================================== *)

Section MainFacts.

Variable requests_get : list request -> request -> response.
Variable json_dumps : value -> string.

Lemma dom_attached (row : gmap string value) (v1 v2 v3 : value) :
  dom (<["wiki_qid_confidence" := v3]> (<["wiki_qid" := v2]>
        (<["wiki_qid_candidates" := v1]> row)))
  = dom row ∪ output_fields.
Proof.
  rewrite !dom_insert_L. unfold output_fields.
  apply set_eq. intros x. rewrite !elem_of_union. tauto.
Qed.

Lemma lookup_attached (row : gmap string value) (v1 v2 v3 : value) (k : string) :
  k ∉ output_fields ->
  (<["wiki_qid_confidence" := v3]> (<["wiki_qid" := v2]>
     (<["wiki_qid_candidates" := v1]> row))) !! k = row !! k.
Proof.
  unfold output_fields. intros Hk.
  rewrite !not_elem_of_union, !not_elem_of_singleton in Hk.
  destruct Hk as [[? ?] ?].
  rewrite !lookup_insert_ne by congruence. reflexivity.
Qed.

(** One round of the loop, for a record that exists. *)
Lemma main_step_output (threshold : float) (r : nat) (results results' : list nat)
    (row : gmap string value) σ σ' :
  heap σ !! r = Some row ->
  main_step requests_get json_dumps threshold r results σ = (Ok results', σ') ->
  heap σ ⊆ heap σ'
  /\ exists out, results' = results ++ [out]
       /\ output_of (heap σ) (heap σ') r out.
Proof.
  intros Hr H. destruct (skip_row row) eqn:Hskip.
  - rewrite main_step_skip in H by (now rewrite Hr).
    injection H as <- <-. split; [reflexivity|].
    exists r. split; [reflexivity|]. exists row. now rewrite Hskip.
  - apply main_step_resolved_inv in H
      as (candidates & scored & σ1 & r_out & v1 & v2 & v3
          & _ & -> & Hnew & Hout & Hfr & _ & _);
      [|now rewrite Hr].
    rewrite Hr in Hout. cbn [default] in Hout.
    split.
    { apply map_subseteq_spec. intros l x Hl. rewrite Hfr; [exact Hl|].
      intros ->. congruence. }
    exists r_out. split; [reflexivity|]. exists row. rewrite Hskip.
    split; [exact Hr|]. split; [exact Hnew|].
    eexists. split; [exact Hout|].
    split; [apply dom_attached|]. intros k Hk. now apply lookup_attached.
Qed.

Lemma output_of_weaken (h0 h h1 h2 : gmap nat (gmap string value)) (r out : nat) :
  h0 ⊆ h -> h1 ⊆ h2 -> is_Some (h0 !! r) ->
  output_of h h1 r out -> output_of h0 h2 r out.
Proof.
  intros H0 H12 [row0 Hr0] (row & Hr & Hout).
  assert (row0 = row) as ->.
  { eapply map_subseteq_spec in Hr0; [|exact H0]. congruence. }
  exists row. split; [exact Hr0|].
  destruct (skip_row row); [exact Hout|].
  destruct Hout as (Hnew & row_out & Ho & Hd & Hk).
  split.
  { destruct (h0 !! out) as [x|] eqn:E; [|reflexivity].
    eapply map_subseteq_spec in E; [|exact H0]. congruence. }
  exists row_out. split; [|split; assumption].
  eapply map_subseteq_spec in Ho; [exact Ho|exact H12].
Qed.

(** The loop of [main] from a state that extends the initial heap [h0]. *)
Lemma main_loop_outputs (threshold : float) (h0 : gmap nat (gmap string value))
    (rows : list nat) :
  Forall (fun r => is_Some (h0 !! r)) rows ->
  forall results σ results' σ',
    h0 ⊆ heap σ ->
    main_loop requests_get json_dumps threshold rows results σ
    = (Ok results', σ') ->
    heap σ ⊆ heap σ'
    /\ exists new, results' = results ++ new
         /\ Forall2 (output_of h0 (heap σ')) rows new.
Proof.
  induction 1 as [|r rows Hr Hrows IH]; intros results σ results' σ' H0 H;
    cbn [main_loop] in H.
  - injection H as <- <-. split; [reflexivity|].
    exists []. split; [now rewrite app_nil_r|constructor].
  - inv_bind H as results1 σ1 Hstep.
    assert (Hrσ : exists row, heap σ !! r = Some row).
    { destruct Hr as [row Hr]. exists row.
      eapply map_subseteq_spec in Hr; [exact Hr|exact H0]. }
    destruct Hrσ as (row & Hrσ).
    destruct (main_step_output _ _ _ _ _ _ _ Hrσ Hstep)
      as (H01 & out & -> & Hout).
    destruct (IH _ _ _ _ (transitivity H0 H01) H)
      as (H1' & new & -> & Hnew).
    split; [exact (transitivity H01 H1')|].
    exists (out :: new). split; [now rewrite <- app_assoc|].
    constructor; [|exact Hnew].
    eapply output_of_weaken; [exact H0|exact H1'|exact Hr|exact Hout].
Qed.

Lemma candidate_dict_qid (x : scored_t) :
  candidate_dict x !! "qid" = Some (fst (fst (fst x))).
Proof. destruct x as [[[qid lbl] desc] conf]. reflexivity. Qed.

End MainFacts.

(** X17: a run of [main] that reaches its end has produced one output
    record for each input record, in the order of the input: the input
    object itself where the record is passed through, and otherwise a new
    object with the fields of the input record and the three output fields;
    no object that existed before the run has been changed. *)
Theorem main_gives_one_record_per_input
    (requests_get : list request -> request -> response)
    (json_dumps : value -> string) (threshold : float)
    (rows results : list nat) (σ σ' : state) :
  Forall (fun r => is_Some (heap σ !! r)) rows ->
  main requests_get json_dumps threshold rows σ = (Ok results, σ') ->
  Forall2 (output_of (heap σ) (heap σ')) rows results
  /\ heap σ ⊆ heap σ'.
Proof.
  intros Hrows H. unfold main in H.
  destruct (main_loop_outputs requests_get json_dumps threshold (heap σ) rows
              Hrows [] σ results σ' (reflexivity _) H)
    as (Hsub & new & -> & Hnew).
  split; [exact Hnew|exact Hsub].
Qed.

Lemma main_gives_one_record_per_input_witness :
  let σ := Scenario.start [Scenario.berlin_row; adams_row] in
  let run := main Scenario.berlin_net Scenario.dumps F64.c075
               [0%nat; 1%nat] σ in
  fst run = Ok [2%nat; 1%nat]
  /\ Forall2 (output_of (heap σ) (heap (snd run))) [0%nat; 1%nat]
       [2%nat; 1%nat].
Proof.
  intros σ run.
  assert (H : run = (Ok [2%nat; 1%nat], snd run)) by (vm_compute; reflexivity).
  split; [now rewrite H|].
  apply (main_gives_one_record_per_input Scenario.berlin_net Scenario.dumps
           F64.c075 [0%nat; 1%nat] [2%nat; 1%nat] σ (snd run));
    [|exact H].
  repeat constructor; eexists; reflexivity.
Defined.

(** X18: what [main] attaches depends on the top of the ranking alone: when
    the best hit reaches the threshold, [wiki_qid] is its identifier and
    [wiki_qid_confidence] its confidence, which no other hit exceeds; when
    it does not, or when there is no hit, both fields are the empty
    string. *)
Theorem attached_result_is_the_top_of_the_ranking
    (requests_get : list request -> request -> response)
    (json_dumps : value -> string) (threshold : float)
    (r : nat) (results results' : list nat) (σ σ' : state)
    (row : gmap string value) :
  heap σ !! r = Some row ->
  skip_row row = false ->
  main_step requests_get json_dumps threshold r results σ = (Ok results', σ') ->
  exists candidates scored σ1 r_out row_out,
    find_candidates_for_row requests_get row threshold σ
    = (Ok (RetPair candidates scored), σ1)
    /\ results' = results ++ [r_out]
    /\ heap σ' !! r_out = Some row_out
    /\ match scored with
       | (qid, lbl, desc, conf) :: rest =>
           if F64.geb conf threshold then
             row_out !! "wiki_qid" = Some qid
             /\ row_out !! "wiki_qid_confidence" = Some (VFloat conf)
             /\ Forall (fun y => F64.leb (conf_of y) conf = true) rest
           else
             row_out !! "wiki_qid" = Some (VStr "")
             /\ row_out !! "wiki_qid_confidence" = Some (VStr "")
       | [] =>
           row_out !! "wiki_qid" = Some (VStr "")
           /\ row_out !! "wiki_qid_confidence" = Some (VStr "")
       end.
Proof.
  intros Hr Hskip H.
  apply main_step_resolved_inv in H
    as (candidates & scored & σ1 & r_out & v1 & v2 & v3
        & Hfc & -> & Hnew & Hout & Hfr & _ & Hatt);
    [|now rewrite Hr].
  rewrite Hr in Hout, Hfc. cbn [default] in Hout, Hfc.
  destruct (find_candidates_for_row_unit _ _ _ _ _ _ _ Hfc) as (_ & Hs & Hc).
  eexists candidates, scored, σ1, r_out, _.
  split; [exact Hfc|]. split; [reflexivity|]. split; [exact Hout|].
  assert (Hfallback : candidates = [] ->
            (<["wiki_qid_confidence" := v3]> (<["wiki_qid" := v2]>
               (<["wiki_qid_candidates" := v1]> row))) !! "wiki_qid"
            = Some (VStr "")
            /\ (<["wiki_qid_confidence" := v3]> (<["wiki_qid" := v2]>
                  (<["wiki_qid_candidates" := v1]> row))) !! "wiki_qid_confidence"
               = Some (VStr "")).
  { intros ->. destruct Hatt as (_ & -> & ->).
    split; [rewrite lookup_insert_ne by done|]; now rewrite lookup_insert_eq. }
  destruct scored as [|[[[qid lbl] desc] conf] rest].
  { apply Hfallback. exact Hc. }
  unfold accepted in Hc. cbn [List.filter conf_of snd] in Hc.
  inversion Hs as [|x l Hs' Hx]; subst x l.
  destruct (F64.geb conf threshold) eqn:E.
  - rewrite Hc in Hatt. cbn [fmap list_fmap] in Hatt.
    destruct Hatt as (_ & Hq & Hcf).
    rewrite candidate_dict_qid in Hq. rewrite candidate_dict_confidence in Hcf.
    cbn in Hq, Hcf. injection Hq as <-. injection Hcf as <-.
    split; [rewrite lookup_insert_ne by done; now rewrite lookup_insert_eq|].
    split; [now rewrite lookup_insert_eq|exact Hx].
  - apply Hfallback. rewrite Hc.
    rewrite filter_all_rejected; [reflexivity|].
    eapply below_head_all_rejected; [exact Hx|exact E].
Qed.

Lemma attached_result_is_the_top_of_the_ranking_witness :
  let σ := Scenario.start [Scenario.berlin_row] in
  let run := main_step berlin_pair_net Scenario.dumps F64.c075 0%nat [] σ in
  exists r_out row_out,
    fst run = Ok [r_out]
    /\ heap (snd run) !! r_out = Some row_out
    /\ row_out !! "wiki_qid" = Some (VStr "Q64")
    /\ row_out !! "wiki_qid_confidence" = Some (VFloat F64.c075).
Proof.
  intros σ run.
  assert (H : run = (Ok [1%nat], snd run)) by (vm_compute; reflexivity).
  destruct (attached_result_is_the_top_of_the_ranking berlin_pair_net
              Scenario.dumps F64.c075 0%nat [] [1%nat] σ (snd run)
              Scenario.berlin_row ltac:(vm_compute; reflexivity)
              ltac:(vm_compute; reflexivity) H)
    as (candidates & scored & σ1 & r_out & row_out & Hfc & Hres & Hout & Htop).
  assert (Hs : exists rest,
            scored = (VStr "Q64", VStr "Berlin",
                      VStr "capital city of Germany", F64.c075) :: rest).
  { assert (E : fst (find_candidates_for_row berlin_pair_net
                       Scenario.berlin_row F64.c075 σ)
                = Ok (RetPair candidates scored)) by (now rewrite Hfc).
    clear -E. vm_compute in E. injection E as _ <-. eexists. reflexivity. }
  destruct Hs as (rest & ->). cbv beta iota in Htop.
  change (F64.geb F64.c075 F64.c075) with true in Htop. cbv iota in Htop.
  destruct Htop as (Hq & Hc & _).
  cbn [app] in Hres. injection Hres as <-.
  exists 1%nat, row_out. rewrite H. auto.
Defined.

(** X19: feeding the output back in: for a record that was looked up, the
    output record is skipped by a later run exactly when the attached
    [wiki_qid] is truthy and not "TBD"; an unresolved record (empty
    [wiki_qid]) is looked up again. *)
Theorem rerun_skips_what_was_resolved
    (requests_get : list request -> request -> response)
    (json_dumps : value -> string) (threshold : float)
    (r : nat) (results results' : list nat) (σ σ' : state)
    (row : gmap string value) :
  heap σ !! r = Some row ->
  skip_row row = false ->
  main_step requests_get json_dumps threshold r results σ = (Ok results', σ') ->
  exists r_out row_out v,
    results' = results ++ [r_out]
    /\ heap σ' !! r_out = Some row_out
    /\ row_out !! "wiki_qid" = Some v
    /\ skip_row row_out = Py.truthy v && negb (Py.eq_str v "TBD")
    /\ (Py.truthy v && negb (Py.eq_str v "TBD") = true ->
        forall requests_get' json_dumps' threshold' results2,
          main_step requests_get' json_dumps' threshold' r_out results2 σ'
          = (Ok (results2 ++ [r_out]), σ')).
Proof.
  intros Hr Hskip H.
  apply main_step_resolved_inv in H
    as (candidates & scored & σ1 & r_out & v1 & v2 & v3
        & _ & -> & Hnew & Hout & Hfr & _ & _);
    [|now rewrite Hr].
  rewrite Hr in Hout. cbn [default] in Hout.
  eexists r_out, _, v2. split; [reflexivity|]. split; [exact Hout|].
  assert (Hq : (<["wiki_qid_confidence" := v3]> (<["wiki_qid" := v2]>
                  (<["wiki_qid_candidates" := v1]> row))) !! "wiki_qid"
               = Some v2).
  { rewrite lookup_insert_ne by done. now rewrite lookup_insert_eq. }
  assert (Hs : skip_row (<["wiki_qid_confidence" := v3]> (<["wiki_qid" := v2]>
                  (<["wiki_qid_candidates" := v1]> row)))
               = Py.truthy v2 && negb (Py.eq_str v2 "TBD")).
  { unfold skip_row in *. unfold Py.dict_get in *. rewrite Hq.
    rewrite !lookup_insert_ne by done. cbn [default].
    apply orb_false_elim in Hskip as [_ ->]. apply orb_false_r. }
  split; [exact Hq|]. split; [exact Hs|].
  intros Hv rg' jd' thr' results2. apply main_step_skip.
  rewrite Hout. exact (eq_trans Hs Hv).
Qed.

Lemma rerun_skips_what_was_resolved_witness :
  let σ := Scenario.start [Scenario.berlin_row] in
  let run := main_step Scenario.berlin_net Scenario.dumps F64.c075 0%nat [] σ in
  exists r_out row_out v,
    fst run = Ok [r_out]
    /\ heap (snd run) !! r_out = Some row_out
    /\ row_out !! "wiki_qid" = Some v
    /\ skip_row row_out = Py.truthy v && negb (Py.eq_str v "TBD").
Proof.
  intros σ run.
  assert (H : run = (Ok [1%nat], snd run)) by (vm_compute; reflexivity).
  destruct (rerun_skips_what_was_resolved Scenario.berlin_net
              Scenario.dumps F64.c075 0%nat [] [1%nat] σ (snd run)
              Scenario.berlin_row ltac:(vm_compute; reflexivity)
              ltac:(vm_compute; reflexivity) H)
    as (r_out & row_out & v & Hres & Hout & Hq & Hs & _).
  cbn [app] in Hres. injection Hres as <-.
  exists 1%nat, row_out, v. rewrite H. auto.
Defined.

(* ===================================================================== *)
(** ** Further properties: writing the CSV file *)
(* ===================================================================== *)

Section WriterFacts.

Lemma forallb_negb_existsb {A : Type} (f : A -> bool) (l : list A) :
  forallb f l = negb (existsb (fun x => negb (f x)) l).
Proof.
  induction l as [|x l IH]; [reflexivity|]. cbn. rewrite IH.
  now destruct (f x).
Qed.

(** The fields of an output record, for input records with the fields [K]. *)
Lemma output_of_dom (h h' : gmap nat (gmap string value)) (K : gset string)
    (r out : nat) (row : gmap string value) :
  h ⊆ h' -> h !! r = Some row -> dom row = K ->
  output_of h h' r out ->
  dom (default ∅ (h' !! out))
  = if skip_row (default ∅ (h !! r)) then K else K ∪ output_fields.
Proof.
  intros Hsub Hr HK (row' & Hr' & Hout).
  assert (row' = row) as -> by congruence.
  rewrite Hr. change (default ∅ (Some row)) with row.
  destruct (skip_row row).
  - subst out. eapply map_subseteq_spec in Hr; [|exact Hsub].
    rewrite Hr. exact HK.
  - destruct Hout as (_ & row_out & Ho & Hd & _). rewrite Ho.
    change (default ∅ (Some row_out)) with row_out.
    now rewrite Hd, HK.
Qed.

Lemma forallb_outputs (h h' : gmap nat (gmap string value)) (K F : gset string)
    (rows results : list nat) :
  h ⊆ h' ->
  Forall (fun r => exists row, h !! r = Some row /\ dom row = K) rows ->
  Forall2 (output_of h h') rows results ->
  forallb (fun out => bool_decide (dom (default ∅ (h' !! out)) ⊆ F)) results
  = forallb (fun r => bool_decide
               ((if skip_row (default ∅ (h !! r)) then K else K ∪ output_fields)
                ⊆ F)) rows.
Proof.
  intros Hsub Hrows H. induction H as [|r out rows results Ho H IH];
    [reflexivity|].
  apply Forall_cons in Hrows as [(row & Hr & HK) Hrows].
  cbn [forallb]. rewrite (IH Hrows).
  now rewrite (output_of_dom h h' K r out row Hsub Hr HK Ho).
Qed.

Lemma forallb_true_all {A : Type} (f : A -> bool) (l : list A) :
  (forall x, f x = true) -> forallb f l = true.
Proof. intros Hf. induction l as [|x l IH]; cbn; [|rewrite Hf, IH]; auto. Qed.

Lemma forallb_pointwise {A : Type} (f g : A -> bool) (l : list A) :
  (forall x, f x = g x) -> forallb f l = forallb g l.
Proof.
  intros Hfg. induction l as [|x l IH]; cbn; [|rewrite Hfg, IH]; reflexivity.
Qed.

End WriterFacts.

(** X20: the outcome of writing the CSV file after a run of [main] that
    reached its end, for input records that all have the same fields [K] (as
    [csv.DictReader] gives them): [IndexError] when there is no record;
    [ValueError] from [DictWriter] when the first record is passed through,
    the input lacks one of the three output fields, and some record was
    looked up; and no exception otherwise. *)
Theorem csv_writer_outcome
    (requests_get : list request -> request -> response)
    (json_dumps : value -> string) (threshold : float)
    (rows results : list nat) (σ σ' : state) (K : gset string) :
  Forall (fun r => exists row, heap σ !! r = Some row /\ dom row = K) rows ->
  main requests_get json_dumps threshold rows σ = (Ok results, σ') ->
  write_csv (heap σ') results
  = match rows with
    | [] => Some IndexError
    | r0 :: _ =>
        if skip_row (default ∅ (heap σ !! r0))
           && negb (bool_decide (output_fields ⊆ K))
           && existsb (fun r => negb (skip_row (default ∅ (heap σ !! r)))) rows
        then Some FieldNamesError
        else None
    end.
Proof.
  intros Hrows H. unfold main in H.
  assert (Hsome : Forall (fun r => is_Some (heap σ !! r)) rows).
  { eapply Forall_impl; [exact Hrows|]. cbn. intros r (row & Hr & _). eauto. }
  destruct (main_loop_outputs requests_get json_dumps threshold (heap σ) rows
              Hsome [] σ results σ' (reflexivity _) H)
    as (Hsub & new & -> & Hnew).
  cbn [app]. unfold write_csv.
  destruct Hnew as [|r0 out0 rows' outs Ho Hnew]; [reflexivity|].
  assert (Hall : Forall2 (output_of (heap σ) (heap σ')) (r0 :: rows')
                   (out0 :: outs)) by (now constructor).
  rewrite (forallb_outputs (heap σ) (heap σ') K _ (r0 :: rows') (out0 :: outs)
             Hsub Hrows Hall).
  pose proof Hrows as Hrows0.
  apply Forall_cons in Hrows0 as [(row0 & Hr0 & HK0) _].
  rewrite (output_of_dom _ _ K r0 out0 row0 Hsub Hr0 HK0 Ho).
  destruct (skip_row (default ∅ (heap σ !! r0))) eqn:Hskip0; cbn [andb].
  - destruct (bool_decide (output_fields ⊆ K)) eqn:HO; cbn [negb andb].
    + apply bool_decide_eq_true in HO.
      rewrite forallb_true_all; [reflexivity|].
      intros r. apply bool_decide_eq_true.
      destruct (skip_row (default ∅ (heap σ !! r))); [reflexivity|].
      apply union_least; [reflexivity|exact HO].
    + apply bool_decide_eq_false in HO.
      rewrite (forallb_pointwise _
                 (fun r => skip_row (default ∅ (heap σ !! r)))).
      * rewrite forallb_negb_existsb.
        now destruct (existsb _ (r0 :: rows')).
      * intros r. destruct (skip_row (default ∅ (heap σ !! r))).
        -- now apply bool_decide_eq_true.
        -- apply bool_decide_eq_false. intros Hc. apply HO.
           etrans; [apply union_subseteq_r|exact Hc].
  - rewrite forallb_true_all; [reflexivity|].
    intros r. apply bool_decide_eq_true.
    destruct (skip_row (default ∅ (heap σ !! r)));
      [apply union_subseteq_l|reflexivity].
Qed.

Lemma csv_writer_outcome_witness :
  let σ := Scenario.start [adams_row; Scenario.berlin_row] in
  let run := main Scenario.berlin_net Scenario.dumps F64.c075
               [0%nat; 1%nat] σ in
  fst run = Ok [0%nat; 2%nat]
  /\ write_csv (heap (snd run)) [0%nat; 2%nat] = Some FieldNamesError.
Proof.
  intros σ run.
  assert (H : run = (Ok [0%nat; 2%nat], snd run)) by (vm_compute; reflexivity).
  split; [now rewrite H|].
  assert (Hrows : Forall (fun r => exists row,
                            heap σ !! r = Some row /\ dom row = dom adams_row)
                    [0%nat; 1%nat]).
  { repeat constructor.
    - exists adams_row. split; vm_compute; reflexivity.
    - exists Scenario.berlin_row. split; vm_compute; reflexivity. }
  etrans;
    [exact (csv_writer_outcome Scenario.berlin_net Scenario.dumps F64.c075
              [0%nat; 1%nat] [0%nat; 2%nat] σ (snd run) (dom adams_row)
              Hrows H)|].
  vm_compute. reflexivity.
Defined.
